(* ===== verification/_CoqProject ===== *)
-Q . S2P
Prelude.v
Entities.v
Physics.v
Placement.v
Trails.v
Timer.v
World.v
Spawner.v
Triggers.v
Recycler.v
Restart.v
System.v
Layout.v
Frames.v
Debug.v
