(* ===== verification/Prelude.v ===== *)
(** * Panel simulation of "Multiply or Release": a verification library

    This development models the panel simulation core of the Bevy game in
    [src/panel_plugin.rs] (plugin [PanelPlugin]) and proves the properties
    that make it correct.  The program is a set of ECS systems that run once
    per frame on a shared world:

    - [spawn_workers] (the Worker Spawner): ticks a repeating timer; when it
      fires and the round counter is below [WORKER_BALL_COUNT_MAX], it reads
      the survivor flags of the two participants of each panel and spawns zero,
      one or two worker balls per panel at x positions found by the
      [WorkerBallShapeCaster] (the Placement Oracle), attaching a particle
      trail to each new ball, reusing an idle trail of the panel's side in
      the paired case;
    - [update_workers_particle_position] (the Trail Pool): moves every active
      trail to its ball, and parks the trail of a vanished ball as idle on an
      alternating side ([Local<bool> go_left]);
    - [trigger_event] (the Trigger Translator): turns contact-begin events
      between a trigger zone and a worker ball into [TriggerEvent]s, and drops
      the whole batch when a [RestartEvent] is pending;
    - [ball_reset] (the Zone-Exit Recycler): on contact-end with a trigger
      zone, teleports the ball to a free x at the top of its own panel and
      zeroes its velocity;
    - [restart] (the Restart Coordinator): resets the spawner, despawns every
      worker ball and re-parks every idle trail;
    - [setup]: the two panel roots and, under each, the obstacle course
      (a pyramid and a grid of circles, four dividers), the five trigger
      zones with their labels, the wall and the background.

    The debug drivers of [src/debug_utils.rs] ([auto_elimination],
    [auto_fire], [auto_multiply], [auto_hanabi], over a one-shot
    [AutoTimer]) send scripted events to the same game.

    Files (in dependency order, see [_CoqProject]):
    - [Prelude]: the [result] error monad and its [let?] notation
      ([panel_scope]), counting over lists, the [panel] hint databases,
      generic lemmas on lists, options and reachability.
    - [Entities]: participants, panel sides, trigger types and their
      [Display] labels (C35: distinct types have distinct labels), vectors,
      collision and trigger events, the constants of [panel_plugin.rs],
      panic messages and the error type.
    - [Physics]: worker balls ([WorkerBallBundle]), panel roots and the
      root lookup of [spawn_workers] ([select_roots], panicking like the
      code; C27), global positions, and the physics query as an interface:
      the class [ShapeQuery] states what [RapierContext::intersection_with_shape]
      promises, and the snapshot of the world is its instance.
    - [Placement]: [WorkerBallShapeCaster::get] ([caster_get]) and the
      paired loop of [spawn_workers] ([caster_get_pair]), in a Section over
      any [ShapeQuery]; C6-C8 (first free draw, termination, separation).
    - [Trails]: the trail pool: [update_workers_particle_position]
      ([update_trails]), the reuse/allocation of [setup_trail]
      ([reuse_idle], [attach_trail]) and the trail loop of [restart]
      ([restart_trails], and [restart_trails_deferred] when the commands of
      [spawn_workers] are still queued); C18 (the toggle-threading loop equals a stateless
      reference), C19-C21.
    - [Timer]: Bevy's [Timer] (Module [BevyTimer], modelled from its
      documentation: the library is not in the repository) and
      [WorkerBallSpawner] with [new], [reset] and the run condition; C26.
    - [World]: the shared world ([World] record: roots, trigger zones,
      balls, trail pool, spawner, the update toggle, the entity counter),
      its queries and the world [setup] leaves ([setup_world]).
    - [Spawner]: [spawn_workers] with its three per-panel cases and its run
      condition; C1, C2 (what a round spawns, that it overlaps nothing),
      C22, C23, C28.
    - [Triggers]: [trigger_event]; C9, C10, C25.
    - [Recycler]: [ball_reset]; C11, and C12: all casters of a batch read
      the snapshot of the start of the system, so two balls of a panel can
      be stacked.
    - [Restart]: [restart], and [restart_deferred], the same system after a
      [spawn_workers] of the same frame whose commands are still queued;
      C13-C15.
    - [System]: the plugin as a transition relation [step] (every system of
      [PanelPlugin::build] and the physics step, in any order, and the frame
      where [restart] runs after [spawn_workers] before either's commands
      apply) and the invariant [wf] of every reachable world; C3, C4 (one
      trail per live ball, following it), C16 (at most
      [4 * (WORKER_BALL_COUNT_MAX + 1) = 28] balls), C24 (no trail is ever
      destroyed), and C5: the refinement of the abstract population machine
      [pop_step] (stay, one capped round of at most four fresh entities,
      clear, or a round raced by a restart, which keeps only that round's
      entities and zeroes the counter) by [step].
    - [Layout]: [setup] as a state and error monad [SetupM] over the log of
      spawned entities ([spawn] hands out the next entity, with its parent),
      the [ObstacleBundleBuilder] with [build] and the panicking
      [buildtmb] (C33), the pyramid and grid loops, the dividers, the zone
      closure; C29 (what [setup] spawns, and that it yields the world
      [World.setup_world] the step relation starts from), C30 (the zones
      tile the arena), C31 (dividers on zone borders), C32 (every pair of
      circles leaves room for a ball), C34 (triangular pyramid count).
    - [Frames]: runs of [step] from the world [setup] builds; C17 (the
      bound of C16 is reached: a round raced by a restart and six more
      rounds leave 28 balls, more than the 24 the round cap suggests).
    - [Debug]: [src/debug_utils.rs]: a one-shot Bevy timer, the four debug
      systems and the [auto_elimination] registered by [DebugUtilsPlugin]
      over a run of frames; C36 (the batch is sent exactly once, after ten
      seconds), C37 (the packed colour decodes to its bytes), C38 (the
      saturating [as u32] cast lets a channel spill into its neighbour),
      C39 (the [unreachable!] arm of [auto_hanabi]).

    Bounds and fuel.  The caster's loops carry explicit fuel.  C7 says
    [k - i + 1] units suffice when the draw at [k] is free, so every theorem
    about a successful placement holds for the fuel the code would need;
    the witnesses use 10 units, enough for the draws they use.  Durations
    are [N] nanoseconds; the [u32] counter of finished ticks wraps as in
    Bevy.  [WORKER_BALL_COUNT_MAX] counts spawn rounds of at most four
    balls, and a restart racing a round keeps that round's balls with the
    counter reset, so the population bound of C16 is [4 * (6 + 1) = 28]
    balls, which C17 shows is reached for every [TRAIL_LIFETIME] within the
    spawn period.  The colour word of [auto_hanabi]
    is a [Z] kept to 32 bits ([Z.land] with [Z.ones 32]), and [as u32] is
    Rust's saturating float cast ([Qfloor] clamped to [[0, u32::MAX]]).

    Not modelled: [src/main.rs] (window, camera, plugin registration and
    unused bundle declarations: pure I/O and declarations);
    [print_trigger_events] (console output); mesh and material assets,
    which are shape and colour tags; the [Srgba] conversion of participant
    colours (an input of [auto_hanabi]); the rounding of [f32] products,
    which every constant of the layout avoids (all are exact halves); the
    survivor map and [RestartEvent] sender of other modules, which are
    inputs here.  Bevy iterates a query in archetype order, which is
    abstracted as list order.  Within one frame, each system's commands are
    applied before the next system runs, except where this changes the
    outcome: [restart] after [spawn_workers] in the same frame
    ([System.step_spawn_restart]).  The other same-frame interleavings give
    the worlds of the sequential steps, up to the physics snapshot below.
    [GlobalTransform] is taken as propagated at once (Bevy propagates it in
    [PostUpdate], so a trail follows a ball teleported earlier in the frame
    one frame late).

    Modelling conventions.
    - Entities are natural numbers handed out by a counter in the world and
      never reused: this is Bevy's generational [Entity], for which a
      despawned entity never resolves again.  In [Layout] an entity is its
      index in the spawn log.
    - [f32] coordinates of the dynamic systems are exact integers ([Z]);
      the layout of [setup] uses exact rationals ([Q]), since its constants
      include halves ([2.5]).  Random draws of
      [Uniform::new(-ARENA_WIDTH_FRAC_2, ARENA_WIDTH_FRAC_2)] are an infinite
      stream [nat -> Z] with a read position threaded through the systems;
      the draws of [auto_hanabi] are its arguments.
    - The infinite rejection-sampling loops of the caster are Fixpoints with
      fuel; running out of fuel is the error [OutOfFuel], and the termination
      theorems say how much fuel suffices.
    - A panic of the code ([panic!], [expect], [unwrap], [unreachable!]) is
      the error [Panic] with its message.
    - Deferred [Commands] are applied at the end of the system that issued
      them, but for [System.step_spawn_restart]; the world a system reads
      through [RapierContext] is the snapshot of the worker balls taken when
      the system starts.  [bevy_rapier] answers from the state of the last
      physics step, which may miss balls spawned or moved earlier in the
      frame; the placement theorems are stated against the snapshot the
      model's query reads, as the spec states the Oracle's predicate.
    - A claim C<n> is named in the doc comment of its theorem; a theorem
      with hypotheses has a [_witness] lemma applying it to a concrete
      world. *)

From stdpp Require Import base list relations.
From Stdlib Require Import ZArith Lia.

(** ** The error monad of the development *)

Inductive result (A E : Type) : Type :=
| Ok (a : A)
| Err (e : E).
Arguments Ok {A E} a.
Arguments Err {A E} e.

Definition rbind {A B E} (m : result A E) (k : A -> result B E) : result B E :=
  match m with
  | Ok a => k a
  | Err e => Err e
  end.

Declare Scope panel_scope.
Delimit Scope panel_scope with panel.
Notation "'let?' x ':=' m 'in' k" := (rbind m (fun x => k))
  (at level 10, x name, m at level 100, k at level 200) : panel_scope.
Notation "'let?' ' p ':=' m 'in' k" := (rbind m (fun x => match x with p => k end))
  (at level 10, p pattern, m at level 100, k at level 200) : panel_scope.
Open Scope panel_scope.

Definition is_ok {A E} (r : result A E) : bool :=
  match r with Ok _ => true | Err _ => false end.

(** ** Counting the elements of a list that satisfy a boolean test *)

Definition countb {A} (f : A -> bool) (l : list A) : nat :=
  length (List.filter f l).

Create HintDb panel discriminated.
Create Rewrite HintDb panel_rw.

(** ** Generic lemmas *)

Lemma rbind_Ok_inv {A B E} (m : result A E) (k : A -> result B E) b :
  rbind m k = Ok b -> exists a, m = Ok a /\ k a = Ok b.
Proof. destruct m as [a|e]; simpl; [eauto|discriminate]. Qed.

Lemma rbind_Ok {A B E} (a : A) (k : A -> result B E) : rbind (Ok a) k = k a.
Proof. reflexivity. Qed.

Lemma countb_nil {A} (f : A -> bool) : countb f [] = 0.
Proof. reflexivity. Qed.

Lemma countb_cons {A} (f : A -> bool) x l :
  countb f (x :: l) = (if f x then 1 else 0) + countb f l.
Proof. unfold countb; simpl; destruct (f x); reflexivity. Qed.

Lemma countb_app {A} (f : A -> bool) l1 l2 :
  countb f (l1 ++ l2) = countb f l1 + countb f l2.
Proof. unfold countb. rewrite List.filter_app, length_app. reflexivity. Qed.

Lemma countb_zero {A} (f : A -> bool) l :
  countb f l = 0 <-> Forall (fun x => f x = false) l.
Proof.
  induction l as [|x l IH]; [split; auto|].
  rewrite countb_cons, Forall_cons, <- IH. destruct (f x); intuition lia.
Qed.

Lemma countb_ext_in {A} (f g : A -> bool) l :
  (forall x, In x l -> f x = g x) -> countb f l = countb g l.
Proof.
  induction l as [|x l IH]; intros Hfg; [reflexivity|].
  rewrite !countb_cons, (Hfg x (or_introl eq_refl)), IH; [reflexivity|].
  intros y Hy. apply Hfg. now right.
Qed.

Lemma countb_le_length {A} (f : A -> bool) l : countb f l <= length l.
Proof. unfold countb. apply List.filter_length_le. Qed.

Lemma countb_map {A B} (f : B -> bool) (g : A -> B) l :
  countb f (map g l) = countb (fun x => f (g x)) l.
Proof.
  induction l as [|x l IH]; [reflexivity|].
  simpl map. rewrite !countb_cons, IH. reflexivity.
Qed.

(** stdpp's [filter] keeps a whole list whose elements all pass, and drops
    a whole list whose elements all fail. *)
Lemma filter_Forall_id {A} (P : A -> Prop) `{!forall x, Decision (P x)} l :
  Forall P l -> filter P l = l.
Proof.
  induction 1 as [|x l Hx _ IH]; [reflexivity|].
  rewrite filter_cons_True by exact Hx. f_equal. exact IH.
Qed.

Lemma filter_Forall_nil {A} (P : A -> Prop) `{!forall x, Decision (P x)} l :
  Forall (fun x => ~ P x) l -> filter P l = [].
Proof.
  induction 1 as [|x l Hx _ IH]; [reflexivity|].
  rewrite filter_cons_False by exact Hx. exact IH.
Qed.

(** A property preserved by every step holds in every reachable state. *)
Lemma rtc_preserved {S} (R : relation S) (P : S -> Prop) x y :
  (forall a b, P a -> R a b -> P b) -> P x -> rtc R x y -> P y.
Proof. intros Hstep Hx Hr. induction Hr; eauto. Qed.

#[export] Hint Rewrite @countb_nil @countb_cons @countb_app @countb_map : panel_rw.
#[export] Hint Rewrite @rbind_Ok : panel_rw.
#[export] Hint Resolve countb_le_length : panel.

(** [inv_ok] destructs a hypothesis [let? x := m in k = Ok b] into the
    equations of its two halves. *)
Ltac inv_ok H :=
  let a := fresh "a" in
  let Hm := fresh "Hm" in
  apply rbind_Ok_inv in H; destruct H as [a [Hm H]].

(** [case_if] splits on the first boolean test of the goal. *)
Ltac case_if :=
  match goal with
  | |- context [if ?b then _ else _] => let E := fresh "E" in destruct b eqn:E
  end.

(** [simpl_decide] evaluates the [bool_decide]s of the goal whose equation
    is trivially true or refuted by injectivity and discrimination of
    constructors (after a case split on the booleans it involves). *)
Ltac refute_eq :=
  let H := fresh in
  intros H; simplify_eq;
  repeat match goal with b : bool |- _ => destruct b end; simpl in *; congruence.

Ltac simpl_decide :=
  repeat match goal with
  | |- context [bool_decide (?a = ?a)] =>
      rewrite (bool_decide_eq_true_2 (a = a)) by reflexivity
  | |- context [bool_decide (?a = ?b)] =>
      rewrite (bool_decide_eq_false_2 (a = b)) by refute_eq
  end.
