(* ===== verification/Entities.v ===== *)
(** Data shared by every component of [src/panel_plugin.rs]: the participants
    and their panel sides, the trigger types and their on-screen labels,
    2D vectors, the collision and trigger events, the constants of the file,
    and the error type (panics of the code and fuel exhaustion of the
    model). *)

From stdpp Require Import base list strings pretty.
From Stdlib Require Import ZArith Lia Ascii.
From S2P Require Import Prelude.

(** Bevy's [Entity]: an identifier that is never handed out twice. *)
Definition Entity := nat.

(** [Participant] (from the [utils] module): four fixed values. *)
Inductive Participant := A | B | C | D.

#[export] Instance Participant_eq_dec : EqDecision Participant.
Proof. solve_decision. Defined.

(** [PanelRootSide] and [PanelRootSide::for_participant]. *)
Inductive PanelRootSide := Left | Right.

#[export] Instance PanelRootSide_eq_dec : EqDecision PanelRootSide.
Proof. solve_decision. Defined.

Definition for_participant (p : Participant) : PanelRootSide :=
  match p with
  | A | B => Left
  | C | D => Right
  end.

(** [TriggerType]; the factor of [Multiply] is a [u8]. *)
Inductive TriggerType :=
| Multiply (factor : N)
| BurstShot
| ChargedShot.

#[export] Instance TriggerType_eq_dec : EqDecision TriggerType.
Proof. solve_decision. Defined.

Definition u8_ok (n : N) : Prop := (n < 256)%N.

(** The ["\n"] of the labels. *)
Definition newline : string := String (ascii_of_nat 10) EmptyString.

(** [impl Display for TriggerType]. *)
Definition trigger_label (t : TriggerType) : string :=
  match t with
  | Multiply factor => "x" +:+ pretty factor
  | BurstShot => "Release" +:+ newline +:+ "Burst" +:+ newline +:+ "Shots"
  | ChargedShot => "Release" +:+ newline +:+ "Changed" +:+ newline +:+ "Shots"
  end.

(** [Vec2] with integer coordinates. *)
Record Vec2 := mkVec2 { vx : Z; vy : Z }.

#[export] Instance Vec2_eq_dec : EqDecision Vec2.
Proof. solve_decision. Defined.

Definition vzero : Vec2 := mkVec2 0 0.

(** ** Constants of [panel_plugin.rs] *)

Definition LEFT_ROOT_X : Z := -500.
Definition RIGHT_ROOT_X : Z := 500.
Definition ARENA_WIDTH : Z := 260.
Definition ARENA_WIDTH_FRAC_2 : Z := ARENA_WIDTH / 2.
Definition ARENA_WIDTH_FRAC_5 : Z := ARENA_WIDTH / 5.
Definition ARENA_WIDTH_FRAC_10 : Z := ARENA_WIDTH / 10.
Definition TRIGGER_ZONE_Y : Z := -250.
Definition TRIGGER_ZONE_HEIGHT : Z := 40.
Definition WORKER_BALL_RADIUS : Z := 5.
Definition WORKER_BALL_DIAMETER : Z := WORKER_BALL_RADIUS * 2.
Definition WORKER_BALL_SPAWN_Y : Z := 320.
Definition WORKER_BALL_COUNT_MAX : nat := 6.

(** The root position of a panel side, as used by
    [update_workers_particle_position] and [restart] to park idle trails. *)
Definition side_root_x (go_left : bool) : Z :=
  if go_left then LEFT_ROOT_X else RIGHT_ROOT_X.

(** ** Events *)

(** [bevy_rapier2d::CollisionEvent]; the [CollisionEventFlags] are not read
    by the code and are left out. *)
Inductive CollisionEvent :=
| Started (a b : Entity)
| Stopped (a b : Entity).

(** [TriggerEvent]. *)
Record TriggerEvent := mkTriggerEvent {
  te_participant : Participant;
  te_trigger_type : TriggerType;
}.

#[export] Instance TriggerEvent_eq_dec : EqDecision TriggerEvent.
Proof. solve_decision. Defined.

(** ** Errors *)

(** The messages the code panics with: its two [expect] messages, the
    message of [Option::unwrap] on [None], and [unreachable!()]. *)
Inductive PanicMsg :=
| EXPECT_TWO_PANELS_MSG
| EXPECT_EACH_PANEL_SIDE_EXIST_MSG
| UNWRAP_NONE
| UNREACHABLE.

Inductive Error :=
| Panic (m : PanicMsg)
| OutOfFuel.

Abbreviation Result A := (result A Error).

(** ** Theorems *)

(** C35: labels identify trigger types.  Two trigger types with the same
    on-screen label (the one [setup] prints on each zone and in its entity
    name) are the same type: the decimal rendering of a [Multiply] factor
    is injective, and the three variants' labels start differently. *)
Theorem trigger_label_inj t1 t2 : trigger_label t1 = trigger_label t2 -> t1 = t2.
Proof.
  destruct t1 as [a| |], t2 as [b| |]; simpl; intros H; try discriminate; try reflexivity.
  injection H as H. f_equal. exact (inj pretty _ _ H).
Qed.

Lemma trigger_label_inj_witness :
  trigger_label (Multiply 2) <> trigger_label (Multiply 4) /\
  (trigger_label (Multiply 4) = trigger_label (Multiply 4) -> Multiply 4 = Multiply 4).
Proof.
  split; [vm_compute; discriminate|].
  exact (trigger_label_inj (Multiply 4) (Multiply 4)).
Defined.
