(* ===== verification/Physics.v ===== *)
(** Worker balls, panel roots and the physics query the placement oracle
    uses.  [Ball] is the state of an entity spawned from [WorkerBallBundle]
    ([src/panel_plugin.rs]); [PanelRoot] the two roots spawned by [setup].
    The query [RapierContext::intersection_with_shape] restricted to dynamic
    bodies of group [PANEL_BALLS] is the interface [ShapeQuery]: a client
    proves its theorems against the law [intersects_spec], and the instance
    [snapshot_query] discharges the law for the ball-ball intersection test
    of the physics engine on a snapshot of ball centres. *)

From stdpp Require Import base list.
From Stdlib Require Import ZArith Lia.
From S2P Require Import Prelude Entities.

Local Open Scope Z_scope.

(** ** Worker balls *)

(** The components of a worker ball the simulation reads or writes: its
    [Participant], its parent panel root ([set_parent(root_entity)]), its
    local [Transform] translation (z is constant and left out) and its
    [Velocity]. *)
Record Ball := mkBall {
  ball_id : Entity;
  ball_participant : Participant;
  ball_parent : Entity;
  ball_translation : Vec2;
  ball_velocity : Vec2;
}.

(** [WorkerBallBundle::new(participant, x, ..)] spawned as a child of
    [parent]: at [(x, WORKER_BALL_SPAWN_Y)] with [Velocity::zero()]. *)
Definition WorkerBallBundle_new (id : Entity) (parent : Entity)
    (participant : Participant) (x : Z) : Ball :=
  {| ball_id := id;
     ball_participant := participant;
     ball_parent := parent;
     ball_translation := mkVec2 x WORKER_BALL_SPAWN_Y;
     ball_velocity := vzero |}.

(** ** Panel roots *)

(** An entity with [PanelRoot(side)] and its [GlobalTransform]. *)
Record PanelRoot := mkPanelRoot {
  root_entity : Entity;
  root_side : PanelRootSide;
  root_translation : Vec2;
}.

(** The roots spawned by [setup]. *)
Definition setup_roots (left_id right_id : Entity) : list PanelRoot :=
  [mkPanelRoot left_id Left (mkVec2 LEFT_ROOT_X 0);
   mkPanelRoot right_id Right (mkVec2 RIGHT_ROOT_X 0)].

(** The root lookup of [spawn_workers]: collect the roots into a slice that
    must have exactly two elements, one per side. *)
Definition select_roots (roots : list PanelRoot) : Result (PanelRoot * PanelRoot) :=
  match roots with
  | [root0; root1] =>
      match root_side root0, root_side root1 with
      | Left, Right => Ok (root0, root1)
      | Right, Left => Ok (root1, root0)
      | _, _ => Err (Panic EXPECT_EACH_PANEL_SIDE_EXIST_MSG)
      end
  | _ => Err (Panic EXPECT_TWO_PANELS_MSG)
  end.

(** The root lookup of [ball_reset]: the first root of the wanted side, or
    the panic of [expect]. *)
Definition find_root (roots : list PanelRoot) (side : PanelRootSide) : Result PanelRoot :=
  match List.find (fun r => bool_decide (root_side r = side)) roots with
  | Some r => Ok r
  | None => Err (Panic EXPECT_EACH_PANEL_SIDE_EXIST_MSG)
  end.

Definition vadd (u v : Vec2) : Vec2 := mkVec2 (vx u + vx v) (vy u + vy v).

(** [GlobalTransform] of a ball: its parent's translation plus its own. *)
Definition global_translation (roots : list PanelRoot) (b : Ball) : Vec2 :=
  match List.find (fun r => Nat.eqb (root_entity r) (ball_parent b)) roots with
  | Some r => vadd (root_translation r) (ball_translation b)
  | None => ball_translation b
  end.

(** ** The shape query *)

(** Two balls of radius [WORKER_BALL_RADIUS] intersect when their centres are
    at most a diameter apart (the ball-ball test of the physics engine
    compares the squared distance with the squared sum of the radii). *)
Definition balls_intersect (c p : Vec2) : bool :=
  let dx := vx c - vx p in
  let dy := vy c - vy p in
  dx * dx + dy * dy <=? WORKER_BALL_DIAMETER * WORKER_BALL_DIAMETER.

(** What the placement oracle needs from the physics engine. *)
Class ShapeQuery (Ctx : Type) := {
  intersects : Ctx -> Vec2 -> bool;
  query_bodies : Ctx -> list Vec2;
  intersects_spec : forall ctx p,
    intersects ctx p = false <->
    Forall (fun c => balls_intersect c p = false) (query_bodies ctx);
}.

(** The physics world a system sees: the centres of the worker balls. *)
Record Snapshot := mkSnapshot { snapshot_centres : list Vec2 }.

Definition rapier_snapshot (roots : list PanelRoot) (balls : list Ball) : Snapshot :=
  mkSnapshot (map (global_translation roots) balls).

Definition snapshot_intersects (s : Snapshot) (p : Vec2) : bool :=
  existsb (fun c => balls_intersect c p) (snapshot_centres s).

Lemma existsb_false_Forall {X} (f : X -> bool) l :
  existsb f l = false <-> Forall (fun x => f x = false) l.
Proof.
  induction l as [|x l IH]; simpl; [split; auto|].
  rewrite Forall_cons, <- IH, orb_false_iff. reflexivity.
Qed.

#[export] Instance snapshot_query : ShapeQuery Snapshot := {
  intersects := snapshot_intersects;
  query_bodies := snapshot_centres;
  intersects_spec := fun s p => existsb_false_Forall _ (snapshot_centres s);
}.

Lemma intersects_false_in `{ShapeQuery Ctx} (ctx : Ctx) p c :
  intersects ctx p = false -> In c (query_bodies ctx) -> balls_intersect c p = false.
Proof.
  intros Hq Hin. apply intersects_spec in Hq. rewrite Forall_forall in Hq.
  apply Hq. by apply list_elem_of_In.
Qed.

(** C27: the root lookup of [spawn_workers] succeeds exactly when the
    world holds two panel roots, one per side, and returns them ordered
    (left, right); otherwise it is one of the two panics of the code. *)
Theorem select_roots_correct roots lr rr :
  select_roots roots = Ok (lr, rr) <->
  root_side lr = Left /\ root_side rr = Right /\
  (roots = [lr; rr] \/ roots = [rr; lr]).
Proof.
  split.
  - destruct roots as [|r0 [|r1 [|r2 roots]]]; simpl; try discriminate.
    destruct (root_side r0) eqn:E0, (root_side r1) eqn:E1; intros Hs;
      simplify_eq; auto.
  - intros (Hl & Hr & [-> | ->]); simpl; rewrite Hl, Hr; reflexivity.
Qed.

Lemma select_roots_correct_witness :
  root_side (mkPanelRoot 0%nat Left (mkVec2 LEFT_ROOT_X 0)) = Left /\
  root_side (mkPanelRoot 1%nat Right (mkVec2 RIGHT_ROOT_X 0)) = Right /\
  (setup_roots 0%nat 1%nat = [mkPanelRoot 0%nat Left (mkVec2 LEFT_ROOT_X 0);
                              mkPanelRoot 1%nat Right (mkVec2 RIGHT_ROOT_X 0)] \/
   setup_roots 0%nat 1%nat = [mkPanelRoot 1%nat Right (mkVec2 RIGHT_ROOT_X 0);
                              mkPanelRoot 0%nat Left (mkVec2 LEFT_ROOT_X 0)]).
Proof. apply (proj1 (select_roots_correct (setup_roots 0%nat 1%nat) _ _)). reflexivity. Defined.
