(* ===== verification/Placement.v ===== *)
(** The Placement Oracle: [WorkerBallShapeCaster] of [src/panel_plugin.rs]
    (lines 896-939) and the paired-placement loop of [spawn_workers]
    (lines 715-723).  The caster walks an infinite iterator of uniform draws
    and returns the first draw whose spawn point does not intersect a worker
    ball; the model reads the draws from a stream [draws : nat -> Z] at a
    position [i] that it returns advanced, bounds the loop by fuel, and is
    proved against the [ShapeQuery] interface only.  The theorems say that
    a returned draw is free, that it is the first free draw, how much fuel
    suffices, and that the paired loop returns two free draws more than a
    diameter apart. *)

From stdpp Require Import base list.
From Stdlib Require Import ZArith Lia.
From S2P Require Import Prelude Entities Physics.

Local Open Scope Z_scope.

Section Caster.
Context `{SQ : ShapeQuery Ctx}.
(** The values [thread_rng().sample_iter(Uniform::new(..))] yields. *)
Variable draws : nat -> Z.

(** The point tested for a draw [x]: [(x + root.x, SPAWN_Y + root.y)]. *)
Definition spawn_point (root : Vec2) (x : Z) : Vec2 :=
  mkVec2 (x + vx root) (WORKER_BALL_SPAWN_Y + vy root).

Definition free (ctx : Ctx) (root : Vec2) (x : Z) : bool :=
  negb (intersects ctx (spawn_point root x)).

(** [WorkerBallShapeCaster::get]. *)
Fixpoint caster_get (fuel : nat) (ctx : Ctx) (root : Vec2) (i : nat)
    : Result (Z * nat) :=
  match fuel with
  | O => Err OutOfFuel
  | S fuel' =>
      let x := draws i in
      if intersects ctx (spawn_point root x)
      then caster_get fuel' ctx root (S i)
      else Ok (x, S i)
  end.

(** The loop of the paired case: draw [xa] and [xb] with the same caster
    until they are more than [WORKER_BALL_DIAMETER] apart. *)
Fixpoint caster_get_pair (fuel : nat) (ctx : Ctx) (root : Vec2) (i : nat)
    : Result (Z * Z * nat) :=
  match fuel with
  | O => Err OutOfFuel
  | S fuel' =>
      let? '(xa, i1) := caster_get fuel ctx root i in
      let? '(xb, i2) := caster_get fuel ctx root i1 in
      if WORKER_BALL_DIAMETER <? Z.abs (xa - xb)
      then Ok (xa, xb, i2)
      else caster_get_pair fuel' ctx root i2
  end.

(** ** Lemmas on [caster_get] *)

Lemma caster_get_fuel_mono n m ctx root i r :
  (n <= m)%nat -> caster_get n ctx root i = Ok r -> caster_get m ctx root i = Ok r.
Proof.
  revert m i. induction n as [|n IH]; intros [|m] i Hle H; simpl in *;
    try discriminate; try lia.
  destruct (intersects ctx _); [apply IH; [lia|]|]; assumption.
Qed.

Lemma caster_get_advances n ctx root i x j :
  caster_get n ctx root i = Ok (x, j) -> (i < j)%nat /\ x = draws (pred j).
Proof.
  revert i. induction n as [|n IH]; intros i H; simpl in H; [discriminate|].
  destruct (intersects ctx _).
  - apply IH in H. lia.
  - simplify_eq. split; [lia | reflexivity].
Qed.

(** C6: a draw returned by the caster is free (its spawn point intersects
    no worker ball of the query), and every draw the caster skipped
    intersects one: it is the first free draw from the read position. *)
Theorem caster_get_first_free n ctx root i x j :
  caster_get n ctx root i = Ok (x, j) ->
  x = draws (pred j) /\ free ctx root x = true /\
  (forall k, (i <= k < pred j)%nat -> free ctx root (draws k) = false).
Proof.
  unfold free. revert i. induction n as [|n IH]; intros i H; simpl in H;
    [discriminate|].
  destruct (intersects ctx (spawn_point root (draws i))) eqn:Hq.
  - destruct (IH _ H) as (Hx & Hfree & Hskip).
    pose proof (caster_get_advances _ _ _ _ _ _ H).
    repeat split; auto. intros k Hk.
    destruct (Nat.eq_dec k i) as [->|]; [rewrite Hq; reflexivity|].
    apply Hskip. lia.
  - simplify_eq. simpl. rewrite Hq. repeat split; auto. intros; lia.
Qed.

(** C7: termination of the rejection loop.  If the draw at position [k]
    is free, [k - i + 1] units of fuel make the caster return, and it
    returns a draw at a position no later than [k]. *)
Theorem caster_get_terminates ctx root i k :
  (i <= k)%nat -> free ctx root (draws k) = true ->
  exists j, (j <= k)%nat /\
    caster_get (S (k - i)) ctx root i = Ok (draws j, S j).
Proof.
  unfold free. intros Hik Hk. remember (k - i)%nat as d eqn:Hd.
  revert i Hik Hd. induction d as [|d IH]; intros i Hik Hd; simpl.
  - assert (k = i) as -> by lia. destruct (intersects _ _); [discriminate|].
    exists i. split; [lia | reflexivity].
  - destruct (intersects ctx (spawn_point root (draws i))) eqn:Hq.
    + destruct (IH (S i)) as (j & Hj & Hget); [lia | lia |].
      exists j. split; [lia|]. exact Hget.
    + exists i. split; [lia | reflexivity].
Qed.

(** ** Lemmas on the paired loop *)

Lemma caster_get_pair_fuel_mono n m ctx root i r :
  (n <= m)%nat -> caster_get_pair n ctx root i = Ok r ->
  caster_get_pair m ctx root i = Ok r.
Proof.
  revert m i. induction n as [|n IH]; intros [|m] i Hle H;
    cbn [caster_get_pair] in *; try discriminate; try lia.
  inv_ok H. destruct a as [xa i1].
  rewrite (caster_get_fuel_mono (S n) (S m) _ _ _ _ ltac:(lia) Hm). cbn [rbind].
  inv_ok H. destruct a as [xb i2].
  rewrite (caster_get_fuel_mono (S n) (S m) _ _ _ _ ltac:(lia) Hm0). cbn [rbind].
  destruct (_ <? _); [exact H | apply IH; [lia | exact H]].
Qed.

(** C8: the paired loop returns two free draws that are more than a ball
    diameter apart. *)
Theorem caster_get_pair_separated n ctx root i xa xb j :
  caster_get_pair n ctx root i = Ok (xa, xb, j) ->
  free ctx root xa = true /\ free ctx root xb = true /\
  WORKER_BALL_DIAMETER < Z.abs (xa - xb).
Proof.
  revert i. induction n as [|n IH]; intros i H; cbn [caster_get_pair] in H;
    [discriminate|].
  inv_ok H. destruct a as [xa' i1]. inv_ok H. destruct a as [xb' i2].
  destruct (WORKER_BALL_DIAMETER <? Z.abs (xa' - xb')) eqn:Hsep.
  - simplify_eq. apply Z.ltb_lt in Hsep.
    destruct (caster_get_first_free _ _ _ _ _ _ Hm) as (_ & Ha & _).
    destruct (caster_get_first_free _ _ _ _ _ _ Hm0) as (_ & Hb & _).
    auto.
  - eauto.
Qed.
End Caster.

(** ** Witnesses *)

(** A snapshot with one ball at the top of the left panel, and draws
    [-6, 7, 20, 33, ...]: the first two draws hit the ball, the third is
    free. *)
Definition example_snapshot : Snapshot := mkSnapshot [mkVec2 (-500) 320].
Definition example_root : Vec2 := mkVec2 (-500) 0.
Definition example_draws (k : nat) : Z := Z.of_nat k * 13 - 6.

Lemma caster_get_first_free_witness :
  caster_get example_draws 3 example_snapshot example_root 0 = Ok (20, 3%nat) /\
  20 = example_draws 2 /\ free example_snapshot example_root 20 = true /\
  (forall k, (0 <= k < 2)%nat -> free example_snapshot example_root (example_draws k) = false).
Proof.
  split; [vm_compute; reflexivity|].
  apply (caster_get_first_free example_draws 3 example_snapshot example_root 0 20 3).
  vm_compute; reflexivity.
Defined.

Lemma caster_get_terminates_witness :
  exists j, (j <= 2)%nat /\
    caster_get example_draws (S (2 - 0)) example_snapshot example_root 0 =
    Ok (example_draws j, S j).
Proof.
  apply (caster_get_terminates example_draws example_snapshot example_root 0 2);
    [lia | vm_compute; reflexivity].
Defined.

Lemma caster_get_pair_separated_witness :
  caster_get_pair example_draws 3 example_snapshot example_root 0 = Ok (20, 33, 4%nat) /\
  free example_snapshot example_root 20 = true /\ free example_snapshot example_root 33 = true /\
  WORKER_BALL_DIAMETER < Z.abs (20 - 33).
Proof.
  split; [vm_compute; reflexivity|].
  apply (caster_get_pair_separated example_draws 3 example_snapshot example_root 0 20 33 4).
  vm_compute; reflexivity.
Defined.
