(* ===== verification/Trails.v ===== *)
(** The Trail Pool of [src/panel_plugin.rs].  A trail entity carries either
    [WorkerBallTrail(ball)] (active, following a ball) or
    [InactiveWorkerBallTrail(is_left)] (idle, parked on a side); the model
    makes this the variant [TrailState].  The pool is the list of trail
    entities in query order.  Operations:
    - [WorkerBallTrailBundle_new] (lines 200-217): a fresh active trail;
    - [update_trails] = [update_workers_particle_position] (lines 788-810);
    - [reuse_idle] / [attach_trail] = [setup_trail] of [spawn_workers]
      (lines 724-757): reuse the first idle trail of the side or spawn one;
    - [restart_trails] = the trail loop of [restart] (lines 950-957), and
      [restart_trails_deferred] the same loop when [spawn_workers] ran
      earlier in the frame and its commands are still queued.
    [update_trails_ref] is a stateless reference for [update_trails]: each
    trail's side depends only on how many vanished trails precede it. *)

From stdpp Require Import base list.
From Stdlib Require Import ZArith Lia Bool.
From S2P Require Import Prelude Entities Physics.

Local Open Scope Z_scope.

Inductive TrailState :=
| Active (ball : Entity)
| Inactive (is_left : bool).

#[export] Instance TrailState_eq_dec : EqDecision TrailState.
Proof. solve_decision. Defined.

(** A trail: its entity, its state, the [spawn_color] property of its
    [EffectProperties] ([None] is [LinearRgba::NONE], [Some p] the colour of
    participant [p]) and its [position] property. *)
Record Trail := mkTrail {
  trail_id : Entity;
  trail_state : TrailState;
  trail_color : option Participant;
  trail_position : Vec2;
}.

Definition set_trail_state (s : TrailState) (t : Trail) : Trail :=
  mkTrail (trail_id t) s (trail_color t) (trail_position t).
Definition set_trail_color (c : option Participant) (t : Trail) : Trail :=
  mkTrail (trail_id t) (trail_state t) c (trail_position t).
Definition set_trail_position (p : Vec2) (t : Trail) : Trail :=
  mkTrail (trail_id t) (trail_state t) (trail_color t) p.

(** [WorkerBallTrailBundle::new(target, target_x, color, effect)]. *)
Definition WorkerBallTrailBundle_new (id : Entity) (target : Entity)
    (target_x : Z) (p : Participant) : Trail :=
  mkTrail id (Active target) (Some p) (mkVec2 target_x WORKER_BALL_SPAWN_Y).

(** The resting position of an idle trail of side [go_left]. *)
Definition rest_position (go_left : bool) : Vec2 :=
  mkVec2 (side_root_x go_left) WORKER_BALL_SPAWN_Y.

(** The body of the [else] branch of [update_workers_particle_position]
    (and of the loop of [restart]): park the trail on side [go_left]. *)
Definition park (go_left : bool) (t : Trail) : Trail :=
  mkTrail (trail_id t) (Inactive go_left) None (rest_position go_left).

(** [update_workers_particle_position]: [resolve] is
    [transform_query.get(ball_entity)], the global translation of the ball
    when it still exists. *)
Fixpoint update_trails (resolve : Entity -> option Vec2) (go_left : bool)
    (ts : list Trail) : list Trail * bool :=
  match ts with
  | [] => ([], go_left)
  | t :: ts' =>
      match trail_state t with
      | Active ball =>
          match resolve ball with
          | Some p =>
              let '(ts'', g) := update_trails resolve go_left ts' in
              (set_trail_position p t :: ts'', g)
          | None =>
              let '(ts'', g) := update_trails resolve (negb go_left) ts' in
              (park go_left t :: ts'', g)
          end
      | Inactive _ =>
          let '(ts'', g) := update_trails resolve go_left ts' in (t :: ts'', g)
      end
  end.

(** [setup_trail], reuse branch: the first idle trail tagged [want_left]
    becomes the trail of [ball], with the participant's colour, at the
    ball's spawn point; [None] when the filtered iterator is exhausted. *)
Fixpoint reuse_idle (want_left : bool) (ball : Entity) (p : Participant)
    (target_x : Z) (ts : list Trail) : option (list Trail) :=
  match ts with
  | [] => None
  | t :: ts' =>
      if bool_decide (trail_state t = Inactive want_left)
      then Some (mkTrail (trail_id t) (Active ball) (Some p)
                         (mkVec2 target_x WORKER_BALL_SPAWN_Y) :: ts')
      else option_map (cons t) (reuse_idle want_left ball p target_x ts')
  end.

(** [setup_trail]'s trail half: reuse, or spawn a new trail entity with the
    next free entity id [next]; returns the pool and the next free id. *)
Definition attach_trail (want_left : bool) (ball : Entity) (p : Participant)
    (target_x : Z) (next : Entity) (ts : list Trail) : list Trail * Entity :=
  match reuse_idle want_left ball p target_x ts with
  | Some ts' => (ts', next)
  | None => (ts ++ [WorkerBallTrailBundle_new next ball target_x p], S next)
  end.

(** The trail loop of [restart]: only idle trails are visited
    ([Query<(&mut EffectProperties, &mut InactiveWorkerBallTrail)>]), each is
    parked on the side of a toggle that starts at [false] (right). *)
Fixpoint restart_trails (go_left : bool) (ts : list Trail) : list Trail :=
  match ts with
  | [] => []
  | t :: ts' =>
      match trail_state t with
      | Inactive _ => park go_left t :: restart_trails (negb go_left) ts'
      | Active _ => t :: restart_trails go_left ts'
      end
  end.

(** The trail loop of [restart] when [spawn_workers] ran earlier in the same
    frame: its commands are still queued, so the query of [restart] sees the
    pool [ts0] of the start of the frame, and visits its idle trails in
    order; [ts1] is the pool once the queued commands are applied.  Each
    visited trail gets the suppressed colour, the resting position of the
    toggle's side and that side as its tag; a trail that [spawn_workers]
    reused keeps the [WorkerBallTrail] link its queued [insert] adds (the
    queued [remove::<InactiveWorkerBallTrail>] drops the tag); trails spawned
    by the queued commands come after [ts0] and are not visited. *)
Fixpoint restart_trails_deferred (go_left : bool) (ts0 ts1 : list Trail) : list Trail :=
  match ts0, ts1 with
  | t0 :: ts0', t1 :: ts1' =>
      match trail_state t0 with
      | Inactive _ =>
          mkTrail (trail_id t1)
            (match trail_state t1 with
             | Active ball => Active ball
             | Inactive _ => Inactive go_left
             end) None (rest_position go_left)
          :: restart_trails_deferred (negb go_left) ts0' ts1'
      | Active _ => t1 :: restart_trails_deferred go_left ts0' ts1'
      end
  | _, _ => ts1
  end.

(** ** Observations on a pool *)

Definition is_idle_on (want_left : bool) (t : Trail) : bool :=
  bool_decide (trail_state t = Inactive want_left).

Definition is_active (t : Trail) : bool :=
  match trail_state t with Active _ => true | Inactive _ => false end.

Definition links_to (ball : Entity) (t : Trail) : bool :=
  bool_decide (trail_state t = Active ball).

(** An active trail whose ball no longer resolves. *)
Definition dangling (resolve : Entity -> option Vec2) (t : Trail) : bool :=
  match trail_state t with
  | Active ball => match resolve ball with Some _ => false | None => true end
  | Inactive _ => false
  end.

(** ** Theorems of the trail pool *)

Lemma is_idle_on_set_position s p t :
  is_idle_on s (set_trail_position p t) = is_idle_on s t.
Proof. reflexivity. Qed.

Lemma is_idle_on_park s g t : is_idle_on s (park g t) = Bool.eqb g s.
Proof.
  unfold is_idle_on, park; simpl.
  destruct g, s; [apply bool_decide_eq_true_2 | apply bool_decide_eq_false_2
    | apply bool_decide_eq_false_2 | apply bool_decide_eq_true_2]; congruence.
Qed.

#[export] Hint Rewrite is_idle_on_set_position is_idle_on_park : panel_rw.

Section UpdateTrails.
Variable resolve : Entity -> option Vec2.
Local Open Scope nat_scope.

Lemma update_trails_ids g ts :
  map trail_id (update_trails resolve g ts).1 = map trail_id ts.
Proof.
  revert g. induction ts as [|t ts IH]; intros g; [reflexivity|]; simpl.
  destruct (trail_state t); [destruct (resolve ball)|];
    match goal with |- context [update_trails resolve ?g' ts] =>
      specialize (IH g'); destruct (update_trails resolve g' ts) end;
    simpl; f_equal; exact IH.
Qed.

(** C19: after [update_workers_particle_position] every active trail sits
    at the position of the ball it follows, which still exists. *)
Theorem update_trails_follow g ts :
  Forall (fun t => match trail_state t with
                   | Active b => resolve b = Some (trail_position t)
                   | Inactive _ => True end)
         (update_trails resolve g ts).1.
Proof.
  revert g. induction ts as [|t ts IH]; intros g; simpl; [constructor|].
  destruct (trail_state t) as [b|s] eqn:Hs; [destruct (resolve b) as [p|] eqn:Hr|];
    match goal with |- context [update_trails resolve ?g' ts] =>
      specialize (IH g'); destruct (update_trails resolve g' ts) end;
    constructor; simpl; rewrite ?Hs; auto.
Qed.

(** C20: the side toggle alternates.  Of the [n] trails whose ball vanished,
    the update parks [ceil(n/2)] on the side the toggle starts with and
    [floor(n/2)] on the other one, and returns the toggle flipped [n]
    times. *)
Theorem update_trails_alternate g ts :
  let n := countb (dangling resolve) ts in
  let ts' := (update_trails resolve g ts).1 in
  countb (is_idle_on g) ts' = countb (is_idle_on g) ts + Nat.div2 (S n) /\
  countb (is_idle_on (negb g)) ts' = countb (is_idle_on (negb g)) ts + Nat.div2 n /\
  (update_trails resolve g ts).2 = xorb g (Nat.odd n).
Proof.
  simpl. revert g. induction ts as [|t ts IH]; intros g; simpl;
    [destruct g; auto|].
  assert (Hidle : forall s, is_idle_on s t = bool_decide (trail_state t = Inactive s))
    by reflexivity.
  assert (Hd : dangling resolve t = match trail_state t with
    | Active b => match resolve b with Some _ => false | None => true end
    | Inactive _ => false end) by reflexivity.
  destruct (trail_state t) as [b|s0] eqn:Hs; [destruct (resolve b) as [p|] eqn:Hr|];
    [specialize (IH g) | specialize (IH (negb g)) | specialize (IH g)];
    match type of IH with context [update_trails resolve ?g' ts] =>
      destruct (update_trails resolve g' ts) as [ts1 g1] end;
    simpl in *; autorewrite with panel_rw; rewrite Hd, ?Hidle;
    rewrite ?bool_decide_eq_false_2 by discriminate.
  - exact IH.
  - rewrite negb_involutive in IH. destruct IH as (IH1 & IH2 & IH3).
    rewrite IH1, IH2, IH3, Nat.odd_add. simpl Nat.div2.
    destruct g; simpl; (split; [lia | split; [lia | destruct (Nat.odd _); reflexivity]]).
  - rewrite !Nat.add_0_l. destruct IH as (-> & -> & ->). split; [lia | split; [lia | reflexivity]].
Qed.
End UpdateTrails.

(** ** Reuse before allocation *)

Lemma reuse_idle_none want_left ball p x ts :
  reuse_idle want_left ball p x ts = None <-> countb (is_idle_on want_left) ts = 0%nat.
Proof.
  induction ts as [|t ts IH]; simpl; [split; auto|].
  autorewrite with panel_rw. unfold is_idle_on at 1.
  destruct (bool_decide _); simpl; [split; discriminate|].
  rewrite <- IH. destruct (reuse_idle _ _ _ _ ts); simpl; split; congruence.
Qed.

(** Reusing consumes exactly one idle trail of the side, keeps the pool's
    size and entities, and links exactly one more trail to [ball] when no
    trail was linked to it. *)
Lemma reuse_idle_some want_left ball p x ts ts' :
  reuse_idle want_left ball p x ts = Some ts' ->
  map trail_id ts' = map trail_id ts /\
  countb (is_idle_on want_left) ts' = pred (countb (is_idle_on want_left) ts) /\
  countb (is_idle_on want_left) ts <> 0%nat /\
  countb (is_idle_on (negb want_left)) ts' = countb (is_idle_on (negb want_left)) ts /\
  countb (links_to ball) ts' = S (countb (links_to ball) ts).
Proof.
  revert ts'. induction ts as [|t ts IH]; intros ts' H; simpl in H; [discriminate|].
  destruct (bool_decide _) eqn:E.
  - simplify_eq. apply bool_decide_eq_true_1 in E. simpl.
    autorewrite with panel_rw. unfold is_idle_on, links_to; simpl; rewrite E.
    simpl_decide. simpl. split; [reflexivity | lia].
  - destruct (reuse_idle _ _ _ _ ts) as [ts1|] eqn:Hr; simpl in H; [|discriminate].
    simplify_eq. destruct (IH ts1 eq_refl) as (Hid & H1 & H2 & H3 & H4).
    simpl. rewrite Hid. autorewrite with panel_rw.
    change (is_idle_on want_left t) with (bool_decide (trail_state t = Inactive want_left)).
    rewrite E. split; [reflexivity|].
    destruct (is_idle_on (negb want_left) t), (links_to ball t); lia.
Qed.

(** C21: trail count conservation of [setup_trail].  The pool grows by one
    trail exactly when it holds no idle trail of the wanted side; otherwise
    its size is unchanged and one idle trail of that side is consumed. *)
Theorem attach_trail_count want_left ball p x next ts :
  let '(ts', next') := attach_trail want_left ball p x next ts in
  (countb (is_idle_on want_left) ts = 0%nat ->
     length ts' = S (length ts) /\ next' = S next) /\
  (countb (is_idle_on want_left) ts <> 0%nat ->
     length ts' = length ts /\ next' = next /\
     countb (is_idle_on want_left) ts' = pred (countb (is_idle_on want_left) ts)).
Proof.
  unfold attach_trail. destruct (reuse_idle want_left ball p x ts) as [ts'|] eqn:Hr.
  - destruct (reuse_idle_some _ _ _ _ _ _ Hr) as (Hid & H1 & H2 & _).
    split; [contradiction|]. intros _. split; [|split; auto].
    rewrite <- (length_map trail_id ts'), Hid, length_map. reflexivity.
  - apply reuse_idle_none in Hr. split; [|contradiction].
    intros _. rewrite length_app. simpl. split; lia.
Qed.

(** ** Re-parking on restart *)

Lemma park_idempotent g t : park g (park g t) = park g t.
Proof. reflexivity. Qed.

Lemma restart_trails_idempotent g ts :
  restart_trails g (restart_trails g ts) = restart_trails g ts.
Proof.
  revert g. induction ts as [|t ts IH]; intros g; [reflexivity|]; simpl.
  destruct (trail_state t) eqn:Hs; simpl; rewrite ?Hs; f_equal; apply IH.
Qed.

Lemma restart_trails_ids g ts :
  map trail_id (restart_trails g ts) = map trail_id ts.
Proof.
  revert g. induction ts as [|t ts IH]; intros g; [reflexivity|]; simpl.
  destruct (trail_state t); simpl; f_equal; apply IH.
Qed.

Lemma restart_trails_deferred_ids g ts0 ts1 :
  map trail_id (restart_trails_deferred g ts0 ts1) = map trail_id ts1.
Proof.
  revert g ts1. induction ts0 as [|t0 ts0 IH]; intros g [|t1 ts1]; try reflexivity.
  simpl. destruct (trail_state t0); simpl; f_equal; apply IH.
Qed.

(** The restart loop leaves active trails as they are and parks every idle
    trail, suppressed, at the resting position of its new side. *)
Lemma restart_trails_shape g ts :
  Forall2 (fun t t' => match trail_state t with
                       | Active _ => t' = t
                       | Inactive _ => exists s, t' = park s t
                       end) ts (restart_trails g ts).
Proof.
  revert g. induction ts as [|t ts IH]; intros g; simpl; [constructor|].
  destruct (trail_state t) eqn:Hs; constructor; rewrite ?Hs; eauto.
Qed.

Lemma restart_trails_alternate g ts :
  let n := countb (fun t => negb (is_active t)) ts in
  countb (is_idle_on g) (restart_trails g ts) = Nat.div2 (S n) /\
  countb (is_idle_on (negb g)) (restart_trails g ts) = Nat.div2 n.
Proof.
  simpl. revert g. induction ts as [|t ts IH]; intros g; [split; reflexivity|]; simpl.
  assert (Ha : is_active t = match trail_state t with
                             | Active _ => true | Inactive _ => false end) by reflexivity.
  assert (Hidle : forall s, is_idle_on s t = bool_decide (trail_state t = Inactive s))
    by reflexivity.
  destruct (trail_state t) eqn:Hs; simpl; autorewrite with panel_rw; rewrite Ha.
  - rewrite !Hidle. simpl_decide. simpl. apply IH.
  - destruct (IH (negb g)) as [IH1 IH2]. rewrite negb_involutive in IH2.
    rewrite IH1, IH2, eqb_reflx.
    replace (Bool.eqb g (negb g)) with false by (destruct g; reflexivity).
    simpl. split; reflexivity.
Qed.


(** ** A stateless reading of the trail update *)

(** The reference: each trail is updated on its own.  A trail whose ball
    still resolves follows it; a trail whose ball vanished is parked on the
    side given by the initial toggle flipped once for every vanished trail
    before it in the pool; an idle trail is left alone.  The final toggle is
    the initial one flipped once per vanished trail. *)
Definition update_trail_ref (resolve : Entity -> option Vec2) (g : bool)
    (before : list Trail) (t : Trail) : Trail :=
  match trail_state t with
  | Active ball =>
      match resolve ball with
      | Some p => set_trail_position p t
      | None => park (xorb g (Nat.odd (countb (dangling resolve) before))) t
      end
  | Inactive _ => t
  end.

Definition update_trails_ref (resolve : Entity -> option Vec2) (g : bool) (ts : list Trail)
    : list Trail * bool :=
  (imap (fun i t => update_trail_ref resolve g (take i ts) t) ts,
   xorb g (Nat.odd (countb (dangling resolve) ts))).

Lemma xorb_odd_cons (g b : bool) (n : nat) :
  xorb g (Nat.odd ((if b then 1 else 0) + n)%nat) = xorb (xorb g b) (Nat.odd n).
Proof.
  destruct b; simpl; [|destruct g; reflexivity].
  rewrite Nat.odd_succ, <- Nat.negb_odd. destruct g, (Nat.odd n); reflexivity.
Qed.

Lemma update_trail_ref_cons resolve g t before t' :
  update_trail_ref resolve g (t :: before) t' =
  update_trail_ref resolve (xorb g (dangling resolve t)) before t'.
Proof.
  unfold update_trail_ref. rewrite countb_cons, xorb_odd_cons. reflexivity.
Qed.

(** C18: the trail update against its stateless reading.
    [update_workers_particle_position], which threads its [Local<bool>]
    toggle through the pool, computes exactly the reference: every trail
    updated on its own from the number of vanished trails before it. *)
Theorem update_trails_equiv resolve g ts :
  update_trails resolve g ts = update_trails_ref resolve g ts.
Proof.
  unfold update_trails_ref. revert g. induction ts as [|t ts IH]; intros g; [destruct g; reflexivity|].
  assert (Htail : forall g', imap ((fun i t' => update_trail_ref resolve g' (take i (t :: ts)) t') ∘ S) ts =
                   imap (fun i t' => update_trail_ref resolve (xorb g' (dangling resolve t)) (take i ts) t') ts)
    by (intros g'; apply imap_ext; intros; apply update_trail_ref_cons).
  rewrite imap_cons, Htail, countb_cons, xorb_odd_cons. cbn [update_trails take].
  unfold update_trail_ref at 1, dangling at 2 3.
  destruct (trail_state t) as [b|s] eqn:Hs; [destruct (resolve b) as [p|] eqn:Hr|];
    rewrite ?xorb_false_r, ?xorb_true_r;
    match goal with |- context [update_trails resolve ?g' ts] =>
      specialize (IH g'); destruct (update_trails resolve g' ts) end;
    injection IH as -> ->; reflexivity.
Qed.

(** ** Witnesses *)

Definition example_pool : list Trail :=
  [mkTrail 7%nat (Active 3%nat) (Some A) (mkVec2 (-480) 100);
   mkTrail 8%nat (Inactive true) None (rest_position true)].

Lemma attach_trail_count_witness :
  (countb (is_idle_on true) example_pool <> 0%nat /\ countb (is_idle_on false) example_pool = 0%nat) /\
  (let '(ts', next') := attach_trail true 9%nat B (-490) 10%nat example_pool in
   (countb (is_idle_on true) example_pool = 0%nat -> length ts' = S (length example_pool) /\ next' = 11%nat) /\
   (countb (is_idle_on true) example_pool <> 0%nat ->
      length ts' = length example_pool /\ next' = 10%nat /\
      countb (is_idle_on true) ts' = pred (countb (is_idle_on true) example_pool))).
Proof.
  split; [vm_compute; split; [discriminate | reflexivity]|].
  exact (attach_trail_count true 9%nat B (-490) 10%nat example_pool).
Defined.
