(* ===== verification/Timer.v ===== *)
(** The spawn clock.  [Timer] models [bevy::time::Timer] in
    [TimerMode::Repeating], never paused (the only way the code uses it);
    durations are nanoseconds ([Duration::as_nanos]).  [WorkerBallSpawner]
    is the resource of [src/panel_plugin.rs] (lines 222-247): a timer, phase
    shifted by [TRAIL_LIFETIME] so that the first round fires
    [TRAIL_LIFETIME] after start, and the round counter that
    [spawn_workers_condition] (lines 665-667) compares with
    [WORKER_BALL_COUNT_MAX].  [TRAIL_LIFETIME] is defined in the [utils]
    module, which is not part of the sources: it is a parameter here. *)

From stdpp Require Import base list.
From Stdlib Require Import ZArith NArith Lia.
From S2P Require Import Prelude Entities.

Local Open Scope N_scope.

Module BevyTimer.

Record Timer := mkTimer {
  duration : N;
  elapsed : N;
  finished : bool;
  times_finished_this_tick : N;
}.

Definition u32_MAX : N := 4294967295.

(** [Timer::from_seconds(secs, TimerMode::Repeating)]. *)
Definition from_duration (d : N) : Timer := mkTimer d 0 false 0.

(** [Timer::tick] of a repeating timer: the elapsed time grows by
    [delta]; when it reaches the duration, the number of completed periods
    ([checked_div], [u32::MAX] on a zero duration, cast [as u32]) is
    recorded and removed from the elapsed time. *)
Definition tick (delta : N) (t : Timer) : Timer :=
  let e := elapsed t + delta in
  let d := duration t in
  if d <=? e then
    let n := if d =? 0 then u32_MAX else (e / d) mod (u32_MAX + 1) in
    mkTimer d (e - d * n) true n
  else mkTimer d e false 0.

(** [Timer::just_finished]. *)
Definition just_finished (t : Timer) : bool := 0 <? times_finished_this_tick t.

(** [Timer::reset]. *)
Definition reset (t : Timer) : Timer := mkTimer (duration t) 0 false 0.

(** The elapsed time of a running timer stays below its duration, as long
    as one tick does not cover [2^32] periods (the [u32] cast). *)
Lemma tick_elapsed_lt delta t :
  0 < duration t -> elapsed t + delta < duration t * (u32_MAX + 1) ->
  elapsed (tick delta t) < duration t.
Proof.
  intros Hd Hlt. unfold tick.
  destruct (duration t <=? elapsed t + delta) eqn:E; simpl; [|apply N.leb_gt in E; lia].
  destruct (duration t =? 0) eqn:Ez; [apply N.eqb_eq in Ez; lia|].
  assert (Hq : (elapsed t + delta) / duration t < u32_MAX + 1) by (apply N.Div0.div_lt_upper_bound; lia).
  rewrite N.mod_small by exact Hq.
  pose proof (N.mod_lt (elapsed t + delta) (duration t) ltac:(lia)).
  rewrite (N.div_mod (elapsed t + delta) (duration t)) at 1 by lia. lia.
Qed.

(** A tick fires exactly when the elapsed time reaches the duration. *)
Lemma tick_just_finished delta t :
  0 < duration t -> elapsed t + delta < duration t * (u32_MAX + 1) ->
  just_finished (tick delta t) = (duration t <=? elapsed t + delta).
Proof.
  intros Hd Hlt. unfold tick, just_finished.
  destruct (duration t <=? elapsed t + delta) eqn:E; simpl; [|reflexivity].
  apply N.leb_le in E.
  destruct (duration t =? 0) eqn:Ez; [apply N.eqb_eq in Ez; lia|].
  assert (Hq : (elapsed t + delta) / duration t < u32_MAX + 1) by (apply N.Div0.div_lt_upper_bound; lia).
  rewrite N.mod_small by exact Hq.
  apply N.ltb_lt. apply N.div_str_pos. lia.
Qed.
End BevyTimer.

Import BevyTimer.

(** [WORKER_BALL_SPAWN_TIMER_SECS] in nanoseconds. *)
Definition WORKER_BALL_SPAWN_TIMER : N := 10000000000.

Record WorkerBallSpawner := mkSpawner {
  timer : Timer;
  counter : nat;
}.

Section Spawner.
(** [TRAIL_LIFETIME] in nanoseconds. *)
Variable TRAIL_LIFETIME : N.

(** [WorkerBallSpawner::new]. *)
Definition WorkerBallSpawner_new : WorkerBallSpawner :=
  mkSpawner (tick (WORKER_BALL_SPAWN_TIMER - TRAIL_LIFETIME)
                  (from_duration WORKER_BALL_SPAWN_TIMER)) 0.

(** [WorkerBallSpawner::reset]. *)
Definition WorkerBallSpawner_reset (s : WorkerBallSpawner) : WorkerBallSpawner :=
  mkSpawner (tick (WORKER_BALL_SPAWN_TIMER - TRAIL_LIFETIME) (reset (timer s))) 0.
End Spawner.

(** [spawn_workers_condition]. *)
Definition spawn_workers_condition (s : WorkerBallSpawner) : bool :=
  Nat.ltb (counter s) WORKER_BALL_COUNT_MAX.

Lemma tick_duration delta t : duration (tick delta t) = duration t.
Proof. unfold tick. destruct (_ <=? _); reflexivity. Qed.

(** [WorkerBallSpawner::reset] returns the spawner to the state
    [WorkerBallSpawner::new] creates: the restart restores the initial phase
    of the clock and a zero round counter. *)
Lemma spawner_reset_is_new tl s :
  duration (timer s) = WORKER_BALL_SPAWN_TIMER ->
  WorkerBallSpawner_reset tl s = WorkerBallSpawner_new tl.
Proof.
  intros Hd. unfold WorkerBallSpawner_reset, WorkerBallSpawner_new, reset, from_duration.
  rewrite Hd. reflexivity.
Qed.

(** C26: the phase shift of the spawn clock.  With
    [0 < TRAIL_LIFETIME <= WORKER_BALL_SPAWN_TIMER_SECS], a freshly created
    (or reset) spawner has not fired, and its first tick of [delta] fires
    exactly when [delta] reaches [TRAIL_LIFETIME]. *)
Theorem spawner_first_round tl delta :
  0 < tl <= WORKER_BALL_SPAWN_TIMER ->
  delta < WORKER_BALL_SPAWN_TIMER ->
  just_finished (timer (WorkerBallSpawner_new tl)) = false /\
  just_finished (tick delta (timer (WorkerBallSpawner_new tl))) = (tl <=? delta).
Proof.
  intros Htl Hdelta. unfold WorkerBallSpawner_new, from_duration. simpl timer.
  assert (Hnew : elapsed (tick (WORKER_BALL_SPAWN_TIMER - tl)
                   (mkTimer WORKER_BALL_SPAWN_TIMER 0 false 0))
                 = WORKER_BALL_SPAWN_TIMER - tl /\
                 just_finished (tick (WORKER_BALL_SPAWN_TIMER - tl)
                   (mkTimer WORKER_BALL_SPAWN_TIMER 0 false 0)) = false).
  { unfold tick; simpl. rewrite (proj2 (N.leb_gt _ _)) by lia. split; reflexivity. }
  destruct Hnew as [He Hj]. split; [exact Hj|].
  rewrite tick_just_finished; rewrite ?tick_duration, ?He; simpl duration.
  - destruct (tl <=? delta) eqn:E; [apply N.leb_le in E | apply N.leb_gt in E];
      [apply N.leb_le | apply N.leb_gt]; lia.
  - unfold WORKER_BALL_SPAWN_TIMER. lia.
  - unfold WORKER_BALL_SPAWN_TIMER, u32_MAX in *. lia.
Qed.

Lemma spawner_first_round_witness :
  (0 < 1000000000 <= WORKER_BALL_SPAWN_TIMER /\ 2000000000 < WORKER_BALL_SPAWN_TIMER) /\
  just_finished (timer (WorkerBallSpawner_new 1000000000)) = false /\
  just_finished (tick 2000000000 (timer (WorkerBallSpawner_new 1000000000))) =
    (1000000000 <=? 2000000000).
Proof.
  split; [unfold WORKER_BALL_SPAWN_TIMER; lia|].
  apply spawner_first_round; unfold WORKER_BALL_SPAWN_TIMER; lia.
Defined.
