(* ===== verification/World.v ===== *)
(** The ECS world the panel systems share: the panel roots and trigger
    zones created by [setup], the worker balls, the trail pool, the
    [WorkerBallSpawner] resource, the [Local<bool>] toggle of
    [update_workers_particle_position], and the counter that hands out fresh
    entities.  Also the lookups the systems perform on it
    ([Query::get] on balls, zones and transforms). *)

From stdpp Require Import base list.
From Stdlib Require Import ZArith Lia.
From S2P Require Import Prelude Entities Physics Trails Timer.

Record World := mkWorld {
  roots : list PanelRoot;
  zones : list (Entity * TriggerType);
  balls : list Ball;
  trails : list Trail;
  spawner : WorkerBallSpawner;
  go_left : bool;
  next_entity : Entity;
}.

Definition set_balls (bs : list Ball) (w : World) : World :=
  mkWorld (roots w) (zones w) bs (trails w) (spawner w) (go_left w) (next_entity w).
Definition set_trails (ts : list Trail) (w : World) : World :=
  mkWorld (roots w) (zones w) (balls w) ts (spawner w) (go_left w) (next_entity w).
Definition set_spawner (s : WorkerBallSpawner) (w : World) : World :=
  mkWorld (roots w) (zones w) (balls w) (trails w) s (go_left w) (next_entity w).
Definition set_go_left (g : bool) (w : World) : World :=
  mkWorld (roots w) (zones w) (balls w) (trails w) (spawner w) g (next_entity w).
Definition set_next_entity (n : Entity) (w : World) : World :=
  mkWorld (roots w) (zones w) (balls w) (trails w) (spawner w) (go_left w) n.

(** [worker_ball_query.get(e)]: the worker ball with entity [e]. *)
Definition find_ball (w : World) (e : Entity) : option Ball :=
  List.find (fun b => Nat.eqb (ball_id b) e) (balls w).

(** [trigger_zone_query.get(e)]: the [TriggerType] of zone [e]. *)
Definition find_zone (w : World) (e : Entity) : option TriggerType :=
  option_map snd (List.find (fun z => Nat.eqb z.1 e) (zones w)).

(** [transform_query.get(ball_entity)] as read by the trail update: the
    global translation of the ball, if it still exists. *)
Definition resolve_ball (w : World) (e : Entity) : option Vec2 :=
  option_map (global_translation (roots w)) (find_ball w e).

(** The physics world as seen through [RapierContext] when a system starts. *)
Definition world_snapshot (w : World) : Snapshot :=
  rapier_snapshot (roots w) (balls w).

(** The world right after [setup] (and [WorkerBallSpawner::new]), given the
    entities of the trigger zones of the two panels and the first entity
    [setup] leaves free ([Layout.setup_world_of_setup] computes both from
    the spawn log of [setup]). *)
Definition setup_world (tl : N) (zs : list (Entity * TriggerType)) (next : Entity) : World :=
  mkWorld (setup_roots 0 1) zs [] [] (WorkerBallSpawner_new tl) false next.

Lemma find_ball_Some w e b :
  find_ball w e = Some b -> In b (balls w) /\ ball_id b = e.
Proof.
  unfold find_ball. intros H. pose proof (find_some _ _ H) as [Hin Hid].
  apply Nat.eqb_eq in Hid. auto.
Qed.

Lemma find_ball_None w e :
  find_ball w e = None <-> Forall (fun b => ball_id b <> e) (balls w).
Proof.
  unfold find_ball. rewrite Forall_forall. split.
  - intros H b Hb Heq. apply list_elem_of_In in Hb. apply (find_none _ _ H) in Hb.
    rewrite Heq, Nat.eqb_refl in Hb. discriminate.
  - intros H. destruct (List.find _ _) as [b|] eqn:E; [|reflexivity].
    apply find_some in E as [Hb Hid]. apply Nat.eqb_eq in Hid.
    exfalso. apply (H b); [apply list_elem_of_In|]; assumption.
Qed.
