(* ===== verification/Spawner.v ===== *)
(** The Worker Spawner: the system [spawn_workers] of [src/panel_plugin.rs]
    (lines 668-787) and its run condition (line 109 and lines 665-667).
    On a tick of the spawn timer that fires, for the left panel (A, B) and
    then the right panel (C, D), the closure [f] reads the two survivor flags
    and spawns nothing, one ball placed by [WorkerBallShapeCaster::get] with a
    new trail, or two balls placed by the paired loop with trails taken from
    the idle pool of the panel's side ([setup_trail]); then the round counter
    grows by one.  All placement queries read the physics snapshot of the
    world at the start of the system.  The theorems say which balls a round
    spawns, that they do not overlap the balls present, that paired balls do
    not overlap each other, and how the trail pool grows. *)

From stdpp Require Import base list sets.
From Stdlib Require Import ZArith Lia.
From S2P Require Import Prelude Entities Physics Placement Trails Timer World.

Import BevyTimer.
Local Open Scope Z_scope.

Section SpawnWorkers.
Variable draws : nat -> Z.
Variable survivors : Participant -> bool.
Variable fuel : nat.

(** The single case: spawn the survivor's ball and a new trail entity
    ([commands.spawn(WorkerBallTrailBundle::new(..))], lines 696-713). *)
Definition spawn_single (root : PanelRoot) (p : Participant) (x : Z) (w : World) : World :=
  let ball := next_entity w in
  let trail := S ball in
  mkWorld (roots w) (zones w)
    (balls w ++ [WorkerBallBundle_new ball (root_entity root) p x])
    (trails w ++ [WorkerBallTrailBundle_new trail ball (x + vx (root_translation root)) p])
    (spawner w) (go_left w) (S trail).

(** [setup_trail(participant, x)] of the paired case (lines 729-758). *)
Definition setup_trail (root : PanelRoot) (want_left : bool) (p : Participant)
    (x : Z) (w : World) : World :=
  let ball := next_entity w in
  let '(ts, next) := attach_trail want_left ball p (x + vx (root_translation root))
                       (S ball) (trails w) in
  mkWorld (roots w) (zones w)
    (balls w ++ [WorkerBallBundle_new ball (root_entity root) p x])
    ts (spawner w) (go_left w) next.

(** The closure [f] of [spawn_workers] for one panel; [i] is the read
    position in the stream of draws. *)
Definition spawn_panel (snap : Snapshot) (a b : Participant) (root : PanelRoot)
    (want_left : bool) (w : World) (i : nat) : Result (World * nat) :=
  let rootp := root_translation root in
  match (if survivors a then Some a else None), (if survivors b then Some b else None) with
  | None, None => Ok (w, i)
  | Some s, None | None, Some s =>
      let? '(x, i1) := caster_get draws fuel snap rootp i in
      Ok (spawn_single root s x w, i1)
  | Some a, Some b =>
      let? '(xa, xb, i2) := caster_get_pair draws fuel snap rootp i in
      Ok (setup_trail root want_left b xb (setup_trail root want_left a xa w), i2)
  end.

(** [spawn_workers]. *)
Definition spawn_workers (delta : N) (w : World) (i : nat) : Result (World * nat) :=
  let t := tick delta (timer (spawner w)) in
  let w1 := set_spawner (mkSpawner t (counter (spawner w))) w in
  if negb (just_finished t) then Ok (w1, i) else
  let snap := world_snapshot w in
  let? '(left_root, right_root) := select_roots (roots w) in
  let? '(w2, i2) := spawn_panel snap A B left_root true w1 i in
  let? '(w3, i3) := spawn_panel snap C D right_root false w2 i2 in
  Ok (set_spawner (mkSpawner t (S (counter (spawner w)))) w3, i3).

(** The system with its run condition
    [game_is_going.and_then(spawn_workers_condition)]. *)
Definition run_spawn_workers (game_is_going : bool) (delta : N) (w : World) (i : nat)
    : Result (World * nat) :=
  if game_is_going && spawn_workers_condition (spawner w)
  then spawn_workers delta w i
  else Ok (w, i).
End SpawnWorkers.

(** ** What one panel's spawn produces *)

(** A ball freshly spawned for [root]: a child of the root, at spawn height,
    at rest, at an x the caster found free in the snapshot. *)
Definition spawned_at (snap : Snapshot) (root : PanelRoot) (bl : Ball) : Prop :=
  ball_parent bl = root_entity root /\
  vy (ball_translation bl) = WORKER_BALL_SPAWN_Y /\
  ball_velocity bl = vzero /\
  free snap (root_translation root) (vx (ball_translation bl)) = true.

(** Two balls spawned together are more than a diameter apart. *)
Definition separated (nb : list Ball) : Prop :=
  match nb with
  | [b1; b2] => WORKER_BALL_DIAMETER < Z.abs (vx (ball_translation b1) - vx (ball_translation b2))
  | _ => True
  end.

Section SpawnPanelSpec.
Variables (draws : nat -> Z) (survivors : Participant -> bool) (fuel : nat).
Variables (snap : Snapshot) (a b : Participant) (root : PanelRoot) (want_left : bool).

Lemma spawn_single_balls p x w :
  balls (spawn_single root p x w) =
  balls w ++ [WorkerBallBundle_new (next_entity w) (root_entity root) p x].
Proof. reflexivity. Qed.

Lemma setup_trail_balls p x w :
  balls (setup_trail root want_left p x w) =
  balls w ++ [WorkerBallBundle_new (next_entity w) (root_entity root) p x].
Proof. unfold setup_trail. destruct (attach_trail _ _ _ _ _ _). reflexivity. Qed.

Lemma setup_trail_next p x w :
  (S (next_entity w) <= next_entity (setup_trail root want_left p x w))%nat.
Proof.
  unfold setup_trail, attach_trail. destruct (reuse_idle _ _ _ _ _); simpl; lia.
Qed.

Lemma WorkerBallBundle_new_spawned_at id p x :
  free snap (root_translation root) x = true ->
  spawned_at snap root (WorkerBallBundle_new id (root_entity root) p x).
Proof. intros Hx. repeat split; assumption. Qed.

Lemma setup_trail_frame p x w :
  let w' := setup_trail root want_left p x w in
  roots w' = roots w /\ zones w' = zones w /\ spawner w' = spawner w /\
  go_left w' = go_left w.
Proof. unfold setup_trail. destruct (attach_trail _ _ _ _ _ _). simpl; auto. Qed.

(** The balls one panel's spawn adds, with the facts every theorem of the
    spawner is derived from. *)
Lemma spawn_panel_spec w i w' i' :
  spawn_panel draws survivors fuel snap a b root want_left w i = Ok (w', i') ->
  exists nb, balls w' = balls w ++ nb /\
    map ball_participant nb = List.filter survivors [a; b] /\
    Forall (spawned_at snap root) nb /\ separated nb /\
    Forall (fun bl => next_entity w <= ball_id bl < next_entity w')%nat nb /\
    NoDup (map ball_id nb) /\ (next_entity w <= next_entity w')%nat /\
    roots w' = roots w /\ zones w' = zones w /\ spawner w' = spawner w /\
    go_left w' = go_left w.
Proof.
  unfold spawn_panel. intros H.
  destruct (survivors a) eqn:Ha, (survivors b) eqn:Hb; simpl; rewrite ?Ha, ?Hb.
  - inv_ok H. destruct a0 as [[xa xb] i2]. simplify_eq.
    destruct (caster_get_pair_separated _ _ _ _ _ _ _ _ Hm) as (Hfa & Hfb & Hsep).
    set (w1 := setup_trail root want_left a xa w).
    pose proof (setup_trail_next a xa w) as Hn1.
    pose proof (setup_trail_next b xb w1) as Hn2.
    destruct (setup_trail_frame a xa w) as (R1 & Z1 & S1 & G1).
    destruct (setup_trail_frame b xb w1) as (R2 & Z2 & S2 & G2).
    eexists. rewrite (setup_trail_balls b xb w1). unfold w1 at 1. rewrite (setup_trail_balls a xa w), <- app_assoc.
    split; [reflexivity|]. simpl.
    split; [reflexivity|].
    split; [constructor; [|constructor; [|constructor]];
            apply WorkerBallBundle_new_spawned_at; assumption|].
    split; [exact Hsep|].
    split; [constructor; [|constructor; [|constructor]]; simpl; unfold w1 in *; lia|].
    split; [apply NoDup_cons_2; [|apply NoDup_singleton];
            intros Hin; apply list_elem_of_In in Hin; simpl in Hin; unfold w1 in *; lia|].
    split; [unfold w1 in *; lia|]. subst w1. rewrite R2, R1, Z2, Z1, S2, S1, G2, G1. auto.
  - inv_ok H. destruct a0 as [x i1]. simplify_eq.
    destruct (caster_get_first_free _ _ _ _ _ _ _ Hm) as (_ & Hf & _).
    eexists. rewrite spawn_single_balls. split; [reflexivity|]. simpl.
    split; [reflexivity|].
    split; [constructor; [apply WorkerBallBundle_new_spawned_at; assumption|constructor]|].
    split; [exact I|].
    split; [constructor; [simpl; lia|constructor]|].
    split; [apply NoDup_singleton|]. simpl. split; [lia|auto].
  - inv_ok H. destruct a0 as [x i1]. simplify_eq.
    destruct (caster_get_first_free _ _ _ _ _ _ _ Hm) as (_ & Hf & _).
    eexists. rewrite spawn_single_balls. split; [reflexivity|]. simpl.
    split; [reflexivity|].
    split; [constructor; [apply WorkerBallBundle_new_spawned_at; assumption|constructor]|].
    split; [exact I|].
    split; [constructor; [simpl; lia|constructor]|].
    split; [apply NoDup_singleton|]. simpl. split; [lia|auto].
  - simplify_eq. exists []. rewrite app_nil_r. repeat split; auto; constructor.
Qed.
End SpawnPanelSpec.

(** ** What a round of [spawn_workers] produces *)

(** The point a ball spawned for [root] occupies in the world. *)
Definition spawn_pos (root : PanelRoot) (bl : Ball) : Vec2 :=
  spawn_point (root_translation root) (vx (ball_translation bl)).

Lemma separated_no_intersect root b1 b2 :
  separated [b1; b2] -> balls_intersect (spawn_pos root b1) (spawn_pos root b2) = false.
Proof.
  unfold separated, spawn_pos, spawn_point, balls_intersect, WORKER_BALL_DIAMETER,
    WORKER_BALL_RADIUS. simpl. intros Hsep. apply Z.leb_gt.
  set (d := vx (ball_translation b1) - vx (ball_translation b2)) in *.
  replace (vx (ball_translation b1) + vx (root_translation root) -
           (vx (ball_translation b2) + vx (root_translation root))) with d by (unfold d; lia).
  assert (10 < Z.abs d) by lia. nia.
Qed.

Section Round.
Variables (draws : nat -> Z) (survivors : Participant -> bool) (fuel : nat).

Lemma spawn_workers_inv delta w i w' i' :
  spawn_workers draws survivors fuel delta w i = Ok (w', i') ->
  just_finished (tick delta (timer (spawner w))) = true ->
  exists lr rr nl nr, select_roots (roots w) = Ok (lr, rr) /\
    balls w' = balls w ++ nl ++ nr /\
    map ball_participant nl = List.filter survivors [A; B] /\
    map ball_participant nr = List.filter survivors [C; D] /\
    Forall (spawned_at (world_snapshot w) lr) nl /\ separated nl /\
    Forall (spawned_at (world_snapshot w) rr) nr /\ separated nr /\
    spawner w' = mkSpawner (tick delta (timer (spawner w))) (S (counter (spawner w))).
Proof.
  unfold spawn_workers. intros H Hfired. rewrite Hfired in H. simpl in H.
  inv_ok H. destruct a as [lr rr]. inv_ok H. destruct a as [w2 i2].
  inv_ok H. destruct a as [w3 i3]. simplify_eq.
  destruct (spawn_panel_spec _ _ _ _ _ _ _ _ _ _ _ _ Hm0)
    as (nl & Hb2 & Pl & Fl & Sl & _).
  destruct (spawn_panel_spec _ _ _ _ _ _ _ _ _ _ _ _ Hm1)
    as (nr & Hb3 & Pr & Fr & Sr & _).
  exists lr, rr, nl, nr. simpl. rewrite Hb3, Hb2, <- app_assoc. simpl.
  repeat split; assumption.
Qed.

(** C2: the spawn decision of a round.  When the timer fires, a round
    spawns, on the left panel, one ball for each of A and B that is alive
    (in that order), on the right panel one for each of C and D that is
    alive, each a child of its panel's root, and counts one more round. *)
Theorem spawn_workers_round delta w i w' i' :
  spawn_workers draws survivors fuel delta w i = Ok (w', i') ->
  just_finished (tick delta (timer (spawner w))) = true ->
  exists lr rr nl nr, select_roots (roots w) = Ok (lr, rr) /\ balls w' = balls w ++ nl ++ nr /\
    map ball_participant nl = List.filter survivors [A; B] /\
    map ball_participant nr = List.filter survivors [C; D] /\
    Forall (fun bl => ball_parent bl = root_entity lr) nl /\
    Forall (fun bl => ball_parent bl = root_entity rr) nr /\
    counter (spawner w') = S (counter (spawner w)).
Proof.
  intros H Hf. destruct (spawn_workers_inv _ _ _ _ _ H Hf)
    as (lr & rr & nl & nr & Hr & Hb & Pl & Pr & Fl & _ & Fr & _ & Hs).
  exists lr, rr, nl, nr. rewrite Hs. repeat split; auto;
    [eapply Forall_impl; [exact Fl|] | eapply Forall_impl; [exact Fr|]]; intros bl [Hp _]; exact Hp.
Qed.

(** C1: spawned balls never overlap.  Every ball a round spawns is placed
    where it intersects none of the worker balls present when the round
    starts, and the two balls of a panel spawned together do not intersect
    each other. *)
Theorem spawn_workers_no_overlap delta w i w' i' :
  spawn_workers draws survivors fuel delta w i = Ok (w', i') ->
  just_finished (tick delta (timer (spawner w))) = true ->
  exists lr rr nl nr, select_roots (roots w) = Ok (lr, rr) /\
    balls w' = balls w ++ nl ++ nr /\
    (forall root nb bl c, (root, nb) = (lr, nl) \/ (root, nb) = (rr, nr) ->
       In bl nb -> In c (snapshot_centres (world_snapshot w)) ->
       balls_intersect c (spawn_pos root bl) = false) /\
    (forall b1 b2, nl = [b1; b2] -> balls_intersect (spawn_pos lr b1) (spawn_pos lr b2) = false) /\
    (forall b1 b2, nr = [b1; b2] -> balls_intersect (spawn_pos rr b1) (spawn_pos rr b2) = false).
Proof.
  intros H Hf. destruct (spawn_workers_inv _ _ _ _ _ H Hf)
    as (lr & rr & nl & nr & Hsel & Hb & _ & _ & Fl & Sl & Fr & Sr & _).
  exists lr, rr, nl, nr. split; [exact Hsel|]. split; [exact Hb|].
  split; [|split; intros b1 b2 ->; apply separated_no_intersect; assumption].
  intros root nb bl c Hrn Hin Hc.
  assert (Hsp : spawned_at (world_snapshot w) root bl).
  { destruct Hrn as [Hrn|Hrn]; injection Hrn as -> ->;
      [rewrite Forall_forall in Fl | rewrite Forall_forall in Fr];
      apply list_elem_of_In in Hin; auto. }
  destruct Hsp as (_ & _ & _ & Hfree). unfold free in Hfree.
  apply negb_true_iff in Hfree.
  exact (intersects_false_in (world_snapshot w) _ c Hfree Hc).
Qed.
End Round.

(** ** How a round grows the trail pool *)

Section PanelTrails.
Variables (draws : nat -> Z) (survivors : Participant -> bool) (fuel : nat).
Variables (snap : Snapshot) (a b : Participant) (root : PanelRoot) (want_left : bool).

Lemma setup_trail_trails p x w :
  trails (setup_trail root want_left p x w) =
  (attach_trail want_left (next_entity w) p (x + vx (root_translation root))
     (S (next_entity w)) (trails w)).1.
Proof. unfold setup_trail. destruct (attach_trail _ _ _ _ _ _). reflexivity. Qed.

Lemma setup_trail_count p x w :
  let k := countb (is_idle_on want_left) (trails w) in
  length (trails (setup_trail root want_left p x w)) =
    (length (trails w) + (1 - Nat.min 1 k))%nat /\
  countb (is_idle_on want_left) (trails (setup_trail root want_left p x w)) = pred k.
Proof.
  cbv zeta. rewrite setup_trail_trails. unfold attach_trail.
  destruct (reuse_idle _ _ _ _ _) as [ts'|] eqn:Er; cbn [fst].
  - destruct (reuse_idle_some _ _ _ _ _ _ Er) as (Hid & Hk & Hnz & _).
    rewrite <- (length_map trail_id ts'), Hid, length_map. split; lia.
  - apply reuse_idle_none in Er. rewrite length_app, countb_app, Er.
    unfold countb; simpl. unfold is_idle_on; simpl. simpl_decide. simpl. split; lia.
Qed.

(** C22: trail reuse in the paired case.  When both participants of the
    panel are alive, the two new balls take idle trails of the panel's side
    first: the pool grows by [2 - min 2 k] trails, where [k] is the number
    of idle trails of that side. *)
Theorem spawn_panel_pair_trails w i w' i' :
  survivors a = true -> survivors b = true ->
  spawn_panel draws survivors fuel snap a b root want_left w i = Ok (w', i') ->
  length (trails w') =
    (length (trails w) + (2 - Nat.min 2 (countb (is_idle_on want_left) (trails w))))%nat.
Proof.
  intros Ha Hb H. unfold spawn_panel in H. rewrite Ha, Hb in H.
  inv_ok H. destruct a0 as [[xa xb] i2]. simplify_eq.
  destruct (setup_trail_count a xa w) as [L1 K1].
  destruct (setup_trail_count b xb (setup_trail root want_left a xa w)) as [L2 _].
  rewrite L2, L1, K1. lia.
Qed.

(** C23: the single case never reuses.  When exactly one participant of
    the panel is alive, the new ball always gets a newly spawned trail,
    even when idle trails of the panel's side are available, which stay
    idle. *)
Theorem spawn_panel_single_allocates w i w' i' :
  survivors a <> survivors b ->
  spawn_panel draws survivors fuel snap a b root want_left w i = Ok (w', i') ->
  length (trails w') = S (length (trails w)) /\
  forall s, countb (is_idle_on s) (trails w') = countb (is_idle_on s) (trails w).
Proof.
  intros Hab H. unfold spawn_panel in H.
  destruct (survivors a), (survivors b); try congruence;
    inv_ok H; destruct a0 as [x i1]; simplify_eq; simpl;
    rewrite length_app; (split; [simpl; lia|]); intros s;
    autorewrite with panel_rw; unfold is_idle_on at 2; simpl; simpl_decide; lia.
Qed.
End PanelTrails.

(** C28: the population cap freezes the spawner.  Once the round counter
    reaches [WORKER_BALL_COUNT_MAX], the run condition keeps [spawn_workers]
    from running at all: the world, the spawn timer included, is left as it
    is, whatever time passes. *)
Theorem run_spawn_workers_capped draws survivors fuel going delta w i :
  (WORKER_BALL_COUNT_MAX <= counter (spawner w))%nat ->
  run_spawn_workers draws survivors fuel going delta w i = Ok (w, i).
Proof.
  intros Hcap. unfold run_spawn_workers, spawn_workers_condition.
  rewrite (proj2 (Nat.ltb_ge _ _) Hcap), andb_false_r. reflexivity.
Qed.

(** ** Witnesses *)

(** The world after [setup] with a trigger zone [2], a one-second
    [TRAIL_LIFETIME], and one idle trail parked on the left; the draws
    [-100, -87, -74, ...]; A, B and C alive, D not. *)
Definition example_world : World :=
  set_next_entity 4%nat (set_trails [mkTrail 3%nat (Inactive true) None (rest_position true)]
    (setup_world 1000000000 [(2%nat, Multiply 4%N)] 4%nat)).
Definition example_draws (k : nat) : Z := Z.of_nat k * 13 - 100.
Definition example_survivors (p : Participant) : bool :=
  match p with A | B | C => true | D => false end.
Definition only_A (p : Participant) : bool := match p with A => true | _ => false end.

Lemma spawn_workers_round_witness :
  exists w' i',
    spawn_workers example_draws example_survivors 10 1000000000 example_world 0 = Ok (w', i') /\
    just_finished (tick 1000000000 (timer (spawner example_world))) = true /\
    exists lr rr nl nr, select_roots (roots example_world) = Ok (lr, rr) /\
      balls w' = balls example_world ++ nl ++ nr /\
      map ball_participant nl = List.filter example_survivors [A; B] /\
      map ball_participant nr = List.filter example_survivors [C; D] /\
      Forall (fun bl => ball_parent bl = root_entity lr) nl /\
      Forall (fun bl => ball_parent bl = root_entity rr) nr /\
      counter (spawner w') = S (counter (spawner example_world)).
Proof.
  destruct (spawn_workers example_draws example_survivors 10 1000000000 example_world 0)
    as [[w' i']|e] eqn:E; [|vm_compute in E; discriminate].
  exists w', i'. split; [reflexivity|]. split; [vm_compute; reflexivity|].
  exact (spawn_workers_round _ _ _ _ _ _ _ _ E ltac:(vm_compute; reflexivity)).
Defined.

Lemma spawn_workers_no_overlap_witness :
  exists w' i',
    spawn_workers example_draws example_survivors 10 1000000000 example_world 0 = Ok (w', i') /\
    just_finished (tick 1000000000 (timer (spawner example_world))) = true /\
    exists lr rr nl nr, select_roots (roots example_world) = Ok (lr, rr) /\
      balls w' = balls example_world ++ nl ++ nr /\
      (forall root nb bl c, (root, nb) = (lr, nl) \/ (root, nb) = (rr, nr) ->
         In bl nb -> In c (snapshot_centres (world_snapshot example_world)) ->
         balls_intersect c (spawn_pos root bl) = false) /\
      (forall b1 b2, nl = [b1; b2] -> balls_intersect (spawn_pos lr b1) (spawn_pos lr b2) = false) /\
      (forall b1 b2, nr = [b1; b2] -> balls_intersect (spawn_pos rr b1) (spawn_pos rr b2) = false).
Proof.
  destruct (spawn_workers example_draws example_survivors 10 1000000000 example_world 0)
    as [[w' i']|e] eqn:E; [|vm_compute in E; discriminate].
  exists w', i'. split; [reflexivity|]. split; [vm_compute; reflexivity|].
  exact (spawn_workers_no_overlap _ _ _ _ _ _ _ _ E ltac:(vm_compute; reflexivity)).
Defined.

Definition left_root : PanelRoot := mkPanelRoot 0%nat Left (mkVec2 LEFT_ROOT_X 0).

Lemma spawn_panel_pair_trails_witness :
  exists w' i',
    spawn_panel example_draws example_survivors 10 (world_snapshot example_world) A B
      left_root true example_world 0 = Ok (w', i') /\
    length (trails w') =
      (length (trails example_world) +
       (2 - Nat.min 2 (countb (is_idle_on true) (trails example_world))))%nat.
Proof.
  destruct (spawn_panel example_draws example_survivors 10 (world_snapshot example_world) A B
              left_root true example_world 0) as [[w' i']|e] eqn:E;
    [|vm_compute in E; discriminate].
  exists w', i'. split; [reflexivity|].
  exact (spawn_panel_pair_trails example_draws example_survivors 10 (world_snapshot example_world)
           A B left_root true example_world 0 w' i' eq_refl eq_refl E).
Defined.

Lemma spawn_panel_single_allocates_witness :
  exists w' i',
    spawn_panel example_draws only_A 10 (world_snapshot example_world) A B
      left_root true example_world 0 = Ok (w', i') /\
    countb (is_idle_on true) (trails example_world) = 1%nat /\
    length (trails w') = S (length (trails example_world)) /\
    forall s, countb (is_idle_on s) (trails w') = countb (is_idle_on s) (trails example_world).
Proof.
  destruct (spawn_panel example_draws only_A 10 (world_snapshot example_world) A B
              left_root true example_world 0) as [[w' i']|e] eqn:E;
    [|vm_compute in E; discriminate].
  exists w', i'. split; [reflexivity|]. split; [vm_compute; reflexivity|].
  exact (spawn_panel_single_allocates example_draws only_A 10 (world_snapshot example_world)
           A B left_root true example_world 0 w' i' ltac:(discriminate) E).
Defined.

Lemma run_spawn_workers_capped_witness :
  (WORKER_BALL_COUNT_MAX <= counter (spawner (set_spawner (mkSpawner
     (timer (spawner example_world)) 6) example_world)))%nat /\
  run_spawn_workers example_draws example_survivors 10 true 1000000000
    (set_spawner (mkSpawner (timer (spawner example_world)) 6) example_world) 0 =
  Ok (set_spawner (mkSpawner (timer (spawner example_world)) 6) example_world, 0%nat).
Proof.
  split; [vm_compute; lia|].
  apply run_spawn_workers_capped. vm_compute; lia.
Defined.
