(* ===== verification/Triggers.v ===== *)
(** The Trigger Translator: the system [trigger_event] of
    [src/panel_plugin.rs] (lines 811-847).  It reads the pending
    [CollisionEvent]s and [RestartEvent]s; if a restart is pending the whole
    batch of collision events is cleared unread.  Otherwise each
    [Started(a, b)] whose one side is a trigger zone ([a] tried first) and
    whose one side is a worker ball ([a] tried first) emits one
    [TriggerEvent { participant, trigger_type }]; every other event is
    skipped.  The theorems: a pending restart discards everything; a batch
    of zone/ball contacts yields exactly one event per contact, in order,
    whatever the order of the two entities in the contact; and nothing else
    emits an event. *)

From stdpp Require Import base list.
From Stdlib Require Import ZArith Lia.
From S2P Require Import Prelude Entities Physics Trails Timer World.

(** The body of the loop for one [CollisionEvent::Started(a, b, _)]. *)
Definition translate_started (w : World) (a b : Entity) : option TriggerEvent :=
  let zone := match find_zone w a with
              | Some t => Some t
              | None => find_zone w b
              end in
  match zone with
  | None => None
  | Some trigger_type =>
      let ball := match find_ball w a with
                  | Some bl => Some bl
                  | None => find_ball w b
                  end in
      match ball with
      | None => None
      | Some bl => Some (mkTriggerEvent (ball_participant bl) trigger_type)
      end
  end.

Definition translate (w : World) (e : CollisionEvent) : list TriggerEvent :=
  match e with
  | Started a b =>
      match translate_started w a b with Some te => [te] | None => [] end
  | Stopped _ _ => []
  end.

(** [trigger_event]: [restart_pending] is [!restart_event.is_empty()]. *)
Definition trigger_event (restart_pending : bool) (events : list CollisionEvent)
    (w : World) : list TriggerEvent :=
  if restart_pending then [] else List.flat_map (translate w) events.

Definition is_started (e : CollisionEvent) : bool :=
  match e with Started _ _ => true | Stopped _ _ => false end.

(** C10: a pending restart discards the whole batch of contacts: no
    trigger event is emitted in that tick. *)
Theorem trigger_event_restart_discards events w :
  trigger_event true events w = [].
Proof. reflexivity. Qed.

(** A contact between a zone [z] and a ball [bl] of the world, given in
    either order. *)
Definition zone_ball_contact (w : World) (z bl : Entity) (t : TriggerType) (p : Participant) : Prop :=
  find_zone w z = Some t /\ find_ball w z = None /\
  find_zone w bl = None /\ option_map ball_participant (find_ball w bl) = Some p.

Definition contact_event (z bl : Entity) (swapped : bool) : CollisionEvent :=
  if swapped then Started bl z else Started z bl.

Lemma translate_contact w z bl sw t p :
  zone_ball_contact w z bl t p ->
  translate w (contact_event z bl sw) = [mkTriggerEvent p t].
Proof.
  intros (Hz & Hzb & Hbz & Hb). unfold contact_event, translate, translate_started.
  destruct (find_ball w bl) as [b|] eqn:E; simpl in Hb; [|discriminate].
  injection Hb as <-. destruct sw; rewrite ?Hz, ?Hzb, ?Hbz, ?E, ?Hz; reflexivity.
Qed.

(** C9: trigger exactness.  Without a pending restart, a batch of [N]
    contact-begin events, each between a trigger zone and a worker ball (in
    either order), yields exactly [N] trigger events, the [k]-th carrying the
    participant of the [k]-th ball and the trigger type of the [k]-th zone. *)
Theorem trigger_event_exact w (cs : list (Entity * Entity * bool * TriggerType * Participant)) :
  Forall (fun '(z, bl, sw, t, p) => zone_ball_contact w z bl t p) cs ->
  trigger_event false (map (fun '(z, bl, sw, _, _) => contact_event z bl sw) cs) w =
  map (fun '(_, _, _, t, p) => mkTriggerEvent p t) cs.
Proof.
  induction cs as [|[[[[z bl] sw] t] p] cs IH]; intros Hall; [reflexivity|].
  inversion Hall as [|? ? Hc Hrest]; subst.
  unfold trigger_event in *. simpl. rewrite (translate_contact _ _ _ sw _ _ Hc).
  simpl. f_equal. exact (IH Hrest).
Qed.

(** C25: only contact-begin events emit, and each emits at most one
    trigger event. *)
Theorem trigger_event_at_most_one restart events w :
  length (trigger_event restart events w) <= countb is_started events.
Proof.
  unfold trigger_event. destruct restart; [simpl; lia|].
  induction events as [|e events IH]; [reflexivity|].
  simpl. rewrite length_app, countb_cons. unfold translate at 1.
  destruct e; simpl; [destruct (translate_started w a b)|]; simpl; lia.
Qed.

(** ** Witnesses *)

(** A world with trigger zone [2] and a ball [3] of participant A. *)
Definition trigger_world : World :=
  set_balls [mkBall 3 A 0 (mkVec2 0 (-250)) vzero]
    (setup_world 1000000000 [(2%nat, Multiply 4%N)] 4%nat).

Lemma trigger_event_exact_witness :
  Forall (fun '(z, bl, sw, t, p) => zone_ball_contact trigger_world z bl t p)
    [(2%nat, 3%nat, false, Multiply 4%N, A); (2%nat, 3%nat, true, Multiply 4%N, A)] /\
  trigger_event false [Started 2 3; Started 3 2] trigger_world =
    [mkTriggerEvent A (Multiply 4); mkTriggerEvent A (Multiply 4)].
Proof.
  assert (H : Forall (fun '(z, bl, sw, t, p) => zone_ball_contact trigger_world z bl t p)
    [(2%nat, 3%nat, false, Multiply 4%N, A); (2%nat, 3%nat, true, Multiply 4%N, A)]).
  { repeat constructor. }
  split; [exact H|].
  exact (trigger_event_exact trigger_world
    [(2%nat, 3%nat, false, Multiply 4%N, A); (2%nat, 3%nat, true, Multiply 4%N, A)] H).
Defined.
