(* ===== verification/Recycler.v ===== *)
(** The Zone-Exit Recycler: the system [ball_reset] of [src/panel_plugin.rs]
    (lines 848-895).  For each [CollisionEvent::Stopped(a, b)] where one
    side is a trigger zone ([a] tried first) and the other a worker ball, it
    finds the panel root of the ball's participant ([expect] panics when
    there is none), asks a fresh [WorkerBallShapeCaster] for a free x on that
    panel, and moves the ball to [(x, WORKER_BALL_SPAWN_Y)] with zero
    velocity.  Every caster of the batch queries the same [RapierContext],
    the physics world as it was when the system started: balls moved earlier
    in the batch are still seen at their old positions.  The theorems: a
    recycled ball ends at rest at spawn height, at a draw of the panel's
    distribution that is free in the snapshot, and keeps its panel; and, as
    a finding, two balls recycled in one batch can be placed on top of each
    other. *)

From stdpp Require Import base list.
From Stdlib Require Import ZArith Lia.
From S2P Require Import Prelude Entities Physics Placement Trails Timer World.

Local Open Scope Z_scope.

(** The assignment to the ball's [Transform] and [Velocity]. *)
Definition recycle (x : Z) (bl : Ball) : Ball :=
  mkBall (ball_id bl) (ball_participant bl) (ball_parent bl)
         (mkVec2 x WORKER_BALL_SPAWN_Y) vzero.

Definition update_ball (e : Entity) (f : Ball -> Ball) (w : World) : World :=
  set_balls (map (fun bl => if Nat.eqb (ball_id bl) e then f bl else bl) (balls w)) w.

Definition is_zone (w : World) (e : Entity) : bool :=
  match find_zone w e with Some _ => true | None => false end.

Section BallReset.
Variable draws : nat -> Z.
Variable fuel : nat.
(** The [RapierContext] the system reads. *)
Variable snap : Snapshot.

Fixpoint ball_reset_loop (events : list CollisionEvent) (w : World) (i : nat)
    : Result (World * nat) :=
  match events with
  | [] => Ok (w, i)
  | Started _ _ :: events' => ball_reset_loop events' w i
  | Stopped a b :: events' =>
      let ball_entity :=
        if is_zone w a then Some b else if is_zone w b then Some a else None in
      match ball_entity with
      | None => ball_reset_loop events' w i
      | Some be =>
          match find_ball w be with
          | None => ball_reset_loop events' w i
          | Some bl =>
              let? root := find_root (roots w) (for_participant (ball_participant bl)) in
              let? '(x, i1) := caster_get draws fuel snap (root_translation root) i in
              ball_reset_loop events' (update_ball be (recycle x) w) i1
          end
      end
  end.
End BallReset.

(** [ball_reset]: the snapshot is the world at the start of the system. *)
Definition ball_reset (draws : nat -> Z) (fuel : nat) (events : list CollisionEvent)
    (w : World) (i : nat) : Result (World * nat) :=
  ball_reset_loop draws fuel (world_snapshot w) events w i.

(** ** Theorems of the recycler *)

Lemma find_ball_update w e f :
  (forall bl, ball_id (f bl) = ball_id bl) ->
  find_ball (update_ball e f w) e = option_map f (find_ball w e).
Proof.
  intros Hf. unfold find_ball, update_ball, set_balls; simpl.
  induction (balls w) as [|bl bs IH]; [reflexivity|]; simpl.
  destruct (Nat.eqb (ball_id bl) e) eqn:E; simpl; [rewrite Hf, E; reflexivity|].
  rewrite E. exact IH.
Qed.

Definition in_span (x : Z) : Prop := - ARENA_WIDTH_FRAC_2 <= x < ARENA_WIDTH_FRAC_2.

(** C11: zone-exit recycling.  When a worker ball stops touching a trigger
    zone, [ball_reset] moves it to spawn height at a draw of its panel's
    distribution (hence inside the panel's horizontal span) that is free in
    the physics world, with zero velocity; it keeps its participant and its
    parent panel root. *)
Theorem ball_reset_recycles draws fuel w i z be bl w' i' :
  (forall k, in_span (draws k)) ->
  is_zone w z = true -> find_ball w be = Some bl ->
  ball_reset draws fuel [Stopped z be] w i = Ok (w', i') ->
  exists root x, find_root (roots w) (for_participant (ball_participant bl)) = Ok root /\
    find_ball w' be = Some (mkBall be (ball_participant bl) (ball_parent bl)
                                   (mkVec2 x WORKER_BALL_SPAWN_Y) vzero) /\
    in_span x /\ free (world_snapshot w) (root_translation root) x = true.
Proof.
  intros Hspan Hz Hb H. unfold ball_reset in H. simpl in H. rewrite Hz, Hb in H.
  inv_ok H. rename a into root. inv_ok H. destruct a as [x i1]. simpl in H. simplify_eq.
  destruct (caster_get_first_free _ _ _ _ _ _ _ Hm0) as (Hx & Hfree & _).
  exists root, x. split; [exact Hm|].
  rewrite find_ball_update by reflexivity. rewrite Hb. simpl.
  destruct (find_ball_Some _ _ _ Hb) as [_ <-].
  split; [reflexivity|]. split; [rewrite Hx; apply Hspan | exact Hfree].
Qed.

Lemma find_ball_update_other w e e' f :
  e <> e' -> (forall bl, ball_id (f bl) = ball_id bl) ->
  find_ball (update_ball e f w) e' = find_ball w e'.
Proof.
  intros Hne Hf. unfold find_ball, update_ball, set_balls; simpl.
  induction (balls w) as [|bl bs IH]; [reflexivity|]; simpl.
  destruct (Nat.eqb (ball_id bl) e) eqn:E; simpl; rewrite ?Hf, IH; [|reflexivity].
  apply Nat.eqb_eq in E. subst e. destruct (Nat.eqb (ball_id bl) e') eqn:E'; [|reflexivity].
  apply Nat.eqb_eq in E'. congruence.
Qed.

Lemma is_zone_update w e f z : is_zone (update_ball e f w) z = is_zone w z.
Proof. reflexivity. Qed.

Lemma balls_intersect_refl p : balls_intersect p p = true.
Proof. unfold balls_intersect. apply Z.leb_le. unfold WORKER_BALL_DIAMETER, WORKER_BALL_RADIUS. lia. Qed.

(** C12: the recycler can stack balls.  Take two distinct worker balls of
    one panel that leave trigger zones in the same tick.  The caster of the
    second ball queries the physics world of the start of the system, which
    does not see where the first ball was just moved: both casters read the
    same snapshot, the second one from where the first stopped drawing.  So
    whenever the next draw repeats the first ball's point, the second ball
    is placed on that point too, and the two balls intersect. *)
Theorem ball_reset_batch_overlap draws fuel w i z e1 e2 bl1 bl2 w' i' :
  is_zone w z = true -> e1 <> e2 ->
  find_ball w e1 = Some bl1 -> find_ball w e2 = Some bl2 ->
  for_participant (ball_participant bl1) = for_participant (ball_participant bl2) ->
  ball_parent bl1 = ball_parent bl2 ->
  ball_reset draws fuel [Stopped z e1; Stopped z e2] w i = Ok (w', i') ->
  exists root x1 x2 i1,
    find_root (roots w) (for_participant (ball_participant bl1)) = Ok root /\
    caster_get draws fuel (world_snapshot w) (root_translation root) i = Ok (x1, i1) /\
    caster_get draws fuel (world_snapshot w) (root_translation root) i1 = Ok (x2, i') /\
    find_ball w' e1 = Some (recycle x1 bl1) /\ find_ball w' e2 = Some (recycle x2 bl2) /\
    (draws i1 = x1 ->
     x2 = x1 /\ balls_intersect (global_translation (roots w') (recycle x1 bl1))
                               (global_translation (roots w') (recycle x2 bl2)) = true).
Proof.
  intros Hz Hne Hb1 Hb2 Hside Hpar H. unfold ball_reset in H. simpl in H.
  rewrite Hz, Hb1 in H. inv_ok H. rename a into root. inv_ok H. destruct a as [x1 i1].
  simpl in H. rewrite is_zone_update, Hz, find_ball_update_other, Hb2 in H by (auto; reflexivity).
  rewrite <- Hside, Hm, rbind_Ok in H. inv_ok H. destruct a as [x2 i2]. simpl in H. simplify_eq.
  exists root, x1, x2, i1. split; [exact Hm|]. split; [exact Hm0|]. split; [exact Hm1|].
  split; [rewrite find_ball_update_other, find_ball_update, Hb1 by (auto; reflexivity); reflexivity|].
  split; [rewrite find_ball_update, find_ball_update_other, Hb2 by (auto; reflexivity); reflexivity|].
  intros Hd. destruct (caster_get_first_free _ _ _ _ _ _ _ Hm0) as (_ & Hfree & _).
  destruct fuel as [|fuel]; [discriminate Hm0|]. simpl in Hm1. rewrite Hd in Hm1.
  unfold free in Hfree. apply negb_true_iff in Hfree.
  change (snapshot_intersects (world_snapshot w) (spawn_point (root_translation root) x1) = false)
    in Hfree.
  rewrite Hfree in Hm1. injection Hm1 as <- _.
  split; [reflexivity|]. unfold global_translation, recycle. simpl. rewrite Hpar.
  apply balls_intersect_refl.
Qed.

(** ** Witnesses *)

(** A world with two balls of the left panel that both leave the trigger
    zone [2] in the same tick. *)
Definition two_exits_world : World :=
  mkWorld (setup_roots 0%nat 1%nat) [(2%nat, Multiply 4%N)]
    [mkBall 3%nat A 0%nat (mkVec2 (-20) TRIGGER_ZONE_Y) (mkVec2 0 (-5));
     mkBall 4%nat B 0%nat (mkVec2 20 TRIGGER_ZONE_Y) (mkVec2 0 (-5))]
    [] (mkSpawner (BevyTimer.from_duration WORKER_BALL_SPAWN_TIMER) 0%nat) false 5%nat.

Local Open Scope nat_scope.

Lemma ball_reset_recycles_witness :
  exists w' i',
    ball_reset (fun _ => 0%Z) 1 [Stopped 2 3] two_exits_world 0 = Ok (w', i') /\
    exists root x, find_root (roots two_exits_world) Left = Ok root /\
      find_ball w' 3 = Some (mkBall 3 A 0 (mkVec2 x WORKER_BALL_SPAWN_Y) vzero) /\
      in_span x /\ free (world_snapshot two_exits_world) (root_translation root) x = true.
Proof.
  destruct (ball_reset (fun _ => 0%Z) 1 [Stopped 2 3] two_exits_world 0)
    as [[w' i']|e] eqn:E; [|vm_compute in E; discriminate].
  exists w', i'. split; [reflexivity|].
  exact (ball_reset_recycles (fun _ => 0%Z) 1 two_exits_world 0 2 3
           (mkBall 3 A 0 (mkVec2 (-20)%Z TRIGGER_ZONE_Y) (mkVec2 0%Z (-5)%Z)) w' i'
           ltac:(intros k; split; vm_compute; [intros Hc; discriminate Hc | reflexivity])
           eq_refl eq_refl E).
Defined.

Lemma ball_reset_batch_overlap_witness :
  exists w' i' root x1 x2 i1,
    ball_reset (fun _ => 0%Z) 1 [Stopped 2 3; Stopped 2 4] two_exits_world 0 = Ok (w', i') /\
    find_root (roots two_exits_world) Left = Ok root /\
    caster_get (fun _ => 0%Z) 1 (world_snapshot two_exits_world) (root_translation root) 0 = Ok (x1, i1) /\
    caster_get (fun _ => 0%Z) 1 (world_snapshot two_exits_world) (root_translation root) i1 = Ok (x2, i') /\
    x2 = x1 /\
    balls_intersect (global_translation (roots w') (recycle x1 (mkBall 3 A 0 (mkVec2 (-20)%Z TRIGGER_ZONE_Y) (mkVec2 0%Z (-5)%Z))))
                    (global_translation (roots w') (recycle x2 (mkBall 4 B 0 (mkVec2 20%Z TRIGGER_ZONE_Y) (mkVec2 0%Z (-5)%Z)))) = true.
Proof.
  destruct (ball_reset (fun _ => 0%Z) 1 [Stopped 2 3; Stopped 2 4] two_exits_world 0)
    as [[w' i']|e] eqn:E; [|vm_compute in E; discriminate].
  destruct (ball_reset_batch_overlap (fun _ => 0%Z) 1 two_exits_world 0 2 3 4
              (mkBall 3 A 0 (mkVec2 (-20)%Z TRIGGER_ZONE_Y) (mkVec2 0%Z (-5)%Z))
              (mkBall 4 B 0 (mkVec2 20%Z TRIGGER_ZONE_Y) (mkVec2 0%Z (-5)%Z)) w' i'
              eq_refl ltac:(discriminate) eq_refl eq_refl eq_refl eq_refl E)
    as (root & x1 & x2 & i1 & Hr & Hc1 & Hc2 & _ & _ & Hov).
  exists w', i', root, x1, x2, i1. split; [reflexivity|]. split; [exact Hr|].
  split; [exact Hc1|]. split; [exact Hc2|].
  assert (Hd : (fun _ : nat => 0%Z) i1 = x1).
  { vm_compute in Hr. injection Hr as <-. vm_compute in Hc1. injection Hc1 as <- _. reflexivity. }
  exact (Hov Hd).
Defined.
