(* ===== verification/Restart.v ===== *)
(** The Restart Coordinator: the system [restart] of [src/panel_plugin.rs]
    (lines 940-958), run when a [RestartEvent] is pending.  It resets the
    [WorkerBallSpawner], despawns every worker ball, and re-parks every
    idle trail with a fresh toggle starting at [false]; active trails are not
    in its query and are left to the next [update_workers_particle_position],
    whose own toggle it does not reset.  [restart_deferred] is [restart]
    running after [spawn_workers] in the same frame, with the commands of
    both still queued.  The theorems: restart is
    idempotent; it restores the spawner [new] creates; it leaves active
    trails active (a divergence from the spec, which asks for all trails
    idle), and the next trail update makes every trail idle and suppressed. *)

From stdpp Require Import base list.
From Stdlib Require Import ZArith Lia.
From S2P Require Import Prelude Entities Physics Trails Timer World.

Import BevyTimer.

(** [restart]; [tl] is [TRAIL_LIFETIME]. *)
Definition restart (tl : N) (w : World) : World :=
  mkWorld (roots w) (zones w) []
    (restart_trails false (trails w))
    (WorkerBallSpawner_reset tl (spawner w))
    (go_left w) (next_entity w).

(** [restart] running after [spawn_workers] in the same frame, before the
    commands of either are applied (the two systems are not ordered; both
    take [ResMut<WorkerBallSpawner>], so Bevy runs them one after the
    other, and applies their [Commands] together at the end of the
    schedule).  [w] is the world of the start of the frame, [w1] the world
    once [spawn_workers]' effects are in, its commands included.  The
    resource write of [spawn_workers] is immediate, so [reset] acts on its
    spawner; the [garbage] query sees only the balls of [w], so
    [despawn_recursive] removes those and the balls of the round survive;
    the trail loop is [restart_trails_deferred].  The toggle and the next
    free entity are those of [w1]. *)
Definition restart_deferred (tl : N) (w w1 : World) : World :=
  mkWorld (roots w1) (zones w1)
    (filter (fun bl => ball_id bl ∉ map ball_id (balls w)) (balls w1))
    (restart_trails_deferred false (trails w) (trails w1))
    (WorkerBallSpawner_reset tl (spawner w1))
    (go_left w1) (next_entity w1).

(** A trail parked by the pool: idle, suppressed, at the resting position
    of its side. *)
Definition parked (t : Trail) : Prop :=
  match trail_state t with
  | Inactive s => trail_color t = None /\ trail_position t = rest_position s
  | Active _ => False
  end.

Lemma spawner_reset_idempotent tl s :
  WorkerBallSpawner_reset tl (WorkerBallSpawner_reset tl s) = WorkerBallSpawner_reset tl s.
Proof.
  unfold WorkerBallSpawner_reset, reset. simpl. rewrite tick_duration. reflexivity.
Qed.

(** C13: restart is idempotent: two restarts with no tick between them
    leave the same world as one. *)
Theorem restart_idempotent tl w : restart tl (restart tl w) = restart tl w.
Proof.
  unfold restart. simpl.
  rewrite restart_trails_idempotent, spawner_reset_idempotent. reflexivity.
Qed.

Lemma restart_trails_active g ts :
  List.filter is_active (restart_trails g ts) = List.filter is_active ts /\
  Forall (fun t => is_active t = false -> parked t) (restart_trails g ts).
Proof.
  revert g. induction ts as [|t ts IH]; intros g; simpl; [split; constructor|].
  assert (Ha : is_active t = match trail_state t with
                             | Active _ => true | Inactive _ => false end) by reflexivity.
  destruct (trail_state t) eqn:Hs; simpl.
  - destruct (IH g) as [IH1 IH2]. rewrite Ha, IH1. split; [reflexivity|].
    constructor; [|exact IH2]. rewrite Ha; discriminate.
  - destruct (IH (negb g)) as [IH1 IH2]. rewrite Ha. split; [exact IH1|].
    constructor; [|exact IH2]. intros _. split; reflexivity.
Qed.

(** C14: what restart leaves behind.  After a restart the world holds no
    worker ball and the spawner [WorkerBallSpawner::new] creates, every idle
    trail is parked, but every trail that was active is still active: the
    code's query only visits idle trails. *)
Theorem restart_result tl w :
  duration (timer (spawner w)) = WORKER_BALL_SPAWN_TIMER ->
  balls (restart tl w) = [] /\
  spawner (restart tl w) = WorkerBallSpawner_new tl /\
  List.filter is_active (trails (restart tl w)) = List.filter is_active (trails w) /\
  Forall (fun t => is_active t = false -> parked t) (trails (restart tl w)).
Proof.
  intros Hd. unfold restart; simpl. split; [reflexivity|].
  split; [apply spawner_reset_is_new, Hd|]. apply restart_trails_active.
Qed.

Lemma update_trails_no_ball g ts :
  Forall (fun t => is_active t = false -> parked t) ts ->
  Forall parked (update_trails (fun _ => None) g ts).1.
Proof.
  revert g. induction ts as [|t ts IH]; intros g Hall; simpl; [constructor|].
  inversion Hall as [|? ? Ht Hrest]; subst.
  destruct (trail_state t) eqn:Hs;
    match goal with |- context [update_trails _ ?g' ts] =>
      specialize (IH g' Hrest); destruct (update_trails _ g' ts) end;
    simpl; constructor; auto.
  - split; reflexivity.
  - apply Ht. unfold is_active; rewrite Hs; reflexivity.
Qed.

(** C15: restart followed by the next trail update returns every trail of
    the pool to the idle, suppressed and parked state. *)
Theorem restart_then_update_parked tl w g :
  Forall parked (update_trails (resolve_ball (restart tl w)) g (trails (restart tl w))).1.
Proof.
  assert (Hr : resolve_ball (restart tl w) = fun _ => None) by reflexivity.
  rewrite Hr. apply update_trails_no_ball, restart_trails_active.
Qed.

(** ** Witnesses *)

Lemma restart_result_witness :
  let w := setup_world 1000000000 [(2%nat, Multiply 4%N)] 4%nat in
  duration (timer (spawner w)) = WORKER_BALL_SPAWN_TIMER /\
  balls (restart 1000000000 w) = [] /\
  spawner (restart 1000000000 w) = WorkerBallSpawner_new 1000000000 /\
  List.filter is_active (trails (restart 1000000000 w)) = List.filter is_active (trails w) /\
  Forall (fun t => is_active t = false -> parked t) (trails (restart 1000000000 w)).
Proof.
  intros w. split; [vm_compute; reflexivity|].
  apply restart_result. vm_compute; reflexivity.
Defined.
