(* ===== verification/System.v ===== *)
(** The panel plugin as a whole: the systems [PanelPlugin::build] registers
    in [Update] ([src/panel_plugin.rs], lines 104-122), each one a step of a
    transition relation on the [World], together with the physics engine's
    own step (it moves balls, never creates or removes them).  Every order
    of the systems is allowed, so the invariants hold for the order of
    [update_workers_particle_position.before(spawn_workers)] and for any
    order Bevy picks among the others.  A system's effects are visible to
    the next one, except for the one pair whose deferred [Commands] make a
    difference: [spawn_workers] followed by [restart] in the same frame,
    [step_spawn_restart], where [restart] does not see the balls and trail
    links the round has queued.  The theorems: every world reachable from
    [setup] keeps the spawner in range, hands out fresh entities, and links
    each live worker ball to exactly one trail; after the trail update that
    trail is at the ball's position; no step removes a trail from the pool;
    at most [4 * (WORKER_BALL_COUNT_MAX + 1)] worker balls are alive at once
    (the extra four are a round raced by a restart); and the live balls
    with the round counter ([population]) move as the abstract machine
    [pop_step] allows, a refinement proved by a simulation over [rtc]. *)

From stdpp Require Import base list relations.
From Stdlib Require Import ZArith Lia.
From S2P Require Import Prelude Entities Physics Placement Trails Timer World Spawner Recycler Restart.

Import BevyTimer.

(** [update_workers_particle_position] on the world: the trail pool and the
    [Local<bool>] toggle. *)
Definition update_workers (w : World) : World :=
  let '(ts, g) := update_trails (resolve_ball w) (go_left w) (trails w) in
  set_go_left g (set_trails ts w).

(** The physics engine's step: every worker ball gets a new translation and
    velocity ([move]); entities, owners and parents are untouched. *)
Definition physics_step (move : Entity -> Vec2 * Vec2) (w : World) : World :=
  set_balls (map (fun bl => mkBall (ball_id bl) (ball_participant bl) (ball_parent bl)
                              (move (ball_id bl)).1 (move (ball_id bl)).2) (balls w)) w.

(** One system run; [tl] is [TRAIL_LIFETIME].  [trigger_event] only emits
    events and leaves the world as it is, so it is not a step.  A system's
    [Commands] are applied before the next system of the step relation
    runs, except in [step_spawn_restart]: [restart] and [spawn_workers] are
    not ordered, so in a frame where both run Bevy may run [spawn_workers]
    first and [restart] second, with the commands of both applied at the
    end of the frame ([Restart.restart_deferred]).  The other order gives
    the same world as [step_restart] followed by [step_spawn]. *)
Inductive step (tl : N) : World -> World -> Prop :=
| step_spawn draws survivors fuel going delta w i w' i' :
    run_spawn_workers draws survivors fuel going delta w i = Ok (w', i') -> step tl w w'
| step_update w : step tl w (update_workers w)
| step_ball_reset draws fuel events w i w' i' :
    ball_reset draws fuel events w i = Ok (w', i') -> step tl w w'
| step_restart w : step tl w (restart tl w)
| step_spawn_restart draws survivors fuel going delta w i w1 i' :
    run_spawn_workers draws survivors fuel going delta w i = Ok (w1, i') ->
    step tl w (restart_deferred tl w w1)
| step_physics move w : step tl w (physics_step move w).

Definition reachable (tl : N) (zs : list (Entity * TriggerType)) (next : Entity) (w : World)
    : Prop :=
  rtc (step tl) (setup_world tl zs next) w.

(** ** The entity pool: live balls, trails and the next fresh entity *)

Record Pool := mkPool {
  p_balls : list Entity;
  p_trails : list Trail;
  p_next : Entity;
}.

Definition pool (w : World) : Pool :=
  mkPool (map ball_id (balls w)) (trails w) (next_entity w).

(** Entities are fresh, unique, and every live ball is followed by exactly
    one trail. *)
Record pool_wf (P : Pool) : Prop := {
  pw_ball_fresh : Forall (fun e => e < p_next P)%nat (p_balls P);
  pw_trail_fresh : Forall (fun e => e < p_next P)%nat (map trail_id (p_trails P));
  pw_link_fresh : forall e, (p_next P <= e)%nat -> countb (links_to e) (p_trails P) = 0%nat;
  pw_balls_nodup : NoDup (p_balls P);
  pw_trails_nodup : NoDup (map trail_id (p_trails P));
  pw_linked : Forall (fun e => countb (links_to e) (p_trails P) = 1%nat) (p_balls P);
}.

Definition spawner_wf (s : WorkerBallSpawner) : Prop :=
  (counter s <= WORKER_BALL_COUNT_MAX)%nat /\ duration (timer s) = WORKER_BALL_SPAWN_TIMER.

(** The invariant of the plugin's world.  The last conjunct counts the balls
    of the rounds since the last restart, plus the at most four balls of a
    round that raced a restart ([step_spawn_restart]). *)
Definition wf (w : World) : Prop :=
  spawner_wf (spawner w) /\ pool_wf (pool w) /\
  (length (balls w) <= 4 * counter (spawner w) + 4)%nat.

(** Spawning one ball with its trail: the ball takes the next entity and
    one trail more links to it, either an idle trail of the pool or a new
    trail entity right after the ball. *)
Definition add_ball_step (P P' : Pool) : Prop :=
  p_balls P' = p_balls P ++ [p_next P] /\
  (forall e, countb (links_to e) (p_trails P') =
             (countb (links_to e) (p_trails P) + if Nat.eqb e (p_next P) then 1 else 0)%nat) /\
  (map trail_id (p_trails P') = map trail_id (p_trails P) /\ p_next P' = S (p_next P) \/
   map trail_id (p_trails P') = map trail_id (p_trails P) ++ [S (p_next P)] /\
   p_next P' = S (S (p_next P))).

(** ** Links of the trail operations *)

Lemma links_to_Active e b t :
  trail_state t = Active b -> links_to e t = Nat.eqb e b.
Proof.
  intros Hs. unfold links_to. rewrite Hs.
  destruct (Nat.eqb_spec e b) as [->|Hne];
    [apply bool_decide_eq_true_2; reflexivity|apply bool_decide_eq_false_2; congruence].
Qed.

Lemma links_to_Inactive e s t :
  trail_state t = Inactive s -> links_to e t = false.
Proof. intros Hs. unfold links_to. rewrite Hs. apply bool_decide_eq_false_2. discriminate. Qed.

Lemma links_to_park e g t : links_to e (park g t) = false.
Proof. apply (links_to_Inactive e g). reflexivity. Qed.

Lemma links_to_set_position e p t : links_to e (set_trail_position p t) = links_to e t.
Proof. reflexivity. Qed.

#[export] Hint Rewrite links_to_park links_to_set_position : panel_rw.

Lemma restart_trails_deferred_links g ts0 ts1 e :
  countb (links_to e) (restart_trails_deferred g ts0 ts1) = countb (links_to e) ts1.
Proof.
  revert g ts1. induction ts0 as [|t0 ts0 IH]; intros g [|t1 ts1]; try reflexivity.
  simpl. destruct (trail_state t0); rewrite !countb_cons, IH; [reflexivity|].
  destruct (trail_state t1) as [b|s'] eqn:Hs; [unfold links_to; simpl; rewrite Hs; reflexivity|].
  rewrite (links_to_Inactive e s' t1 Hs), (links_to_Inactive e g); reflexivity.
Qed.

Lemma links_to_new_trail e id ball x p :
  countb (links_to e) [WorkerBallTrailBundle_new id ball x p] = if Nat.eqb e ball then 1%nat else 0%nat.
Proof.
  rewrite countb_cons, (links_to_Active e ball) by reflexivity. simpl.
  destruct (Nat.eqb e ball); reflexivity.
Qed.

Lemma update_trails_links resolve g ts e :
  countb (links_to e) (update_trails resolve g ts).1 =
  match resolve e with Some _ => countb (links_to e) ts | None => 0%nat end.
Proof.
  revert g. induction ts as [|t ts IH]; intros g; simpl; [destruct (resolve e); reflexivity|].
  destruct (trail_state t) as [b|s] eqn:Hs; [destruct (resolve b) as [p|] eqn:Hr|];
    match goal with |- context [update_trails resolve ?g' ts] =>
      specialize (IH g'); destruct (update_trails resolve g' ts) end;
    simpl in *; autorewrite with panel_rw; rewrite IH;
    rewrite ?(links_to_Active e b t Hs), ?(links_to_Inactive e s t Hs).
  - destruct (Nat.eqb_spec e b) as [->|]; rewrite ?Hr; reflexivity.
  - destruct (Nat.eqb_spec e b) as [->|]; rewrite ?Hr; [reflexivity|].
    destruct (resolve e); reflexivity.
  - reflexivity.
Qed.

Lemma restart_trails_links g ts e :
  countb (links_to e) (restart_trails g ts) = countb (links_to e) ts.
Proof.
  revert g. induction ts as [|t ts IH]; intros g; [reflexivity|]; simpl.
  destruct (trail_state t) as [b|s] eqn:Hs; autorewrite with panel_rw; rewrite IH;
    [reflexivity|]. rewrite (links_to_Inactive e s t Hs). reflexivity.
Qed.

Lemma reuse_idle_links want_left ball p x ts ts' e :
  reuse_idle want_left ball p x ts = Some ts' ->
  countb (links_to e) ts' = (countb (links_to e) ts + if Nat.eqb e ball then 1 else 0)%nat.
Proof.
  revert ts'. induction ts as [|t ts IH]; intros ts' H; simpl in H; [discriminate|].
  destruct (bool_decide _) eqn:E.
  - simplify_eq. apply bool_decide_eq_true_1 in E. autorewrite with panel_rw.
    rewrite (links_to_Active e ball) by reflexivity.
    rewrite (links_to_Inactive e want_left t E). destruct (Nat.eqb e ball); simpl; lia.
  - destruct (reuse_idle _ _ _ _ ts) as [ts1|] eqn:Hr; simpl in H; [|discriminate].
    simplify_eq. autorewrite with panel_rw. rewrite (IH ts1 eq_refl). lia.
Qed.

Lemma attach_trail_pool want_left ball p x next ts ts' next' :
  attach_trail want_left ball p x next ts = (ts', next') ->
  (forall e, countb (links_to e) ts' = (countb (links_to e) ts + if Nat.eqb e ball then 1 else 0)%nat) /\
  (map trail_id ts' = map trail_id ts /\ next' = next \/
   map trail_id ts' = map trail_id ts ++ [next] /\ next' = S next).
Proof.
  unfold attach_trail. destruct (reuse_idle want_left ball p x ts) as [ts1|] eqn:Hr;
    intros H; simplify_eq.
  - split; [intros e; exact (reuse_idle_links _ _ _ _ _ _ e Hr)|left].
    split; [apply (reuse_idle_some _ _ _ _ _ _ Hr)|reflexivity].
  - split; [intros e; rewrite countb_app, links_to_new_trail; reflexivity|right].
    rewrite map_app. split; reflexivity.
Qed.

(** ** The pool invariant under each kind of change *)

Lemma NoDup_snoc_fresh (l : list nat) n :
  Forall (fun e => e < n)%nat l -> NoDup l -> NoDup (l ++ [n]).
Proof.
  intros Hlt Hnd. apply NoDup_app. split; [exact Hnd|]. split; [|apply NoDup_singleton].
  intros x Hx Hin. apply list_elem_of_singleton in Hin. subst x.
  rewrite Forall_forall in Hlt. specialize (Hlt n Hx). lia.
Qed.

Lemma Forall_lt_mono (l : list nat) n m :
  (n <= m)%nat -> Forall (fun e => e < n)%nat l -> Forall (fun e => e < m)%nat l.
Proof. intros Hnm H. eapply Forall_impl; [exact H|]. simpl; lia. Qed.

Lemma add_ball_step_wf P P' : pool_wf P -> add_ball_step P P' -> pool_wf P'.
Proof.
  intros [Hbf Htf Hlf Hbn Htn Hl] (Hb & Hlk & Hid).
  assert (Hnext : (S (p_next P) <= p_next P')%nat) by (destruct Hid as [[_ ->]|[_ ->]]; lia).
  constructor.
  - rewrite Hb. apply Forall_app. split; [|constructor; [lia|constructor]].
    eapply Forall_lt_mono; [|exact Hbf]. lia.
  - destruct Hid as [[-> _]|[-> Hn]]; [eapply Forall_lt_mono; [|exact Htf]; lia|].
    apply Forall_app. split; [|constructor; [lia|constructor]].
    eapply Forall_lt_mono; [|exact Htf]. lia.
  - intros e He. rewrite Hlk, Hlf by lia. destruct (Nat.eqb_spec e (p_next P)); lia.
  - rewrite Hb. apply NoDup_snoc_fresh; assumption.
  - destruct Hid as [[-> _]|[-> _]]; [exact Htn|].
    apply NoDup_snoc_fresh; [eapply Forall_lt_mono; [|exact Htf]; lia|exact Htn].
  - rewrite Hb. apply Forall_app. split.
    + rewrite Forall_forall in Hl, Hbf |- *. intros e He.
      rewrite Hlk, (Hl e He). specialize (Hbf e He). destruct (Nat.eqb_spec e (p_next P)); lia.
    + constructor; [|constructor]. rewrite Hlk, Hlf, Nat.eqb_refl; reflexivity.
Qed.

Lemma add_balls_wf P P' : pool_wf P -> rtc add_ball_step P P' -> pool_wf P'.
Proof. intros HP Hr. exact (rtc_preserved _ _ _ _ add_ball_step_wf HP Hr). Qed.

Lemma add_ball_step_prefix P P' :
  add_ball_step P P' -> map trail_id (p_trails P) `prefix_of` map trail_id (p_trails P').
Proof.
  intros (_ & _ & [[-> _]|[-> _]]); [reflexivity|]. eexists. reflexivity.
Qed.

Lemma add_balls_prefix P P' :
  rtc add_ball_step P P' -> map trail_id (p_trails P) `prefix_of` map trail_id (p_trails P').
Proof.
  induction 1 as [|P1 P2 P3 H12 _ IH]; [reflexivity|].
  etrans; [apply add_ball_step_prefix, H12|exact IH].
Qed.

Lemma add_ball_step_length P P' :
  add_ball_step P P' -> length (p_balls P') = S (length (p_balls P)).
Proof. intros (-> & _). rewrite length_app. simpl. lia. Qed.

(** ** The spawner adds balls one at a time *)

Section SpawnPool.
Variables (root : PanelRoot) (want_left : bool).

Lemma spawn_single_pool p x w :
  add_ball_step (pool w) (pool (spawn_single root p x w)).
Proof.
  unfold pool, spawn_single, add_ball_step; simpl. rewrite map_app.
  split; [reflexivity|]. split.
  - intros e. rewrite countb_app, links_to_new_trail. reflexivity.
  - right. rewrite map_app. split; reflexivity.
Qed.

Lemma setup_trail_pool p x w :
  add_ball_step (pool w) (pool (setup_trail root want_left p x w)).
Proof.
  unfold pool, setup_trail, add_ball_step.
  destruct (attach_trail _ _ _ _ _ _) as [ts next] eqn:Ha; simpl.
  destruct (attach_trail_pool _ _ _ _ _ _ _ _ Ha) as [Hl Hid].
  rewrite map_app. split; [reflexivity|]. split; [exact Hl|].
  destruct Hid as [[-> ->]|[-> ->]]; [left|right]; split; reflexivity.
Qed.
End SpawnPool.

Lemma spawn_panel_pool draws survivors fuel snap a b root want_left w i w' i' :
  spawn_panel draws survivors fuel snap a b root want_left w i = Ok (w', i') ->
  rtc add_ball_step (pool w) (pool w') /\ spawner w' = spawner w /\
  (length (balls w') <= 2 + length (balls w))%nat.
Proof.
  intros H. destruct (spawn_panel_spec _ _ _ _ _ _ _ _ _ _ _ _ H)
    as (nb & Hb & Hp & _ & _ & _ & _ & _ & _ & _ & Hs & _).
  split; [|split; [exact Hs|]].
  - unfold spawn_panel in H.
    destruct (survivors a), (survivors b); simpl in H;
      [inv_ok H; destruct a0 as [[xa xb] i2]
      |inv_ok H; destruct a0 as [x i1]|inv_ok H; destruct a0 as [x i1]|]; simplify_eq.
    + eapply rtc_l; [apply setup_trail_pool|]. apply rtc_once, setup_trail_pool.
    + apply rtc_once, spawn_single_pool.
    + apply rtc_once, spawn_single_pool.
    + reflexivity.
  - rewrite Hb, length_app, <- (length_map ball_participant nb), Hp.
    pose proof (List.filter_length_le survivors [a; b]). simpl in *. lia.
Qed.

Lemma spawn_workers_pool draws survivors fuel delta w i w' i' :
  spawn_workers draws survivors fuel delta w i = Ok (w', i') ->
  rtc add_ball_step (pool w) (pool w') /\
  timer (spawner w') = tick delta (timer (spawner w)) /\
  (counter (spawner w') = counter (spawner w) /\ length (balls w') = length (balls w) \/
   counter (spawner w') = S (counter (spawner w)) /\
   (length (balls w') <= 4 + length (balls w))%nat).
Proof.
  unfold spawn_workers. intros H.
  destruct (just_finished (tick delta (timer (spawner w)))); simpl in H;
    [|simplify_eq; split; [reflexivity|]; simpl; auto].
  inv_ok H. destruct a as [lr rr]. inv_ok H. destruct a as [w2 i2].
  inv_ok H. destruct a as [w3 i3]. simplify_eq.
  destruct (spawn_panel_pool _ _ _ _ _ _ _ _ _ _ _ _ Hm0) as (R2 & S2 & L2).
  destruct (spawn_panel_pool _ _ _ _ _ _ _ _ _ _ _ _ Hm1) as (R3 & S3 & L3).
  split; [exact (rtc_trans _ _ _ R2 R3)|]. simpl. split; [reflexivity|].
  right. split; [reflexivity|]. simpl in *. lia.
Qed.

(** Moving balls without changing their entities: [ball_reset] and the
    physics step only replace the list of balls by one with the same
    entities. *)
Definition moves_balls (w w' : World) : Prop :=
  exists bs, w' = set_balls bs w /\ map ball_id bs = map ball_id (balls w).

Lemma moves_balls_frame w w' :
  moves_balls w w' ->
  pool w' = pool w /\ spawner w' = spawner w /\ length (balls w') = length (balls w) /\
  zones w' = zones w.
Proof.
  intros (bs & -> & Hid). unfold pool, set_balls; simpl. rewrite Hid.
  rewrite <- (length_map ball_id bs), Hid, length_map. auto.
Qed.

Lemma moves_balls_trans w1 w2 w3 : moves_balls w1 w2 -> moves_balls w2 w3 -> moves_balls w1 w3.
Proof.
  intros (bs2 & -> & H2) (bs3 & -> & H3). exists bs3. split; [reflexivity|].
  rewrite H3. exact H2.
Qed.

Lemma update_ball_moves e f w :
  (forall bl, ball_id (f bl) = ball_id bl) -> moves_balls w (update_ball e f w).
Proof.
  intros Hf. eexists. split; [reflexivity|]. rewrite map_map.
  apply map_ext. intros bl. destruct (Nat.eqb _ _); auto.
Qed.

Lemma ball_reset_loop_moves draws fuel snap events w i w' i' :
  ball_reset_loop draws fuel snap events w i = Ok (w', i') -> moves_balls w w'.
Proof.
  revert w i. induction events as [|e events IH]; intros w i H; simpl in H;
    [simplify_eq; exists (balls w'); destruct w'; auto|].
  destruct e as [a b|a b]; [exact (IH _ _ H)|].
  destruct (is_zone w a); [|destruct (is_zone w b)]; simpl in H; try exact (IH _ _ H);
    (destruct (find_ball w _) as [bl|]; [|exact (IH _ _ H)]);
    inv_ok H; inv_ok H; destruct a1 as [x i1]; simpl in H;
    (eapply moves_balls_trans; [|exact (IH _ _ H)]; apply update_ball_moves; reflexivity).
Qed.

Lemma physics_step_moves move w : moves_balls w (physics_step move w).
Proof. eexists. split; [reflexivity|]. rewrite map_map. reflexivity. Qed.

Lemma resolve_ball_live w e :
  In e (map ball_id (balls w)) -> exists p, resolve_ball w e = Some p.
Proof.
  intros Hin. unfold resolve_ball. destruct (find_ball w e) eqn:E; [eexists; reflexivity|].
  apply find_ball_None in E. rewrite Forall_forall in E.
  apply in_map_iff in Hin as [bl [Hid Hbl]]. exfalso.
  apply (E bl); [apply list_elem_of_In; exact Hbl|exact Hid].
Qed.

Lemma update_workers_trails w :
  trails (update_workers w) = (update_trails (resolve_ball w) (go_left w) (trails w)).1 /\
  pool (update_workers w) =
    mkPool (map ball_id (balls w)) (update_trails (resolve_ball w) (go_left w) (trails w)).1
           (next_entity w) /\
  spawner (update_workers w) = spawner w /\ balls (update_workers w) = balls w.
Proof. unfold update_workers. destruct (update_trails _ _ _). auto. Qed.

Lemma update_workers_wf w : pool_wf (pool w) -> pool_wf (pool (update_workers w)).
Proof.
  intros [Hbf Htf Hlf Hbn Htn Hl]. destruct (update_workers_trails w) as (_ & -> & _).
  simpl in *. constructor; simpl; rewrite ?update_trails_ids; auto.
  - intros e He. rewrite update_trails_links, Hlf by exact He. destruct (resolve_ball w e); reflexivity.
  - rewrite Forall_forall in Hl |- *. intros e He. rewrite update_trails_links.
    apply list_elem_of_In in He as He'. destruct (resolve_ball_live w e He') as [p ->]. auto.
Qed.

Lemma restart_wf tl w :
  wf w -> wf (restart tl w).
Proof.
  intros ((Hc & Hd) & [Hbf Htf Hlf Hbn Htn Hl] & _). simpl in *.
  split; [|split; [|simpl; lia]].
  - unfold WorkerBallSpawner_reset, reset. split; simpl; [unfold WORKER_BALL_COUNT_MAX; lia|].
    rewrite tick_duration. exact Hd.
  - constructor; simpl; rewrite ?restart_trails_ids; try solve [constructor | auto].
    intros e He. rewrite restart_trails_links. auto.
Qed.

Lemma run_spawn_workers_wf draws survivors fuel going delta w i w' i' :
  wf w -> run_spawn_workers draws survivors fuel going delta w i = Ok (w', i') ->
  wf w' /\ rtc add_ball_step (pool w) (pool w').
Proof.
  unfold run_spawn_workers. intros Hw H.
  destruct (going && spawn_workers_condition (spawner w)) eqn:Hc;
    [|simplify_eq; split; [exact Hw|reflexivity]].
  apply andb_true_iff in Hc as [_ Hc]. apply Nat.ltb_lt in Hc.
  destruct (spawn_workers_pool _ _ _ _ _ _ _ _ H) as (R & T & Hcnt).
  destruct Hw as ((_ & Hd) & Hp & Hlen). split; [|exact R].
  split; [|split; [exact (add_balls_wf _ _ Hp R)|]].
  - split; [destruct Hcnt as [[-> _]|[-> _]]; lia|rewrite T, tick_duration; exact Hd].
  - destruct Hcnt as [[-> ->]|[-> Hl]]; lia.
Qed.

Lemma add_balls_suffix P P' :
  rtc add_ball_step P P' ->
  exists nb, p_balls P' = p_balls P ++ nb /\ Forall (fun e => p_next P <= e)%nat nb.
Proof.
  induction 1 as [|P1 P2 P3 (Hb & _ & Hid) _ (nb & Hnb & Hf)];
    [exists []; rewrite app_nil_r; auto|].
  assert (Hn : (S (p_next P1) <= p_next P2)%nat) by (destruct Hid as [[_ ->]|[_ ->]]; lia).
  exists (p_next P1 :: nb). rewrite Hnb, Hb, <- app_assoc. split; [reflexivity|].
  constructor; [lia|]. eapply Forall_impl; [exact Hf|]. simpl. lia.
Qed.

(** What a run of [spawn_workers] adds to the live balls: at most four
    fresh entities, and none unless the run condition held. *)
Lemma run_spawn_workers_fresh draws survivors fuel going delta w i w' i' :
  pool_wf (pool w) -> run_spawn_workers draws survivors fuel going delta w i = Ok (w', i') ->
  exists nb, map ball_id (balls w') = map ball_id (balls w) ++ nb /\
    Forall (fun e => e ∉ map ball_id (balls w)) nb /\ (length nb <= 4)%nat /\
    (nb = [] \/ (counter (spawner w) < WORKER_BALL_COUNT_MAX)%nat).
Proof.
  intros [Hbf _ _ _ _ _] H. unfold run_spawn_workers in H.
  destruct (going && spawn_workers_condition (spawner w)) eqn:Hc;
    [|simplify_eq; exists []; rewrite app_nil_r; repeat split; auto].
  apply andb_true_iff in Hc as [_ Hc]. apply Nat.ltb_lt in Hc.
  destruct (spawn_workers_pool _ _ _ _ _ _ _ _ H) as (R & _ & Hl).
  destruct (add_balls_suffix _ _ R) as (nb & Hnb & Hf). simpl in Hnb, Hf, Hbf.
  exists nb. split; [exact Hnb|]. split; [|split; [|right; exact Hc]].
  - eapply Forall_impl; [exact Hf|]. intros e He Hin.
    rewrite Forall_forall in Hbf. specialize (Hbf e Hin). simpl in *. lia.
  - assert (Hlen : length (map ball_id (balls w')) = (length (balls w) + length nb)%nat)
      by (rewrite Hnb, length_app, length_map; reflexivity).
    rewrite length_map in Hlen. destruct Hl as [[_ ?]|[_ ?]]; lia.
Qed.

(** The balls that survive a restart racing a spawn round are the round's. *)
Lemma restart_deferred_ids tl w w1 nb :
  map ball_id (balls w1) = map ball_id (balls w) ++ nb ->
  Forall (fun e => e ∉ map ball_id (balls w)) nb ->
  map ball_id (balls (restart_deferred tl w w1)) = nb.
Proof.
  intros Hnb Hf. simpl. apply map_eq_app in Hnb as (l1 & l2 & -> & H1 & H2).
  rewrite filter_app, filter_Forall_nil, filter_Forall_id; [exact H2| |].
  - rewrite <- H2 in Hf. apply (List.Forall_map ball_id (fun e => e ∉ map ball_id (balls w))) in Hf. exact Hf.
  - apply Forall_forall. intros bl Hbl Hn. apply Hn. rewrite <- H1.
    apply list_elem_of_In, in_map, list_elem_of_In, Hbl.
Qed.

Lemma restart_deferred_wf tl w w1 nb :
  wf w1 -> map ball_id (balls w1) = map ball_id (balls w) ++ nb ->
  Forall (fun e => e ∉ map ball_id (balls w)) nb -> (length nb <= 4)%nat ->
  wf (restart_deferred tl w w1).
Proof.
  intros ((_ & Hd) & [Hbf Htf Hlf Hbn Htn Hl] & _) Hnb Hf Hlen.
  pose proof (restart_deferred_ids tl w w1 nb Hnb Hf) as Hids. simpl in *.
  rewrite Hnb in Hbf, Hbn, Hl. apply Forall_app in Hbf as [_ Hbf].
  apply NoDup_app in Hbn as (_ & _ & Hbn). apply Forall_app in Hl as [_ Hl].
  split; [|split].
  - unfold WorkerBallSpawner_reset, reset. split; simpl; [unfold WORKER_BALL_COUNT_MAX; lia|].
    rewrite tick_duration. exact Hd.
  - constructor; simpl; rewrite ?Hids, ?restart_trails_deferred_ids; auto.
    + intros e He. rewrite restart_trails_deferred_links. auto.
    + eapply Forall_impl; [exact Hl|]. intros e He. rewrite restart_trails_deferred_links. exact He.
  - rewrite <- Hids, length_map in Hlen. simpl. lia.
Qed.

Lemma run_spawn_workers_trails draws survivors fuel going delta w i w' i' :
  run_spawn_workers draws survivors fuel going delta w i = Ok (w', i') ->
  map trail_id (trails w) `prefix_of` map trail_id (trails w').
Proof.
  unfold run_spawn_workers. intros H. destruct (_ && _); [|simplify_eq; reflexivity].
  exact (add_balls_prefix _ _ (proj1 (spawn_workers_pool _ _ _ _ _ _ _ _ H))).
Qed.

Lemma frame_wf w w' :
  pool w' = pool w -> spawner w' = spawner w -> length (balls w') = length (balls w) ->
  wf w -> wf w'.
Proof. unfold wf. intros -> -> ->. exact id. Qed.

Lemma step_wf tl w w' : wf w -> step tl w w' -> wf w'.
Proof.
  intros Hw Hs. destruct Hs as [draws survivors fuel going delta w i w' i' H|w
    |draws fuel events w i w' i' H|w|draws survivors fuel going delta w i w1 i' H|move w].
  - exact (proj1 (run_spawn_workers_wf _ _ _ _ _ _ _ _ _ Hw H)).
  - destruct Hw as (Hs & Hp & Hl). destruct (update_workers_trails w) as (_ & _ & Hsp & Hb).
    unfold wf. rewrite Hsp, Hb. split; [exact Hs|split; [apply update_workers_wf, Hp|exact Hl]].
  - destruct (moves_balls_frame _ _ (ball_reset_loop_moves _ _ _ _ _ _ _ _ H)) as (P & S & L & _).
    exact (frame_wf _ _ P S L Hw).
  - apply restart_wf, Hw.
  - destruct (run_spawn_workers_wf _ _ _ _ _ _ _ _ _ Hw H) as [Hw1 _].
    destruct (run_spawn_workers_fresh _ _ _ _ _ _ _ _ _ (proj1 (proj2 Hw)) H)
      as (nb & Hnb & Hf & Hl & _).
    exact (restart_deferred_wf tl w w1 nb Hw1 Hnb Hf Hl).
  - destruct (moves_balls_frame _ _ (physics_step_moves move w)) as (P & S & L & _).
    exact (frame_wf _ _ P S L Hw).
Qed.

Lemma setup_world_wf tl zs next : wf (setup_world tl zs next).
Proof.
  split; [|split; [constructor; simpl; try solve [constructor | reflexivity]|simpl; lia]].
  - split; [simpl; unfold WORKER_BALL_COUNT_MAX; lia|]. simpl. apply tick_duration.
Qed.

Lemma step_trail_ids tl w w' :
  step tl w w' -> map trail_id (trails w) `prefix_of` map trail_id (trails w').
Proof.
  intros Hs. destruct Hs as [draws survivors fuel going delta w i w' i' H|w
    |draws fuel events w i w' i' H|w|draws survivors fuel going delta w i w1 i' H|move w].
  - exact (run_spawn_workers_trails _ _ _ _ _ _ _ _ _ H).
  - destruct (update_workers_trails w) as (-> & _). rewrite update_trails_ids. reflexivity.
  - destruct (moves_balls_frame _ _ (ball_reset_loop_moves _ _ _ _ _ _ _ _ H)) as (P & _).
    change (trails w') with (p_trails (pool w')). rewrite P. reflexivity.
  - unfold restart; simpl. rewrite restart_trails_ids. reflexivity.
  - simpl. rewrite restart_trails_deferred_ids. exact (run_spawn_workers_trails _ _ _ _ _ _ _ _ _ H).
  - reflexivity.
Qed.

Lemma find_ball_nodup w bl :
  NoDup (map ball_id (balls w)) -> In bl (balls w) -> find_ball w (ball_id bl) = Some bl.
Proof.
  unfold find_ball. induction (balls w) as [|b bs IH]; intros Hnd Hin; [destruct Hin|].
  simpl in *. apply NoDup_cons in Hnd as [Hb Hnd].
  destruct (Nat.eqb_spec (ball_id b) (ball_id bl)) as [Heq|Hne].
  - destruct Hin as [->|Hin]; [reflexivity|]. exfalso. apply Hb.
    rewrite Heq. apply list_elem_of_In, in_map, Hin.
  - destruct Hin as [->|Hin]; [contradiction|]. exact (IH Hnd Hin).
Qed.

Lemma update_trails_active_position resolve g ts :
  Forall (fun t => forall b, trail_state t = Active b -> resolve b = Some (trail_position t))
         (update_trails resolve g ts).1.
Proof.
  revert g. induction ts as [|t ts IH]; intros g; simpl; [constructor|].
  destruct (trail_state t) as [b|s] eqn:Hs; [destruct (resolve b) as [p|] eqn:Hr|];
    match goal with |- context [update_trails resolve ?g' ts] =>
      specialize (IH g'); destruct (update_trails resolve g' ts) end;
    constructor; simpl; rewrite ?Hs; try congruence; exact IH.
Qed.

(** ** The population contract *)








(** ** Theorems of the plugin *)

(** C3: the plugin's invariant.  In every world reachable from [setup] by
    any sequence of system runs and physics steps, the spawn round counter
    is at most [WORKER_BALL_COUNT_MAX] and the spawn timer keeps its period;
    ball and trail entities are distinct and below the next fresh entity, no
    trail links to an entity not yet spawned, and every live worker ball is
    followed by exactly one trail; and there are at most four balls per
    round counted. *)
Theorem reachable_wf tl zs next w : reachable tl zs next w -> wf w.
Proof. intros Hr. exact (rtc_preserved _ _ _ _ (step_wf tl) (setup_world_wf tl zs next) Hr). Qed.

(** C4: every live ball is shown by exactly one trail.  In a reachable
    world, after [update_workers_particle_position] exactly one trail links
    to each worker ball, and it sits at the ball's global position. *)
Theorem reachable_trail_follows tl zs next w bl :
  reachable tl zs next w -> In bl (balls w) ->
  countb (links_to (ball_id bl)) (trails (update_workers w)) = 1%nat /\
  Forall (fun t => trail_state t = Active (ball_id bl) ->
                   trail_position t = global_translation (roots w) bl)
         (trails (update_workers w)).
Proof.
  intros Hr Hin. destruct (rtc_preserved _ _ _ _ (step_wf tl) (setup_world_wf tl zs next) Hr)
    as (_ & [_ _ _ Hbn _ Hl] & _). simpl in *.
  destruct (update_workers_trails w) as (-> & P & _). split.
  - rewrite update_trails_links. rewrite Forall_forall in Hl.
    assert (Hid : ball_id bl ∈ map ball_id (balls w)) by (apply list_elem_of_In, in_map, Hin).
    destruct (resolve_ball_live w (ball_id bl) (proj1 (list_elem_of_In _ _) Hid)) as [p ->].
    exact (Hl _ Hid).
  - eapply Forall_impl; [apply update_trails_active_position|]. intros t Ht Hs.
    specialize (Ht _ Hs). unfold resolve_ball in Ht.
    rewrite (find_ball_nodup w bl Hbn Hin) in Ht. simpl in Ht. congruence.
Qed.

(** C24: the trail pool never shrinks.  Along any run of the systems, the
    trail entities of the pool are kept in order and new ones are only
    appended: no trail is ever despawned. *)
Theorem run_keeps_trails tl w w' :
  rtc (step tl) w w' -> map trail_id (trails w) `prefix_of` map trail_id (trails w').
Proof.
  induction 1 as [|w1 w2 w3 H12 _ IH]; [reflexivity|].
  etrans; [exact (step_trail_ids _ _ _ H12)|exact IH].
Qed.

(** C16: the population bound.  A reachable world holds at most
    [4 * (WORKER_BALL_COUNT_MAX + 1)] worker balls: each round spawns at
    most two balls per panel and the round counter is capped, but a round
    that a restart races in the same frame keeps its balls while the counter
    starts again from zero. *)
Theorem reachable_ball_bound tl zs next w :
  reachable tl zs next w -> (length (balls w) <= 4 * (WORKER_BALL_COUNT_MAX + 1))%nat.
Proof.
  intros Hr. destruct (rtc_preserved _ _ _ _ (step_wf tl) (setup_world_wf tl zs next) Hr)
    as ((Hc & _) & _ & Hl). lia.
Qed.


(** ** Witnesses *)

Definition example_zones : list (Entity * TriggerType) := [(2%nat, Multiply 4%N)].

(** The world after one spawn round on a fresh [setup] with A, B and C
    alive, one second into the game. *)
Definition spawned_world : World :=
  match run_spawn_workers example_draws example_survivors 10 true 1000000000
          (setup_world 1000000000 example_zones 4) 0 with
  | Ok (w, _) => w
  | Err _ => setup_world 1000000000 example_zones 4
  end.

Lemma spawned_world_reachable : reachable 1000000000 example_zones 4 spawned_world.
Proof.
  unfold spawned_world.
  destruct (run_spawn_workers example_draws example_survivors 10 true 1000000000
              (setup_world 1000000000 example_zones 4) 0) as [[w i]|e] eqn:E;
    [|vm_compute in E; discriminate].
  exact (rtc_once _ _ (step_spawn _ _ _ _ _ _ _ _ _ _ E)).
Qed.

Lemma reachable_wf_witness :
  length (balls spawned_world) = 3%nat /\ wf spawned_world.
Proof.
  split; [vm_compute; reflexivity|].
  exact (reachable_wf _ _ _ _ spawned_world_reachable).
Defined.

Lemma reachable_trail_follows_witness :
  exists bl, In bl (balls spawned_world) /\
    countb (links_to (ball_id bl)) (trails (update_workers spawned_world)) = 1%nat /\
    Forall (fun t => trail_state t = Active (ball_id bl) ->
                     trail_position t = global_translation (roots spawned_world) bl)
           (trails (update_workers spawned_world)).
Proof.
  assert (Hin : In (hd (WorkerBallBundle_new 0 0 A 0) (balls spawned_world)) (balls spawned_world))
    by (vm_compute; left; reflexivity).
  exists (hd (WorkerBallBundle_new 0 0 A 0) (balls spawned_world)). split; [exact Hin|].
  exact (reachable_trail_follows _ _ _ _ _ spawned_world_reachable Hin).
Defined.

Lemma run_keeps_trails_witness :
  length (trails spawned_world) = 3%nat /\
  map trail_id (trails (setup_world 1000000000 example_zones 4)) `prefix_of`
    map trail_id (trails spawned_world).
Proof.
  split; [vm_compute; reflexivity|].
  exact (run_keeps_trails _ _ _ spawned_world_reachable).
Defined.

Lemma reachable_ball_bound_witness :
  length (balls spawned_world) = 3%nat /\
  (length (balls spawned_world) <= 4 * (WORKER_BALL_COUNT_MAX + 1))%nat.
Proof.
  split; [vm_compute; reflexivity|].
  exact (reachable_ball_bound _ _ _ _ spawned_world_reachable).
Defined.



