(* ===== verification/Layout.v ===== *)
(** The static layout [setup] builds ([src/panel_plugin.rs], lines 310-664):
    the [ObstacleBundleBuilder] with its [build] and [buildtmb]; for each panel
    root, the circle pyramid, the circle grid, the four trigger-zone dividers,
    the five trigger zones with their labels, the wall and the background.
    The [f32] coordinates of the layout are halves of integers, so they are
    exact rationals ([Q]) here, and all the sums and products the code does on
    them are exact in [f32].  [setup] itself is a computation in a small
    state and error monad [SetupM]: its state is the log of spawned entities
    (an entity is its position in the log, as entities are handed out in
    order), its error the panic of [buildtmb].  The theorems: the builder
    fails exactly when a part is missing, and never in [setup]; the pyramid
    has [n (n + 1) / 2] circles; the zones [setup] spawns tile the arena,
    each covering the x extent of its scaled cuboid collider
    ([zone_x_extent]); the dividers sit exactly on the inner zone borders;
    a worker ball fits between any two
    obstacles; and the world [setup] leaves is the one the other components
    start from. *)

From stdpp Require Import base list strings.
From Stdlib Require Import QArith Qround Lqa ZArith Lia.
From S2P Require Import Prelude Entities Physics Timer World.

Local Open Scope Q_scope.

(** ** Constants of the layout *)

Definition WALL_THICKNESS : Q := 10.0.
Definition ARENA_HEIGHT : Q := 700.0.
Definition CIRCLE_RADIUS : Q := 10.0.
Definition CIRCLE_PYRAMID_VERTICAL_OFFSET : Q := 250.0.
Definition CIRCLE_PYRAMID_VERTICAL_COUNT : nat := 5.
Definition CIRCLE_PYRAMID_VERTICAL_GAP : Q := 8.0.
Definition CIRCLE_PYRAMID_HORIZONTAL_GAP : Q := 45.0.
Definition TRIGGER_ZONE_DIVIDER_HEIGHT_OFFSET : Q := 2.5.
Definition TRIGGER_ZONE_DIVIDER_RADIUS : Q := 2.5.
Definition CIRCLE_GRID_VERTICAL_OFFSET : Q := 70.0.
Definition CIRCLE_GRID_VERTICAL_COUNT : nat := 8.
Definition CIRCLE_GRID_VERTICAL_GAP : Q := 15.0.
Definition CIRCLE_GRID_HORIZONTAL_GAP : Q := 28.0.
Definition CIRCLE_GRID_HORIZONTAL_HALF_COUNT_EVEN_ROW : nat := 2.
Definition CIRCLE_GRID_HORIZONTAL_HALF_COUNT_ODD_ROW : nat := 3.
Definition TRIGGER_ZONE_TEXT_SIZE : Q := 12.0.

Definition WALL_Z : Q := -4.0.
Definition ARENA_Z : Q := -3.0.
Definition CIRCLE_Z : Q := -1.0.
Definition TRIGGER_ZONE_Z : Q := -2.0.
Definition TRIGGER_ZONE_DIVIDER_Z : Q := -1.0.
Definition TRIGGER_ZONE_TEXT_OFFSET_Z : Q := -1.0.

Definition WALL_HEIGHT : Q := ARENA_HEIGHT + 2.0 * WALL_THICKNESS.
Definition WALL_WIDTH : Q := inject_Z ARENA_WIDTH + 2.0 * WALL_THICKNESS.
Definition ARENA_HEIGHT_FRAC_2 : Q := ARENA_HEIGHT / 2.0.
Definition CIRCLE_HALF_GAP : Q := CIRCLE_PYRAMID_HORIZONTAL_GAP / 2.0.
Definition CIRCLE_DIAMETER : Q := CIRCLE_RADIUS * 2.0.

(** The arena constants of [Entities], as [f32]: [260 / 2], [260 / 5] and
    [260 / 10] are exact. *)
Definition FRAC_2 : Q := inject_Z ARENA_WIDTH_FRAC_2.
Definition FRAC_5 : Q := inject_Z ARENA_WIDTH_FRAC_5.
Definition FRAC_10 : Q := inject_Z ARENA_WIDTH_FRAC_10.

(** The named colours of the constants section. *)
Inductive Color :=
| WALL_COLOR | ARENA_COLOR | CIRCLE_COLOR | TRIGGER_ZONE_DIVIDER_COLOR
| TRIGGER_ZONE_COLOR_0 | TRIGGER_ZONE_COLOR_1 | TRIGGER_ZONE_COLOR_2
| TRIGGER_ZONE_TEXT_COLOR.

#[export] Instance Color_eq_dec : EqDecision Color.
Proof. solve_decision. Defined.

(** ** Bundles *)

Record Vec3 := mkVec3 { x3 : Q; y3 : Q; z3 : Q }.

(** The mesh and collider shapes [setup] uses. *)
Inductive Mesh := CircleMesh (r : Q) | Capsule2dMesh (r len : Q).
Inductive Collider :=
| BallCollider (r : Q)
| CapsuleYCollider (half_height r : Q)
| CuboidCollider (hx hy : Q)
| PolylineCollider (pts : list (Q * Q)).

(** [ObstacleBundle]: its collision groups and fixed rigid body are the same
    for every obstacle and are left out. *)
Record ObstacleBundle := mkObstacleBundle {
  ob_translation : Vec3;
  ob_material : Color;
  ob_mesh : Mesh;
  ob_collider : Collider;
  ob_name : string;
}.

(** [ObstacleBundleBuilder] and its [Default]. *)
Record ObstacleBundleBuilder := mkBuilder {
  translation : Vec3;
  material : option Color;
  mesh : option Mesh;
  collider : option Collider;
  name : option string;
}.

Definition builder_new : ObstacleBundleBuilder :=
  mkBuilder (mkVec3 0 0 0) None None None None.

Definition builder_xy (x y : Q) (b : ObstacleBundleBuilder) : ObstacleBundleBuilder :=
  mkBuilder (mkVec3 x y (z3 (translation b))) (material b) (mesh b) (collider b) (name b).
Definition builder_z (z : Q) (b : ObstacleBundleBuilder) : ObstacleBundleBuilder :=
  mkBuilder (mkVec3 (x3 (translation b)) (y3 (translation b)) z)
            (material b) (mesh b) (collider b) (name b).
Definition builder_material (m : Color) (b : ObstacleBundleBuilder) : ObstacleBundleBuilder :=
  mkBuilder (translation b) (Some m) (mesh b) (collider b) (name b).
Definition builder_mesh (m : Mesh) (b : ObstacleBundleBuilder) : ObstacleBundleBuilder :=
  mkBuilder (translation b) (material b) (Some m) (collider b) (name b).
Definition builder_collider (c : Collider) (b : ObstacleBundleBuilder) : ObstacleBundleBuilder :=
  mkBuilder (translation b) (material b) (mesh b) (Some c) (name b).
Definition builder_name (n : string) (b : ObstacleBundleBuilder) : ObstacleBundleBuilder :=
  mkBuilder (translation b) (material b) (mesh b) (collider b) (Some n).

(** [ObstacleBundleBuilder::build]: [None] unless every part is set. *)
Definition build (b : ObstacleBundleBuilder) : option ObstacleBundle :=
  match b with
  | mkBuilder t (Some m) (Some me) (Some c) (Some n) => Some (mkObstacleBundle t m me c n)
  | _ => None
  end.

(** [buildtmb]: [self.build().unwrap()]. *)
Definition buildtmb (b : ObstacleBundleBuilder) : Result ObstacleBundle :=
  match build b with
  | Some o => Ok o
  | None => Err (Panic UNWRAP_NONE)
  end.

(** [TriggerZoneBundle::new]: the sprite is scaled to the zone's size; the
    collider is the unit square, scaled with it. *)
Record TriggerZoneBundle := mkTriggerZoneBundle {
  tz_color : Color;
  tz_translation : Vec3;
  tz_scale : Vec3;
  tz_name : string;
  tz_collider : Collider;
  tz_trigger_type : TriggerType;
}.

Definition TriggerZoneBundle_new (t : TriggerType) (size : Q * Q) (tr : Vec3) (color : Color)
    : TriggerZoneBundle :=
  mkTriggerZoneBundle color tr (mkVec3 size.1 size.2 1.0)
    ("Trigger Zone: " +:+ trigger_label t) (CuboidCollider 0.5 0.5) t.

(** ** The spawn log and the monad of [setup] *)

(** What [setup] spawns besides obstacles and zones. *)
Inductive SetupItem :=
| RootItem (side : PanelRootSide) (x : Q) (collider : Collider)
| ObstacleItem (o : ObstacleBundle)
| ZoneItem (z : TriggerZoneBundle)
| TextItem (text : string) (color : Color) (font_size : Q) (tr : Vec3) (name : string)
| SpriteItem (tr : Vec3) (scale : Vec3) (color : Color) (name : string).

(** One [commands.spawn(..)], with its [.set_parent(..)]. *)
Record Spawned := mkSpawned {
  sp_entity : Entity;
  sp_parent : option Entity;
  sp_item : SetupItem;
}.

(** [setup] threads the command log and may panic. *)
Definition SetupM (A : Type) : Type := list Spawned -> Result (A * list Spawned).

Definition sret {A} (a : A) : SetupM A := fun log => Ok (a, log).
Definition sbind {A B} (m : SetupM A) (k : A -> SetupM B) : SetupM B :=
  fun log => match m log with Ok (a, log') => k a log' | Err e => Err e end.
Definition sfail {A} (e : Error) : SetupM A := fun _ => Err e.

Declare Scope setup_scope.
Notation "'let!' x ':=' m 'in' k" := (sbind m (fun x => k))
  (at level 10, x name, m at level 100, k at level 200) : setup_scope.
Notation "m ;; k" := (sbind m (fun _ => k)) (at level 100, right associativity) : setup_scope.
Local Open Scope setup_scope.

(** [commands.spawn(item)], optionally [.set_parent(parent)]: the entity is
    the next one handed out. *)
Definition spawn (parent : option Entity) (it : SetupItem) : SetupM Entity :=
  fun log => let e := length log in Ok (e, log ++ [mkSpawned e parent it]).

(** Spawning the result of [buildtmb]. *)
Definition spawn_obstacle (root : Entity) (b : ObstacleBundleBuilder) : SetupM unit :=
  match buildtmb b with
  | Ok o => spawn (Some root) (ObstacleItem o) ;; sret tt
  | Err e => sfail e
  end.

Fixpoint spawn_each {X} (f : X -> SetupM unit) (xs : list X) : SetupM unit :=
  match xs with
  | [] => sret tt
  | x :: xs' => f x ;; spawn_each f xs'
  end.

(** ** The circle obstacles *)

(** The two mirrored circles [(x, y)] and [(-x, y)] of each [x], in the
    order the loops spawn them. *)
Definition mirrored (xs : list Q) (y : Q) : list (Q * Q) :=
  flat_map (fun x => [(x, y); (- x, y)]) xs.

Definition Q_of_nat (n : nat) : Q := inject_Z (Z.of_nat n).

(** Row [i] of the pyramid loop (lines 470-505). *)
Definition pyramid_row (i : nat) : list (Q * Q) :=
  let y := - Q_of_nat i * (CIRCLE_DIAMETER + CIRCLE_PYRAMID_VERTICAL_GAP)
           + CIRCLE_PYRAMID_VERTICAL_OFFSET in
  if Nat.eqb (i mod 2) 0 then
    (0, y) :: mirrored (map (fun j => Q_of_nat j * (CIRCLE_DIAMETER + CIRCLE_PYRAMID_HORIZONTAL_GAP))
                            (seq 1 (i / 2))) y
  else
    let x0 := CIRCLE_HALF_GAP + CIRCLE_RADIUS in
    mirrored [x0] y ++
    mirrored (map (fun j => Q_of_nat j * (CIRCLE_DIAMETER + CIRCLE_PYRAMID_HORIZONTAL_GAP) + x0)
                  (seq 1 (i / 2))) y.

(** Row [i] of the grid loop (lines 507-542). *)
Definition grid_row (i : nat) : list (Q * Q) :=
  let y := - Q_of_nat i * (CIRCLE_DIAMETER + CIRCLE_GRID_VERTICAL_GAP)
           + CIRCLE_GRID_VERTICAL_OFFSET in
  if Nat.eqb (i mod 2) 0 then
    (0, y) :: mirrored (map (fun j => Q_of_nat j * (CIRCLE_DIAMETER + CIRCLE_GRID_HORIZONTAL_GAP))
                            (seq 1 CIRCLE_GRID_HORIZONTAL_HALF_COUNT_EVEN_ROW)) y
  else
    let x0 := CIRCLE_HALF_GAP + CIRCLE_RADIUS in
    mirrored [x0] y ++
    mirrored (map (fun j => Q_of_nat j * (CIRCLE_DIAMETER + CIRCLE_GRID_HORIZONTAL_GAP) + x0)
                  (seq 1 (CIRCLE_GRID_HORIZONTAL_HALF_COUNT_ODD_ROW - 1))) y.

Definition pyramid_positions (n : nat) : list (Q * Q) := flat_map pyramid_row (seq 0 n).
Definition grid_positions (n : nat) : list (Q * Q) := flat_map grid_row (seq 0 n).

(** Every circle of a panel, in spawn order. *)
Definition circle_positions : list (Q * Q) :=
  pyramid_positions CIRCLE_PYRAMID_VERTICAL_COUNT ++ grid_positions CIRCLE_GRID_VERTICAL_COUNT.

(** ** Dividers, zones and the panel closure *)

Definition divider_length : Q := TRIGGER_ZONE_DIVIDER_HEIGHT_OFFSET + inject_Z TRIGGER_ZONE_HEIGHT.

(** [circle_builder] and [divider_builder] (lines 451-467). *)
Definition circle_builder : ObstacleBundleBuilder :=
  builder_collider (BallCollider CIRCLE_RADIUS)
    (builder_mesh (CircleMesh CIRCLE_RADIUS)
      (builder_material CIRCLE_COLOR
        (builder_z CIRCLE_Z (builder_name "Circle Obstacle" builder_new)))).

Definition divider_builder : ObstacleBundleBuilder :=
  builder_collider (CapsuleYCollider (divider_length / 2.0) TRIGGER_ZONE_DIVIDER_RADIUS)
    (builder_mesh (Capsule2dMesh TRIGGER_ZONE_DIVIDER_RADIUS divider_length)
      (builder_material TRIGGER_ZONE_DIVIDER_COLOR
        (builder_z TRIGGER_ZONE_DIVIDER_Z (builder_name "Trigger Zone Divider" builder_new)))).

(** The x of the four dividers, in spawn order (lines 544-575). *)
Definition divider_xs : list Q :=
  [- FRAC_10; - FRAC_5 - FRAC_10; FRAC_10; FRAC_5 + FRAC_10].

(** The five [f(trigger_type, x, color)] calls (lines 609-629). *)
Definition zone_specs : list (TriggerType * Q * Color) :=
  [(Multiply 4, 0, TRIGGER_ZONE_COLOR_0);
   (Multiply 2, - FRAC_5, TRIGGER_ZONE_COLOR_1);
   (Multiply 2, FRAC_5, TRIGGER_ZONE_COLOR_1);
   (BurstShot, - (2.0 * FRAC_5), TRIGGER_ZONE_COLOR_2);
   (ChargedShot, 2.0 * FRAC_5, TRIGGER_ZONE_COLOR_2)].

(** The [TriggerZoneBundle::new(..)] call of the inner closure [f]
    (lines 578-583). *)
Definition zone_bundle (spec : TriggerType * Q * Color) : TriggerZoneBundle :=
  let '(t, x, color) := spec in
  TriggerZoneBundle_new t (FRAC_5, inject_Z TRIGGER_ZONE_HEIGHT)
    (mkVec3 x (inject_Z TRIGGER_ZONE_Y) TRIGGER_ZONE_Z) color.

(** The inner closure [f] (lines 576-608): a trigger zone and its centred
    label. *)
Definition spawn_zone (root : Entity) (spec : TriggerType * Q * Color) : SetupM unit :=
  let '(t, x, color) := spec in
  spawn (Some root) (ZoneItem (zone_bundle spec)) ;;
  spawn (Some root) (TextItem (trigger_label t) TRIGGER_ZONE_TEXT_COLOR TRIGGER_ZONE_TEXT_SIZE
                       (mkVec3 x (inject_Z TRIGGER_ZONE_Y) TRIGGER_ZONE_TEXT_OFFSET_Z)
                       ("Trigger Zone Text: " +:+ trigger_label t)) ;;
  sret tt.

(** The outer closure [f(root)] (lines 469-661). *)
Definition setup_panel (root : Entity) : SetupM unit :=
  spawn_each (fun '(x, y) => spawn_obstacle root (builder_xy x y circle_builder)) circle_positions ;;
  spawn_each (fun x => spawn_obstacle root (builder_xy x (inject_Z TRIGGER_ZONE_Y) divider_builder))
             divider_xs ;;
  spawn_each (spawn_zone root) zone_specs ;;
  spawn (Some root) (SpriteItem (mkVec3 0 0 WALL_Z) (mkVec3 WALL_WIDTH WALL_HEIGHT 1.0)
                       WALL_COLOR "Panel Wall") ;;
  spawn (Some root) (SpriteItem (mkVec3 0 0 ARENA_Z) (mkVec3 (inject_Z ARENA_WIDTH) ARENA_HEIGHT 1.0)
                       ARENA_COLOR "Panel Background") ;;
  sret tt.

(** The polyline of the arena's border, shared by both roots. *)
Definition arena_polyline : list (Q * Q) :=
  [(- FRAC_2, ARENA_HEIGHT_FRAC_2); (- FRAC_2, - ARENA_HEIGHT_FRAC_2);
   (FRAC_2, - ARENA_HEIGHT_FRAC_2); (FRAC_2, ARENA_HEIGHT_FRAC_2);
   (- FRAC_2, ARENA_HEIGHT_FRAC_2)].

(** [setup]: the two roots, then the layout of each panel.  The
    [WorkerBallSpawner] resource it inserts is [WorkerBallSpawner_new]. *)
Definition setup : SetupM (Entity * Entity) :=
  let! left_root := spawn None (RootItem Left (inject_Z LEFT_ROOT_X) (PolylineCollider arena_polyline)) in
  let! right_root := spawn None (RootItem Right (inject_Z RIGHT_ROOT_X) (PolylineCollider arena_polyline)) in
  setup_panel left_root ;;
  setup_panel right_root ;;
  sret (left_root, right_root).

Definition setup_log : Result ((Entity * Entity) * list Spawned) := setup [].

(** ** The obstacle builder *)

(** [build] and [buildtmb] panic-freedom: a builder with every part set
    builds the bundle of its parts; a builder missing any part makes
    [buildtmb] panic with the message of [Option::unwrap]. *)
Lemma buildtmb_complete t m me c n :
  buildtmb (mkBuilder t (Some m) (Some me) (Some c) (Some n)) = Ok (mkObstacleBundle t m me c n).
Proof. reflexivity. Qed.

(** C33: the builder's error behaviour.  [buildtmb] returns the bundle made
    of the builder's parts when all four optional parts are set, and panics
    with the message of [Option::unwrap] exactly when one is missing. *)
Theorem buildtmb_spec b :
  match buildtmb b with
  | Ok o => translation b = ob_translation o /\ material b = Some (ob_material o) /\
            mesh b = Some (ob_mesh o) /\ collider b = Some (ob_collider o) /\
            name b = Some (ob_name o)
  | Err e => e = Panic UNWRAP_NONE /\
            (material b = None \/ mesh b = None \/ collider b = None \/ name b = None)
  end.
Proof. destruct b as [t [m|] [me|] [c|] [n|]]; simpl; auto 10. Qed.

(** ** How many circles each loop spawns *)

Lemma length_mirrored xs y : length (mirrored xs y) = (2 * length xs)%nat.
Proof. induction xs as [|x xs IH]; simpl; [reflexivity|]. rewrite IH. lia. Qed.

Lemma length_pyramid_row i : length (pyramid_row i) = S i.
Proof.
  unfold pyramid_row. pose proof (Nat.div_mod i 2 ltac:(lia)) as Hi.
  pose proof (Nat.mod_upper_bound i 2 ltac:(lia)).
  destruct (Nat.eqb (i mod 2) 0) eqn:E; [apply Nat.eqb_eq in E|apply Nat.eqb_neq in E];
    cbn [length]; rewrite ?length_app, !length_mirrored, length_map, length_seq;
    cbn [length]; lia.
Qed.

Lemma sum_app (l1 l2 : list nat) :
  fold_right Nat.add 0%nat (l1 ++ l2) = (fold_right Nat.add 0%nat l1 + fold_right Nat.add 0%nat l2)%nat.
Proof. induction l1 as [|a l1 IH]; simpl; [reflexivity|]. rewrite IH. lia. Qed.

Lemma length_flat_map_seq (f : nat -> list (Q * Q)) g n :
  (forall i, length (f i) = g i) ->
  length (flat_map f (seq 0 n)) = fold_right Nat.add 0%nat (map g (seq 0 n)).
Proof.
  intros Hf. induction (seq 0 n) as [|i l IH]; [reflexivity|].
  simpl. rewrite length_app, Hf, IH. reflexivity.
Qed.

(** C34: the pyramid is triangular.  The pyramid loop with [n] rows spawns
    [n (n + 1) / 2] circles: row [i] has [i + 1] of them, a centred one or a
    mirrored pair first, then mirrored pairs. *)
Theorem pyramid_count n :
  (2 * length (pyramid_positions n) = n * (n + 1))%nat.
Proof.
  unfold pyramid_positions. rewrite (length_flat_map_seq _ S n length_pyramid_row).
  induction n as [|n IH]; [reflexivity|].
  rewrite seq_S, map_app, sum_app. simpl. lia.
Qed.

(** ** The trigger zones tile the arena *)

(** The horizontal extent of a trigger zone: its collider
    [Collider::cuboid(hx, hy)] scaled by the sprite transform, centred at
    its translation. *)
Definition zone_x_extent (z : TriggerZoneBundle) : Q * Q :=
  match tz_collider z with
  | CuboidCollider hx _ =>
      (x3 (tz_translation z) - hx * x3 (tz_scale z), x3 (tz_translation z) + hx * x3 (tz_scale z))
  | _ => (x3 (tz_translation z), x3 (tz_translation z))
  end.

(** Whether the zone covers [x], its band taken half-open: neighbouring
    zones share their border, where a divider stands. *)
Definition zone_covers (z : TriggerZoneBundle) (x : Q) : bool :=
  let '(lo, hi) := zone_x_extent z in Qle_bool lo x && negb (Qle_bool hi x).

(** The trigger zones of a panel, as [setup] builds them. *)
Definition zone_bundles : list TriggerZoneBundle := map zone_bundle zone_specs.

Lemma zone_bundle_extent t c col :
  zone_x_extent (zone_bundle (t, c, col)) = (c - 0.5 * FRAC_5, c + 0.5 * FRAC_5).
Proof. reflexivity. Qed.

Lemma FRAC_5_value : FRAC_5 == 52.
Proof. reflexivity. Qed.

Lemma zone_covers_true t c col x :
  c - 26 <= x -> x < c + 26 -> zone_covers (zone_bundle (t, c, col)) x = true.
Proof.
  intros H1 H2. pose proof FRAC_5_value. unfold zone_covers. rewrite zone_bundle_extent.
  apply andb_true_iff. split; [apply Qle_bool_iff; lra|].
  apply negb_true_iff, not_true_iff_false. rewrite Qle_bool_iff. lra.
Qed.

Lemma zone_covers_below t c col x : x < c - 26 -> zone_covers (zone_bundle (t, c, col)) x = false.
Proof.
  intros H. pose proof FRAC_5_value. unfold zone_covers. rewrite zone_bundle_extent.
  apply andb_false_iff. left. apply not_true_iff_false. rewrite Qle_bool_iff. lra.
Qed.

Lemma zone_covers_above t c col x : c + 26 <= x -> zone_covers (zone_bundle (t, c, col)) x = false.
Proof.
  intros H. pose proof FRAC_5_value. unfold zone_covers. rewrite zone_bundle_extent.
  apply andb_false_iff. right. apply negb_false_iff, Qle_bool_iff. lra.
Qed.

Ltac zone_decide :=
  repeat match goal with
  | |- context [zone_covers (zone_bundle (?t, ?c, ?col)) ?x] =>
      first [ rewrite (zone_covers_true t c col x) by lra
            | rewrite (zone_covers_below t c col x) by lra
            | rewrite (zone_covers_above t c col x) by lra ]
  end.

(** C30: the trigger zones tile the arena.  Every horizontal position of
    the arena, [-ARENA_WIDTH_FRAC_2 <= x < ARENA_WIDTH_FRAC_2], lies in
    exactly one of the five trigger zones [setup] places in a panel, each
    covering the x extent of its scaled cuboid collider. *)
Theorem zones_tile x :
  - FRAC_2 <= x -> x < FRAC_2 ->
  countb (fun z => zone_covers z x) zone_bundles = 1%nat.
Proof.
  change FRAC_2 with 130. intros Hlo Hhi. unfold zone_bundles, zone_specs, countb.
  cbn [map]. change FRAC_5 with 52.
  destruct (Qlt_le_dec x (-78)); [|destruct (Qlt_le_dec x (-26));
    [|destruct (Qlt_le_dec x 26); [|destruct (Qlt_le_dec x 78)]]];
    cbn [List.filter]; zone_decide; reflexivity.
Qed.

(** ** The dividers stand on the inner zone borders *)

Ltac solve_exists :=
  unfold zone_bundles, zone_specs, divider_xs;
  solve [repeat (first [apply Exists_cons_hd; vm_compute; reflexivity | apply Exists_cons_tl])].

Ltac guard_or_exists :=
  first [intros Hg; exfalso; vm_compute in Hg; discriminate Hg | intros _; solve_exists].

(** C31: the dividers separate the zones.  Each of the four dividers of a
    panel stands on the border between two neighbouring trigger zones, and
    every zone border inside the arena has a divider. *)
Theorem dividers_on_borders :
  Forall (fun d => Exists (fun z => d == (zone_x_extent z).2) zone_bundles /\
                   Exists (fun z => d == (zone_x_extent z).1) zone_bundles) divider_xs /\
  Forall (fun z =>
            ((zone_x_extent z).2 < FRAC_2 -> Exists (fun d => d == (zone_x_extent z).2) divider_xs) /\
            (- FRAC_2 < (zone_x_extent z).1 -> Exists (fun d => d == (zone_x_extent z).1) divider_xs))
         zone_bundles.
Proof.
  split; apply List.Forall_forall; intros s Hin; repeat destruct Hin as [<-|Hin];
    try destruct Hin; first [split; solve_exists | split; guard_or_exists].
Qed.

(** ** A worker ball fits between any two circles *)

Definition dist2 (p q : Q * Q) : Q :=
  (p.1 - q.1) * (p.1 - q.1) + (p.2 - q.2) * (p.2 - q.2).

(** The gap between the surfaces of the two circles is wider than a worker
    ball: the centres are more than [2 * CIRCLE_RADIUS + WORKER_BALL_DIAMETER]
    apart. *)
Definition passage (p q : Q * Q) : bool :=
  let d := CIRCLE_DIAMETER + inject_Z WORKER_BALL_DIAMETER in
  negb (Qle_bool (dist2 p q) (d * d)).

Fixpoint pairwise {X} (f : X -> X -> bool) (l : list X) : bool :=
  match l with
  | [] => true
  | x :: l' => forallb (f x) l' && pairwise f l'
  end.

Lemma pairwise_nth {X} (f : X -> X -> bool) l i j a b :
  (forall a b, f a b = f b a) -> pairwise f l = true -> i <> j ->
  nth_error l i = Some a -> nth_error l j = Some b -> f a b = true.
Proof.
  intros Hsym. revert i j. induction l as [|x l IH]; intros i j Hp Hij Ha Hb;
    [destruct i; discriminate|].
  simpl in Hp. apply andb_true_iff in Hp as [Hx Hl]. rewrite forallb_forall in Hx.
  destruct i as [|i], j as [|j]; simpl in Ha, Hb.
  - contradiction.
  - injection Ha as <-. apply Hx. eapply nth_error_In; eassumption.
  - injection Hb as <-. rewrite Hsym. apply Hx. eapply nth_error_In; eassumption.
  - apply (IH i j Hl); auto.
Qed.

Lemma passage_sym p q : passage p q = passage q p.
Proof.
  unfold passage. f_equal. apply Bool.eq_iff_eq_true. rewrite !Qle_bool_iff.
  assert (H : dist2 p q == dist2 q p) by (unfold dist2; ring). rewrite H. reflexivity.
Qed.

(** C32: the obstacle course can be passed.  Any two distinct circles of a
    panel's pyramid and grid leave between them a gap wider than a worker
    ball. *)
Theorem circles_leave_passage i j p q :
  i <> j -> nth_error circle_positions i = Some p -> nth_error circle_positions j = Some q ->
  (CIRCLE_DIAMETER + inject_Z WORKER_BALL_DIAMETER) * (CIRCLE_DIAMETER + inject_Z WORKER_BALL_DIAMETER)
    < dist2 p q.
Proof.
  intros Hij Hp Hq.
  assert (Hall : pairwise passage circle_positions = true) by (vm_compute; reflexivity).
  pose proof (pairwise_nth _ _ _ _ _ _ passage_sym Hall Hij Hp Hq) as H.
  unfold passage in H. apply negb_true_iff, not_true_iff_false in H.
  rewrite Qle_bool_iff in H. apply Qnot_le_lt, H.
Qed.

(** ** The world [setup] leaves *)

(** The trigger zones of the log, with their entities. *)
Definition zones_of (log : list Spawned) : list (Entity * TriggerType) :=
  omap (fun s => match sp_item s with
                 | ZoneItem z => Some (sp_entity s, tz_trigger_type z)
                 | _ => None
                 end) log.

(** The panel roots of the log: entity, side and x. *)
Definition roots_of (log : list Spawned) : list (Entity * PanelRootSide * Q) :=
  omap (fun s => match sp_item s with
                 | RootItem side x _ => Some (sp_entity s, side, x)
                 | _ => None
                 end) log.

(** The parent of every trigger zone of the log. *)
Definition zone_parents (log : list Spawned) : list (option Entity) :=
  omap (fun s => match sp_item s with ZoneItem _ => Some (sp_parent s) | _ => None end) log.

(** The world after [setup]: its roots and trigger zones, the spawner of
    [WorkerBallSpawner::new], no ball, no trail, and the first entity the
    log leaves free. *)
Definition setup_world_of_setup (tl : N) : Result World :=
  match setup [] with
  | Ok (_, log) => Ok (setup_world tl (zones_of log) (length log))
  | Err e => Err e
  end.

(** C29: what [setup] builds.  [setup] never panics; it spawns the left
    root and the right root first, at the positions [setup_roots] gives
    them, then 75 entities per panel; each panel gets the zones
    [Multiply(4)], [Multiply(2)], [Multiply(2)], [BurstShot] and
    [ChargedShot], children of its root; and every zone entity is older than
    the first free entity. *)
Theorem setup_result :
  exists log,
    setup [] = Ok ((0%nat, 1%nat), log) /\ length log = 152%nat /\
    roots_of log = map (fun r => (root_entity r, root_side r, inject_Z (vx (root_translation r))))
                       (setup_roots 0%nat 1%nat) /\
    zones_of log = [(65%nat, Multiply 4); (67%nat, Multiply 2); (69%nat, Multiply 2);
                    (71%nat, BurstShot); (73%nat, ChargedShot);
                    (140%nat, Multiply 4); (142%nat, Multiply 2); (144%nat, Multiply 2);
                    (146%nat, BurstShot); (148%nat, ChargedShot)] /\
    zone_parents log = repeat (Some 0%nat) 5 ++ repeat (Some 1%nat) 5 /\
    Forall (fun z => (z.1 < length log)%nat) (zones_of log) /\
    setup_world_of_setup 1000000000 = Ok (setup_world 1000000000 (zones_of log) (length log)).
Proof.
  exists (match setup [] with Ok (_, l) => l | Err _ => [] end).
  vm_compute. repeat split; repeat constructor.
Qed.

(** ** Witnesses *)

Lemma zones_tile_witness :
  - FRAC_2 <= 30 /\ 30 < FRAC_2 /\
  countb (fun z => zone_covers z 30) zone_bundles = 1%nat.
Proof.
  assert (H1 : - FRAC_2 <= 30) by (vm_compute; discriminate).
  assert (H2 : 30 < FRAC_2) by (vm_compute; reflexivity).
  split; [exact H1|split; [exact H2|exact (zones_tile 30 H1 H2)]].
Defined.

Lemma circles_leave_passage_witness :
  exists p q, nth_error circle_positions 0 = Some p /\ nth_error circle_positions 1 = Some q /\
  (CIRCLE_DIAMETER + inject_Z WORKER_BALL_DIAMETER) * (CIRCLE_DIAMETER + inject_Z WORKER_BALL_DIAMETER)
    < dist2 p q.
Proof.
  destruct (nth_error circle_positions 0) as [p|] eqn:H0; [|vm_compute in H0; discriminate].
  destruct (nth_error circle_positions 1) as [q|] eqn:H1; [|vm_compute in H1; discriminate].
  exists p, q. split; [reflexivity|split; [reflexivity|]].
  exact (circles_leave_passage 0 1 p q ltac:(lia) H0 H1).
Defined.
