(* ===== verification/Frames.v ===== *)
(** Runs of the plugin from the world [setup] builds, under Bevy's frame
    semantics: the systems of [PanelPlugin::build] as the transitions
    [System.step], started in the world [Layout.setup_world_of_setup]
    computes from the spawn log of [setup].  The theorem: the bound
    [System.reachable_ball_bound] of [4 * (WORKER_BALL_COUNT_MAX + 1)]
    worker balls is reached, for every [TRAIL_LIFETIME] the spawn clock
    accepts: a first round with every participant alive races a restart in
    the same frame and keeps its four balls, and six more rounds follow, so
    the round cap alone does not bound the population by
    [4 * WORKER_BALL_COUNT_MAX]. *)

From stdpp Require Import base list relations.
From Stdlib Require Import ZArith NArith Lia.
From S2P Require Import Prelude Entities Physics Placement Trails Timer World Spawner Restart System Layout.

Import BevyTimer.

(** ** Retiming a run of [spawn_workers] *)

(** [spawn_workers] reads its spawner only through the tick of its timer and
    its round counter: below the cap, two spawners that agree on both give
    the same run. *)
Lemma run_spawn_workers_retime draws survivors fuel delta delta' w s' i :
  tick delta (timer (spawner w)) = tick delta' (timer s') -> counter (spawner w) = counter s' ->
  (counter s' < WORKER_BALL_COUNT_MAX)%nat ->
  run_spawn_workers draws survivors fuel true delta w i =
  run_spawn_workers draws survivors fuel true delta' (set_spawner s' w) i.
Proof.
  intros Ht Hc Hlt. unfold run_spawn_workers, spawn_workers_condition. simpl spawner.
  rewrite Hc, (proj2 (Nat.ltb_lt _ _) Hlt). simpl. unfold spawn_workers. rewrite Ht, Hc.
  reflexivity.
Qed.

(** The timer of a spawner that has just fired, one period after the last
    firing. *)
Definition fired_timer : Timer := mkTimer WORKER_BALL_SPAWN_TIMER 0 true 1.

(** A spawner at the start of its period, with no round counted. *)
Definition period_start : WorkerBallSpawner := mkSpawner (from_duration WORKER_BALL_SPAWN_TIMER) 0.

Lemma tick_period_start : tick WORKER_BALL_SPAWN_TIMER (timer period_start) = fired_timer.
Proof. reflexivity. Qed.

(** A fresh spawner fires after exactly [TRAIL_LIFETIME], and then stands
    where a spawner one full period into its clock stands. *)
Lemma tick_spawner_new tl :
  (0 < tl <= WORKER_BALL_SPAWN_TIMER)%N -> tick tl (timer (WorkerBallSpawner_new tl)) = fired_timer.
Proof.
  intros Htl. unfold WorkerBallSpawner_new, from_duration, fired_timer, WORKER_BALL_SPAWN_TIMER in *.
  assert (E1 : (10000000000 <=? 0 + (10000000000 - tl))%N = false) by (apply N.leb_gt; lia).
  unfold tick. simpl. rewrite E1. simpl.
  replace (0 + (10000000000 - tl) + tl)%N with 10000000000%N by lia. reflexivity.
Qed.

(** ** The run *)

Definition all_alive (p : Participant) : bool := true.

(** The draws of round [k]: both panels draw [x] and then [x + 18], and
    each round uses the next two of the points [-117 + 18 j], which stay
    in the arena for the seven rounds of the run. *)
Definition round_draws (k : nat) (j : nat) : Z :=
  (-117 + 18 * Z.of_nat (2 * k + j mod 2))%Z.

(** The world after [setup], for a given [TRAIL_LIFETIME]. *)
Definition start_world (tl : N) : World :=
  setup_world tl (match setup_log with Ok (_, log) => zones_of log | Err _ => [] end)
    (match setup_log with Ok (_, log) => length log | Err _ => 0%nat end).

(** One spawn round of the run, from a world at the start of its period. *)
Definition run_round (k : nat) (w : World) : World :=
  match run_spawn_workers (round_draws k) all_alive 1 true WORKER_BALL_SPAWN_TIMER w 0 with
  | Ok (w', _) => w'
  | Err _ => w
  end.

Definition round_ok (k : nat) (w : World) : bool :=
  is_ok (run_spawn_workers (round_draws k) all_alive 1 true WORKER_BALL_SPAWN_TIMER w 0).

(** Rounds [k], [k + 1], ..., [k + n - 1]. *)
Fixpoint run_rounds (n k : nat) (w : World) : World :=
  match n with
  | O => w
  | S n' => run_rounds n' (S k) (run_round k w)
  end.

Fixpoint rounds_ok (n k : nat) (w : World) : bool :=
  match n with
  | O => true
  | S n' => round_ok k w && rounds_ok n' (S k) (run_round k w)
  end.

(** The first round, raced by a restart. *)
Definition first_round : World := run_round 0 (set_spawner period_start (start_world 0)).

Definition after_race (tl : N) : World := restart_deferred tl (start_world tl) first_round.

Lemma run_round_step tl k w :
  round_ok k w = true -> step tl w (run_round k w).
Proof.
  unfold round_ok, run_round. destruct (run_spawn_workers _ _ _ _ _ _ _) as [[w' i']|] eqn:E;
    [|discriminate]. intros _. exact (step_spawn _ _ _ _ _ _ _ _ _ _ E).
Qed.

Lemma run_rounds_steps tl n k w :
  rounds_ok n k w = true -> rtc (step tl) w (run_rounds n k w).
Proof.
  revert k w. induction n as [|n IH]; intros k w H; [reflexivity|].
  simpl in H. apply andb_true_iff in H as [H1 H2].
  eapply rtc_l; [exact (run_round_step tl k w H1)|]. exact (IH _ _ H2).
Qed.

(** The second round, the first one after the race: the spawner is back at
    [WorkerBallSpawner::new]. *)
Definition second_round : World := run_round 1 (set_spawner period_start (after_race 0)).

Lemma start_world_setup tl : setup_world_of_setup tl = Ok (start_world tl).
Proof.
  unfold setup_world_of_setup, start_world, setup_log.
  destruct (setup []) as [[? log]|e] eqn:E; [reflexivity|vm_compute in E; discriminate].
Qed.

(** The worlds of the run depend on [TRAIL_LIFETIME] only through their
    spawner. *)
Lemma set_spawner_setup_world s tl tl' zs n :
  set_spawner s (setup_world tl zs n) = set_spawner s (setup_world tl' zs n).
Proof. reflexivity. Qed.

Lemma set_spawner_restart_deferred s tl tl' w w' w1 :
  balls w = balls w' -> trails w = trails w' ->
  set_spawner s (restart_deferred tl w w1) = set_spawner s (restart_deferred tl' w' w1).
Proof. intros Hb Ht. unfold restart_deferred. rewrite Hb, Ht. reflexivity. Qed.

Lemma spawner_after_race tl :
  spawner (after_race tl) = WorkerBallSpawner_reset tl (spawner first_round).
Proof. reflexivity. Qed.

Lemma first_round_race tl :
  (0 < tl <= WORKER_BALL_SPAWN_TIMER)%N ->
  run_spawn_workers (round_draws 0) all_alive 1 true tl (start_world tl) 0 = Ok (first_round, 4%nat).
Proof.
  intros Htl. rewrite (run_spawn_workers_retime _ _ _ tl WORKER_BALL_SPAWN_TIMER _ period_start).
  - unfold start_world. rewrite (set_spawner_setup_world _ tl 0). vm_compute. reflexivity.
  - exact (tick_spawner_new tl Htl).
  - reflexivity.
  - vm_compute. lia.
Qed.

Lemma second_round_run tl :
  (0 < tl <= WORKER_BALL_SPAWN_TIMER)%N ->
  run_spawn_workers (round_draws 1) all_alive 1 true tl (after_race tl) 0 = Ok (second_round, 4%nat).
Proof.
  intros Htl. rewrite (run_spawn_workers_retime _ _ _ tl WORKER_BALL_SPAWN_TIMER _ period_start).
  - unfold after_race.
    rewrite (set_spawner_restart_deferred _ tl 0 (start_world tl) (start_world 0)) by reflexivity.
    vm_compute. reflexivity.
  - rewrite spawner_after_race.
    rewrite spawner_reset_is_new by (vm_compute; reflexivity). exact (tick_spawner_new tl Htl).
  - reflexivity.
  - vm_compute. lia.
Qed.

(** C17: the population bound is reached.  For every [TRAIL_LIFETIME]
    within the spawn period, there is a run from the world [setup] builds
    that ends with [4 * (WORKER_BALL_COUNT_MAX + 1)] worker balls alive: a
    first round races a restart in the same frame and keeps its four balls
    while the round counter starts again from zero, and six more rounds
    follow.  The round cap of [spawn_workers_condition] alone does not keep
    the population within [4 * WORKER_BALL_COUNT_MAX]. *)
Theorem setup_run_reaches_bound tl :
  (0 < tl <= WORKER_BALL_SPAWN_TIMER)%N ->
  setup_world_of_setup tl = Ok (start_world tl) /\
  exists w, rtc (step tl) (start_world tl) w /\
    length (balls w) = (4 * (WORKER_BALL_COUNT_MAX + 1))%nat.
Proof.
  intros Htl. split; [apply start_world_setup|]. exists (run_rounds 5 2 second_round).
  split; [|vm_compute; reflexivity].
  eapply rtc_l; [exact (step_spawn_restart _ _ _ _ _ _ _ _ _ _ (first_round_race tl Htl))|].
  eapply rtc_l; [exact (step_spawn _ _ _ _ _ _ _ _ _ _ (second_round_run tl Htl))|].
  apply run_rounds_steps. vm_compute. reflexivity.
Qed.

(** ** Witnesses *)

Lemma setup_run_reaches_bound_witness :
  (0 < 1000000000 <= WORKER_BALL_SPAWN_TIMER)%N /\
  setup_world_of_setup 1000000000 = Ok (start_world 1000000000) /\
  exists w, rtc (step 1000000000) (start_world 1000000000) w /\
    length (balls w) = (4 * (WORKER_BALL_COUNT_MAX + 1))%nat.
Proof.
  assert (H : (0 < 1000000000 <= WORKER_BALL_SPAWN_TIMER)%N) by (unfold WORKER_BALL_SPAWN_TIMER; lia).
  split; [exact H|exact (setup_run_reaches_bound 1000000000 H)].
Defined.
