(* ===== verification/Debug.v ===== *)
(** The debug drivers of [src/debug_utils.rs]: [DebugUtilsPlugin], which
    registers [auto_elimination] with an [AutoTimer] (a ten-second
    [TimerMode::Once] timer), and the unregistered drivers [auto_fire],
    [auto_multiply] and [auto_hanabi] that share that timer.  A once timer
    is modelled as [Timer::tick] does it for [TimerMode::Once] (the library
    is not in the repository); [auto_hanabi] packs a colour into the [u32]
    [0xAABBGGRR] word with a saturating float-to-integer cast and [u32]
    shifts, modelled bit for bit on [Z].  The float products
    [color.c * 255.0] are taken as given values: the cast and the bit
    operations are what the code adds.  The theorems: the once timer makes
    [auto_elimination] send its batch exactly once, as soon as ten seconds
    have passed; the colour word decodes to its three 8-bit channels and an
    opaque alpha when the channels are in range; and a channel out of range
    spills into its neighbour. *)

From stdpp Require Import base list.
From Stdlib Require Import ZArith NArith QArith Qround Lia.
From S2P Require Import Prelude Entities Timer.

Import BevyTimer.

(** ** [Timer] in [TimerMode::Once] *)

(** [Timer::tick] of a once timer: a finished timer stays finished and
    reports no new completion; otherwise the elapsed time grows, and when it
    reaches the duration it is clamped there and one completion is
    reported. *)
Definition tick_once (delta : N) (t : Timer) : Timer :=
  if finished t then mkTimer (duration t) (elapsed t) true 0
  else
    let e := (elapsed t + delta)%N in
    if (duration t <=? e)%N then mkTimer (duration t) (duration t) true 1
    else mkTimer (duration t) e false 0.

(** [AutoTimer::default]: [Timer::from_seconds(10.0, TimerMode::Once)]. *)
Definition AUTO_TIMER_DURATION : N := 10000000000.
Definition AutoTimer_default : Timer := mkTimer AUTO_TIMER_DURATION 0 false 0.

(** ** The drivers *)

(** [EliminationEvent] of the [battlefield] module. *)
Record EliminationEvent := mkEliminationEvent { ee_participant : Participant }.

(** [Participant::ALL] of the [utils] module. *)
Definition Participant_ALL : list Participant := [A; B; C; D].

(** [auto_elimination]: tick the timer; when it has just finished, eliminate
    A, B and C. *)
Definition auto_elimination (delta : N) (t : Timer) : Timer * list EliminationEvent :=
  let t' := tick_once delta t in
  if just_finished t' then
    (t', [mkEliminationEvent A; mkEliminationEvent B; mkEliminationEvent C])
  else (t', []).

(** [auto_fire]: three [Multiply(4)] and one [BurstShot] per participant. *)
Definition auto_fire (delta : N) (t : Timer) : Timer * list TriggerEvent :=
  let t' := tick_once delta t in
  if just_finished t' then
    (t', flat_map (fun p => repeat (mkTriggerEvent p (Multiply 4)) 3 ++
                             [mkTriggerEvent p BurstShot]) Participant_ALL)
  else (t', []).

(** [auto_multiply]: one [Multiply(4)] for A. *)
Definition auto_multiply (delta : N) (t : Timer) : Timer * list TriggerEvent :=
  let t' := tick_once delta t in
  if just_finished t' then (t', [mkTriggerEvent A (Multiply 4)]) else (t', []).

(** The registered driver over a sequence of frames of durations [ds]: the
    events of every frame, in order. *)
Fixpoint run_auto_elimination (ds : list N) (t : Timer) : list EliminationEvent :=
  match ds with
  | [] => []
  | d :: ds' => let '(t', ev) := auto_elimination d t in ev ++ run_auto_elimination ds' t'
  end.

(** ** The colour word of [auto_hanabi] *)

Definition u32_max : Z := 4294967295.

(** [v as u32] for a float [v]: truncation towards zero, saturating at [0]
    and [u32::MAX] (NaN does not arise from a product of finite values). *)
Definition as_u32 (v : Q) : Z :=
  if Qle_bool v 0 then 0 else Z.min (Qfloor v) u32_max.

(** [x << k] on [u32]: the bits shifted past bit 31 are lost. *)
Definition shl32 (x k : Z) : Z := Z.land (Z.shiftl x k) (Z.ones 32).

(** [0xFF000000u32 | (b as u32) << 16 | (g as u32) << 8 | (r as u32)], the
    [spawn_color] property of the particle effect; [r], [g] and [b] are the
    products [color.c * 255.0]. *)
Definition color_word (r g b : Q) : Z :=
  Z.lor (Z.lor (Z.lor 4278190080 (shl32 (as_u32 b) 16)) (shl32 (as_u32 g) 8)) (as_u32 r).

(** The channels a reader of the [0xAABBGGRR] word extracts. *)
Definition channel (w : Z) (k : Z) : Z := Z.land (Z.shiftr w k) 255.

(** What [auto_hanabi] spawns: a particle effect at [(x, y, 5.0)] with
    the colour word of its participant. *)
Record HanabiSpawn := mkHanabiSpawn {
  hs_x : Q; hs_y : Q; hs_z : Q; hs_spawn_color : Z;
}.

(** [auto_hanabi]; [x] and [y] are the draws of
    [Uniform::new_inclusive(-BATTLEFIELD_HALF_WIDTH, BATTLEFIELD_HALF_WIDTH)],
    [k] the draw of [Uniform::new(0, 4)], and [scaled p] the three products
    [color.c * 255.0] of the [Srgba] colour of participant [p]. *)
Definition auto_hanabi (scaled : Participant -> Q * Q * Q) (x y : Q) (k : nat)
    (delta : N) (t : Timer) : Result (Timer * option HanabiSpawn) :=
  let t' := tick_once delta t in
  if just_finished t' then
    let? p := match k with
              | 0%nat => Ok A | 1%nat => Ok B | 2%nat => Ok C | 3%nat => Ok D
              | _ => Err (Panic UNREACHABLE)
              end in
    let '(r, g, b) := scaled p in
    Ok (t', Some (mkHanabiSpawn x y 5 (color_word r g b)))
  else Ok (t', None).

(** ** The once timer fires once *)

Definition sum_N (ds : list N) : N := fold_right N.add 0%N ds.

Definition elimination_batch : list EliminationEvent :=
  [mkEliminationEvent A; mkEliminationEvent B; mkEliminationEvent C].

Lemma run_auto_elimination_finished ds t :
  finished t = true -> run_auto_elimination ds t = [].
Proof.
  revert t. induction ds as [|d ds IH]; intros t Hf; [reflexivity|].
  simpl. unfold auto_elimination, tick_once. rewrite Hf. simpl. apply IH. reflexivity.
Qed.

Lemma run_auto_elimination_running ds t :
  finished t = false -> (elapsed t < duration t)%N ->
  run_auto_elimination ds t =
    if (duration t <=? elapsed t + sum_N ds)%N then elimination_batch else [].
Proof.
  revert t. induction ds as [|d ds IH]; intros t Hf Hlt.
  - simpl. rewrite N.add_0_r. destruct (N.leb_spec (duration t) (elapsed t)); [lia|reflexivity].
  - simpl. unfold auto_elimination, tick_once. rewrite Hf.
    destruct (N.leb_spec (duration t) (elapsed t + d)) as [Hd|Hd]; simpl.
    + rewrite run_auto_elimination_finished by reflexivity.
      destruct (N.leb_spec (duration t) (elapsed t + (d + sum_N ds))); [reflexivity|lia].
    + rewrite (IH (mkTimer (duration t) (elapsed t + d) false 0) eq_refl Hd). simpl.
      rewrite N.add_assoc. reflexivity.
Qed.

(** C36: the debug driver eliminates once.  Over any sequence of frames,
    the registered [auto_elimination] sends the batch [A], [B], [C] exactly
    once if the frames add up to at least the ten seconds of its
    [AutoTimer], and never otherwise. *)
Theorem auto_elimination_once ds :
  run_auto_elimination ds AutoTimer_default =
    if (AUTO_TIMER_DURATION <=? sum_N ds)%N then elimination_batch else [].
Proof. apply run_auto_elimination_running; reflexivity. Qed.

(** ** The colour word *)

Lemma Qfloor_byte v : 0 <= v -> v < 256 -> (0 <= Qfloor v < 256)%Z.
Proof.
  intros H0 H1. split.
  - change 0%Z with (Qfloor 0). apply Qfloor_resp_le, H0.
  - rewrite Zlt_Qlt. eapply Qle_lt_trans; [apply Qfloor_le|exact H1].
Qed.

Lemma as_u32_byte v : 0 <= v -> v < 256 -> as_u32 v = Qfloor v.
Proof.
  intros H0 H1. pose proof (Qfloor_byte v H0 H1). unfold as_u32.
  destruct (Qle_bool v 0) eqn:E.
  - apply Qle_bool_iff in E. apply Qfloor_resp_le in E. change (Qfloor 0) with 0%Z in E. lia.
  - unfold u32_max. lia.
Qed.

Lemma shl32_small x k : (0 <= x < 256)%Z -> (0 <= k <= 16)%Z -> shl32 x k = Z.shiftl x k.
Proof.
  intros Hx Hk. unfold shl32. rewrite Z.land_ones by lia. apply Z.mod_small.
  rewrite Z.shiftl_mul_pow2 by lia.
  assert (2 ^ k <= 2 ^ 16)%Z by (apply Z.pow_le_mono_r; lia).
  assert (0 < 2 ^ k)%Z by (apply Z.pow_pos_nonneg; lia). split; [nia|]. simpl in *. nia.
Qed.

(** Or-ing bits below a shifted value adds them. *)
Lemma lor_shift_add x y k :
  (0 <= k)%Z -> (0 <= y < 2 ^ k)%Z -> Z.lor (Z.shiftl x k) y = (x * 2 ^ k + y)%Z.
Proof.
  intros Hk Hy.
  assert (H0 : Z.land (Z.shiftl x k) y = 0%Z).
  { apply Z.bits_inj'. intros i Hi. rewrite Z.land_spec, Z.bits_0.
    destruct (Z.lt_ge_cases i k); [rewrite Z.shiftl_spec_low by lia; reflexivity|].
    rewrite <- (Z.mod_small y (2 ^ k)) by lia.
    rewrite Z.mod_pow2_bits_high by lia. apply andb_false_r. }
  rewrite <- Z.lxor_lor, <- Z.add_nocarry_lxor by exact H0.
  rewrite Z.shiftl_mul_pow2 by lia. reflexivity.
Qed.

(** The colour word of three bytes, as a number. *)
Lemma color_bytes R G B :
  (0 <= R < 256)%Z -> (0 <= G < 256)%Z -> (0 <= B < 256)%Z ->
  Z.lor (Z.lor (Z.lor 4278190080 (Z.shiftl B 16)) (Z.shiftl G 8)) R =
  (((255 * 256 + B) * 256 + G) * 256 + R)%Z.
Proof.
  intros HR HG HB.
  change 4278190080%Z with (Z.shiftl 255 24).
  assert (E : Z.lor (Z.lor (Z.shiftl 255 24) (Z.shiftl B 16)) (Z.shiftl G 8) =
              Z.shiftl (Z.lor (Z.shiftl (Z.lor (Z.shiftl 255 8) B) 8) G) 8).
  { rewrite !Z.shiftl_lor, !Z.shiftl_shiftl by lia. reflexivity. }
  rewrite E, !lor_shift_add by (simpl; lia). reflexivity.
Qed.

Lemma channel_shift w k : (0 <= k)%Z -> channel w k = ((w / 2 ^ k) mod 256)%Z.
Proof.
  intros Hk. unfold channel. change 255%Z with (Z.ones 8).
  rewrite Z.land_ones, Z.shiftr_div_pow2 by lia. reflexivity.
Qed.

(** C37: the colour word round trip.  When the three products
    [color.c * 255.0] lie in [0, 256), the word [auto_hanabi] passes as
    [spawn_color] reads back, byte by byte, as the truncated red, green and
    blue products, with an opaque alpha byte [0xFF]. *)
Theorem color_word_roundtrip r g b :
  0 <= r -> r < 256 -> 0 <= g -> g < 256 -> 0 <= b -> b < 256 ->
  channel (color_word r g b) 0 = Qfloor r /\ channel (color_word r g b) 8 = Qfloor g /\
  channel (color_word r g b) 16 = Qfloor b /\ Z.shiftr (color_word r g b) 24 = 255%Z.
Proof.
  intros Hr0 Hr1 Hg0 Hg1 Hb0 Hb1.
  pose proof (Qfloor_byte r Hr0 Hr1). pose proof (Qfloor_byte g Hg0 Hg1).
  pose proof (Qfloor_byte b Hb0 Hb1).
  unfold color_word. rewrite !as_u32_byte by assumption.
  rewrite !shl32_small by lia. rewrite color_bytes by assumption.
  rewrite !channel_shift, Z.shiftr_div_pow2 by lia. simpl Z.pow.
  repeat split; Z.div_mod_to_equations; lia.
Qed.

Lemma as_u32_range v : (0 <= as_u32 v <= u32_max)%Z.
Proof. unfold as_u32, u32_max. destruct (Qle_bool v 0) eqn:E; [lia|]. 
  apply not_true_iff_false in E. rewrite Qle_bool_iff in E. apply Qnot_le_lt in E.
  assert (0 <= Qfloor v)%Z by (change 0%Z with (Qfloor 0); apply Qfloor_resp_le, Qlt_le_weak, E).
  lia.
Qed.

Lemma as_u32_small v : 0 <= v -> v < 4294967296 -> as_u32 v = Qfloor v.
Proof.
  intros H0 H1. unfold as_u32, u32_max.
  assert (Hlo : (0 <= Qfloor v)%Z) by (change 0%Z with (Qfloor 0); apply Qfloor_resp_le, H0).
  assert (Hhi : (Qfloor v < 4294967296)%Z)
    by (rewrite Zlt_Qlt; eapply Qle_lt_trans; [apply Qfloor_le|exact H1]).
  destruct (Qle_bool v 0) eqn:E; [|lia].
  apply Qle_bool_iff in E. apply Qfloor_resp_le in E. change (Qfloor 0) with 0%Z in E. lia.
Qed.

Lemma channel_lor x y k : channel (Z.lor x y) k = Z.lor (channel x k) (channel y k).
Proof. unfold channel. rewrite Z.shiftr_lor, Z.land_lor_distr_l. reflexivity. Qed.

(** Or-ing a byte into [0xFF] changes nothing. *)
Lemma lor_255_byte x : (0 <= x < 256)%Z -> Z.lor 255 x = 255%Z.
Proof.
  intros Hx. change 255%Z with (Z.ones 8). apply Z.bits_inj'. intros n Hn.
  rewrite Z.lor_spec. destruct (Z.lt_ge_cases n 8).
  - rewrite Z.ones_spec_low by lia. reflexivity.
  - rewrite Z.ones_spec_high by lia. rewrite <- (Z.mod_small x (2 ^ 8)) by (simpl; lia).
    rewrite Z.mod_pow2_bits_high by lia. reflexivity.
Qed.

(** The byte at [k] of a byte shifted to [j], for [j] and [k] among the
    three channel offsets. *)
Ltac channel_arith :=
  rewrite ?channel_shift, ?Z.shiftl_mul_pow2 by lia; simpl Z.pow;
  Z.div_mod_to_equations; lia.

(** C38: out-of-range channels corrupt the word.  The cast [as u32]
    saturates at [u32::MAX], not at 255, and the word is assembled with
    [|]: for a red product anywhere in [0, 2^32) the red byte of the word is
    its truncation modulo 256, and bits 8-15 and 16-23 of the truncation
    are or-ed into the green and blue bytes; the alpha byte stays [0xFF].
    A red product of 256 or more thus changes the green byte. *)
Theorem color_word_red_overflow r g b :
  0 <= r -> r < 4294967296 -> 0 <= g -> g < 256 -> 0 <= b -> b < 256 ->
  channel (color_word r g b) 0 = (Qfloor r mod 256)%Z /\
  channel (color_word r g b) 8 = Z.lor (Qfloor g) ((Qfloor r / 256) mod 256)%Z /\
  channel (color_word r g b) 16 = Z.lor (Qfloor b) ((Qfloor r / 65536) mod 256)%Z /\
  Z.shiftr (color_word r g b) 24 = 255%Z.
Proof.
  intros Hr0 Hr1 Hg0 Hg1 Hb0 Hb1.
  pose proof (Qfloor_byte g Hg0 Hg1). pose proof (Qfloor_byte b Hb0 Hb1).
  pose proof (as_u32_range r) as HR. unfold u32_max in HR.
  assert (HR8 : channel (as_u32 r) 8 = ((Qfloor r / 256) mod 256)%Z)
    by (rewrite (as_u32_small r Hr0 Hr1), channel_shift by lia; reflexivity).
  assert (HR16 : channel (as_u32 r) 16 = ((Qfloor r / 65536) mod 256)%Z)
    by (rewrite (as_u32_small r Hr0 Hr1), channel_shift by lia; reflexivity).
  rewrite <- HR8, <- HR16, <- (as_u32_small r Hr0 Hr1).
  unfold color_word. rewrite (as_u32_byte g), (as_u32_byte b) by assumption.
  rewrite !shl32_small by lia.
  set (R := as_u32 r) in *. set (G := Qfloor g) in *. set (B := Qfloor b) in *.
  rewrite !channel_lor.
  assert (C0 : channel 4278190080 0 = 0%Z) by reflexivity.
  assert (C8 : channel 4278190080 8 = 0%Z) by reflexivity.
  assert (C16 : channel 4278190080 16 = 0%Z) by reflexivity.
  assert (B0 : channel (Z.shiftl B 16) 0 = 0%Z) by channel_arith.
  assert (B8 : channel (Z.shiftl B 16) 8 = 0%Z) by channel_arith.
  assert (B16 : channel (Z.shiftl B 16) 16 = B) by channel_arith.
  assert (G0 : channel (Z.shiftl G 8) 0 = 0%Z) by channel_arith.
  assert (G8 : channel (Z.shiftl G 8) 8 = G) by channel_arith.
  assert (G16 : channel (Z.shiftl G 8) 16 = 0%Z) by channel_arith.
  assert (R0 : channel R 0 = (R mod 256)%Z) by (rewrite channel_shift, Z.pow_0_r, Z.div_1_r by lia; reflexivity).
  rewrite C0, C8, C16, B0, B8, B16, G0, G8, G16, R0, !Z.lor_0_l, !Z.lor_0_r.
  split; [reflexivity|]. split; [reflexivity|]. split; [reflexivity|].
  rewrite !Z.shiftr_lor, !Z.shiftr_shiftl_r by lia.
  rewrite (Z.shiftr_div_pow2 B), (Z.shiftr_div_pow2 G), (Z.shiftr_div_pow2 R) by lia.
  rewrite (Z.div_small B), (Z.div_small G) by (simpl; lia). rewrite !Z.lor_0_r.
  apply lor_255_byte. simpl Z.pow. split; [apply Z.div_pos; lia|apply Z.div_lt_upper_bound; lia].
Qed.

(** C39: [auto_hanabi]'s [unreachable!()].  When its timer fires,
    [auto_hanabi] panics exactly when the draw of [Uniform::new(0, 4)] is
    not below 4, which that distribution never yields; otherwise it spawns
    one effect at the drawn point. *)
Theorem auto_hanabi_unreachable scaled x y k delta t :
  just_finished (tick_once delta t) = true ->
  (auto_hanabi scaled x y k delta t = Err (Panic UNREACHABLE) <-> (4 <= k)%nat) /\
  ((k < 4)%nat -> exists s, auto_hanabi scaled x y k delta t = Ok (tick_once delta t, Some s) /\
                            hs_x s = x /\ hs_y s = y).
Proof.
  intros Hj. unfold auto_hanabi. rewrite Hj.
  destruct k as [|[|[|[|k]]]]; simpl;
    try (destruct (scaled _) as [[r g] b];
         split; [split; [discriminate|intros; lia]|intros _; eexists; eauto]).
  split; [split; [intros _; lia|intros _; reflexivity]|intros; lia].
Qed.

(** ** Witnesses *)

Lemma color_word_roundtrip_witness :
  channel (color_word 127.5 200 0) 0 = 127%Z /\ channel (color_word 127.5 200 0) 8 = 200%Z /\
  channel (color_word 127.5 200 0) 16 = 0%Z /\ Z.shiftr (color_word 127.5 200 0) 24 = 255%Z.
Proof.
  destruct (color_word_roundtrip 127.5 200 0
              ltac:(vm_compute; discriminate) ltac:(vm_compute; reflexivity)
              ltac:(vm_compute; discriminate) ltac:(vm_compute; reflexivity)
              ltac:(vm_compute; discriminate) ltac:(vm_compute; reflexivity))
    as (H1 & H2 & H3 & H4).
  rewrite H1, H2, H3, H4. vm_compute. repeat split.
Defined.

Definition black (p : Participant) : Q * Q * Q := (0, 0, 0).

Lemma color_word_red_overflow_witness :
  (0 <= 256 /\ 256 < 4294967296 /\ 0 <= 0 /\ 0 < 256) /\
  channel (color_word 256 0 0) 0 = 0%Z /\ channel (color_word 256 0 0) 8 = 1%Z /\
  channel (color_word 256 0 0) 16 = 0%Z /\ Z.shiftr (color_word 256 0 0) 24 = 255%Z.
Proof.
  assert (H0 : 0 <= 0) by (vm_compute; discriminate). assert (H1 : 0 < 256) by reflexivity.
  assert (H2 : 0 <= 256) by (vm_compute; discriminate). assert (H3 : 256 < 4294967296) by reflexivity.
  destruct (color_word_red_overflow 256 0 0 H2 H3 H0 H1 H0 H1) as (E0 & E8 & E16 & E24).
  split; [repeat split; assumption|]. rewrite E0, E8, E16, E24. vm_compute. repeat split.
Defined.

Lemma auto_hanabi_unreachable_witness :
  just_finished (tick_once AUTO_TIMER_DURATION AutoTimer_default) = true /\
  (auto_hanabi black 1 2 7 AUTO_TIMER_DURATION AutoTimer_default = Err (Panic UNREACHABLE) <->
   (4 <= 7)%nat) /\
  ((7 < 4)%nat -> exists s, auto_hanabi black 1 2 7 AUTO_TIMER_DURATION AutoTimer_default =
                            Ok (tick_once AUTO_TIMER_DURATION AutoTimer_default, Some s) /\
                            hs_x s = 1 /\ hs_y s = 2).
Proof.
  assert (Hj : just_finished (tick_once AUTO_TIMER_DURATION AutoTimer_default) = true)
    by (vm_compute; reflexivity).
  split; [exact Hj|].
  exact (auto_hanabi_unreachable black 1 2 7 AUTO_TIMER_DURATION AutoTimer_default Hj).
Defined.
